(** * Reference conditioning: the WRITE/READ bank machine of
      [adv_control/control_reference.py]

    The development follows the Python module top-down: the string constants
    and the two "enum" classes, the option and unit records, the per-layer
    banks and their holders, the registry, the two layer injections and the
    top-level forward interceptor.

    Conventions of the embedding.
    - Python [float] configuration scalars (weights, strengths, fidelities)
      are rationals [Q]: every finite binary64 value is one.  Comparisons
      are exact on them, and so is [math.isclose] against 0.0 (against 1.0
      the float result can differ at the very edge of the tolerance).  Sums,
      products and quotients are exact in [Q] and rounded in Python, so a
      value computed here (the average fidelity, the effective strength)
      names the quantity the code computes up to rounding; no statement
      below relies on more.
    - Tensors that the state machine merely stores and hands around are an
      abstract type [Tensor]; the arithmetic kernels ([ref_noise_latents],
      the final fidelity blend) are modelled on tensors of real numbers.
      Where the state machine is run on abstract tensors, the operations of
      torch and of the network on them (attention, concatenation, the
      strength blend, [var_mean]) are taken to return.
    - An exception is a value of [exn]; code that can raise returns an
      [outcome], stateful code passes the mutable world explicitly. *)

From Stdlib Require Import ZArith QArith Qabs Qminmax Reals Psatz Qreals.
From stdpp Require Import gmap strings list.
From stdpp Require Import pretty.

(** ** Keys of the [transformer_options] side channel *)

Definition REF_READ_ATTN_CONTROL_LIST : string := "ref_read_attn_control_list".
Definition REF_WRITE_ATTN_CONTROL_LIST : string := "ref_write_attn_control_list".
Definition REF_READ_ADAIN_CONTROL_LIST : string := "ref_read_adain_control_list".
Definition REF_WRITE_ADAIN_CONTROL_LIST : string := "ref_write_adain_control_list".

Definition REF_CONTROL_LIST_ALL : string := "ref_control_list_all".
Definition REF_COND_IDXS : string := "ref_cond_idxs".
Definition REF_UNCOND_IDXS : string := "ref_uncond_idxs".

Definition CONTEXTREF_OPTIONS_CLASS : string := "contextref_options_class".
Definition CONTEXTREF_CONTROL_LIST_ALL : string := "contextref_control_list_all".
Definition CONTEXTREF_ATTN_MACHINE_STATE : string := "contextref_attn_machine_state".
Definition CONTEXTREF_ADAIN_MACHINE_STATE : string := "contextref_adain_machine_state".

Definition COND_OR_UNCOND : string := "cond_or_uncond".

Module MachineState.
Definition WRITE : string := "write".
Definition READ : string := "read".
Definition STYLEALIGN : string := "stylealign".
Definition OFF : string := "off".
End MachineState.

Module ReferenceType.
Definition ATTN : string := "reference_attn".
Definition ADAIN : string := "reference_adain".
Definition ATTN_ADAIN : string := "reference_attn+adain".
Definition STYLE_ALIGN : string := "StyleAlign".

Definition _LIST : list string := [ATTN; ADAIN; ATTN_ADAIN].
Definition _LIST_ATTN : list string := [ATTN; ATTN_ADAIN].
Definition _LIST_ADAIN : list string := [ADAIN; ATTN_ADAIN].

Definition is_attn (ref_type : string) : bool :=
  bool_decide (ref_type ∈ _LIST_ATTN).

Definition is_adain (ref_type : string) : bool :=
  bool_decide (ref_type ∈ _LIST_ADAIN).
End ReferenceType.

(** ** [math.isclose] with its default tolerances

    [math.isclose(a, b)] is [abs(a-b) <= max(rel_tol * max(abs(a), abs(b)),
    abs_tol)] with [rel_tol = 1e-09] and [abs_tol = 0.0]. *)

Definition rel_tol : Q := 1 # 1000000000.
Definition abs_tol : Q := 0.

Definition isclose (a b : Q) : bool :=
  Qle_bool (Qabs (a - b)) (Qmax (rel_tol * Qmax (Qabs a) (Qabs b)) abs_tol).

(** Python's [a > b] on floats. *)
Definition Qgt_bool (a b : Q) : bool := negb (Qle_bool a b).

(** ** Exceptions and outcomes *)

Inductive exn : Type :=
  | AssertionError
  | KeyError (key : string)
  | TypeError
  | IndexError
  | ZeroDivisionError
  | AttributeError
  | UnboundLocalError (name : string)
  | ModelError.

Inductive outcome (A : Type) : Type :=
  | Ok (a : A)
  | Raised (e : exn).
Arguments Ok {A} a.
Arguments Raised {A} e.

Definition is_ok {A} (r : outcome A) : bool :=
  match r with Ok _ => true | Raised _ => false end.

(** ** ReferenceOptions *)

Module ReferenceOptions.
Record t : Type := mk {
  reference_type : string;
  (* attn *)
  original_attn_style_fidelity : Q;
  attn_style_fidelity : Q;
  attn_ref_weight : Q;
  attn_strength : Q;
  (* adain *)
  original_adain_style_fidelity : Q;
  adain_style_fidelity : Q;
  adain_ref_weight : Q;
  adain_strength : Q;
  (* other *)
  ref_with_other_cns : bool
}.

(** [ReferenceOptions.__init__]; [attn_strength], [adain_strength] and
    [ref_with_other_cns] default to [1.0], [1.0] and [False]. *)
Definition init (reference_type : string)
    (attn_style_fidelity adain_style_fidelity : Q)
    (attn_ref_weight adain_ref_weight : Q)
    (attn_strength adain_strength : Q)
    (ref_with_other_cns : bool) : t :=
  {| reference_type := reference_type;
     original_attn_style_fidelity := attn_style_fidelity;
     attn_style_fidelity := attn_style_fidelity;
     attn_ref_weight := attn_ref_weight;
     attn_strength := attn_strength;
     original_adain_style_fidelity := adain_style_fidelity;
     adain_style_fidelity := adain_style_fidelity;
     adain_ref_weight := adain_ref_weight;
     adain_strength := adain_strength;
     ref_with_other_cns := ref_with_other_cns |}.

Definition clone (self : t) : t :=
  init (reference_type self)
       (original_attn_style_fidelity self) (original_adain_style_fidelity self)
       (attn_ref_weight self) (adain_ref_weight self)
       (attn_strength self) (adain_strength self)
       (ref_with_other_cns self).

Definition create_combo (reference_type : string) (style_fidelity ref_weight : Q)
    (ref_with_other_cns : bool) : t :=
  init reference_type style_fidelity style_fidelity ref_weight ref_weight 1 1
       ref_with_other_cns.
End ReferenceOptions.

(** ** The base classes

    The base classes [ControlBase] and [AdvancedControlBase] live in other
    files.  Of their state the model keeps the attributes that the strength
    code of [ReferenceAdvanced] reads: [self.strength], the strength of
    [self._current_timestep_keyframe] when there is one, and whether
    [latent_keyframes], [mask_cond_hint] and [tk_mask_cond_hint] are set
    (after [prepare_mask_cond_hint] has run). *)

Module TimestepKeyframe.
Record t : Type := mk { strength : Q }.
End TimestepKeyframe.

Module AdvancedControlBase.
Record t : Type := mk {
  strength : Q;
  _current_timestep_keyframe : option TimestepKeyframe.t;
  latent_keyframes : bool;
  mask_cond_hint : bool;
  tk_mask_cond_hint : bool
}.
End AdvancedControlBase.

(** ** ReferenceAdvanced

    Of the state of the base classes the record keeps [base_should_run], the
    answer [super().should_run()] gives at the current step, [base], the
    attributes the strength code reads, and [cond_hint], the noised hint
    [get_control_advanced] last stored ([None] for a unit without
    [cond_hint_original]).  [latent_shape] is [list(x_noisy.shape)] as
    [get_control_advanced] left it, [None] before the first step. *)

Module ReferenceAdvanced.
Section Def.
Context {Tensor : Type}.

Record t : Type := mk {
  base_should_run : bool;
  base : AdvancedControlBase.t;
  cond_hint : option Tensor;
  ref_opts : ReferenceOptions.t;
  order : Z;
  should_apply_attn_effective_strength : bool;
  should_apply_adain_effective_strength : bool;
  should_apply_effective_masks : bool;
  latent_shape : option (list Z);
  (* ContextRef stuff *)
  is_context_ref : bool
}.

(** [ReferenceAdvanced.__init__]: what the constructors of the base classes
    leave behind is passed as [base_running] and [base]; the hint is unset. *)
Definition init (base_running : bool) (base : AdvancedControlBase.t)
    (ref_opts : ReferenceOptions.t) : t :=
  {| base_should_run := base_running;
     base := base;
     cond_hint := None;
     ref_opts := ref_opts;
     order := 0;
     should_apply_attn_effective_strength := false;
     should_apply_adain_effective_strength := false;
     should_apply_effective_masks := false;
     latent_shape := None;
     is_context_ref := false |}.

Definition set_order (self : t) (o : Z) : t :=
  {| base_should_run := base_should_run self;
     base := base self;
     cond_hint := cond_hint self;
     ref_opts := ref_opts self;
     order := o;
     should_apply_attn_effective_strength := should_apply_attn_effective_strength self;
     should_apply_adain_effective_strength := should_apply_adain_effective_strength self;
     should_apply_effective_masks := should_apply_effective_masks self;
     latent_shape := latent_shape self;
     is_context_ref := is_context_ref self |}.

Definition any_attn_strength_to_apply (self : t) : bool :=
  should_apply_attn_effective_strength self || should_apply_effective_masks self.

Definition any_adain_strength_to_apply (self : t) : bool :=
  should_apply_adain_effective_strength self || should_apply_effective_masks self.

Definition should_run (self : t) : bool :=
  let running := base_should_run self in
  if negb running then running
  else
    let attn_run :=
      if ReferenceType.is_attn (ReferenceOptions.reference_type (ref_opts self))
      then negb (isclose (ReferenceOptions.attn_ref_weight (ref_opts self)) 0
                 || isclose (ReferenceOptions.attn_strength (ref_opts self)) 0)
      else false in
    let adain_run :=
      if ReferenceType.is_adain (ReferenceOptions.reference_type (ref_opts self))
      then negb (isclose (ReferenceOptions.adain_ref_weight (ref_opts self)) 0
                 || isclose (ReferenceOptions.adain_strength (ref_opts self)) 0)
      else false in
    attn_run || adain_run.
End Def.
Arguments t : clear implicits.
End ReferenceAdvanced.

(** ** Effective strength *)

Definition CHANNEL_TO_MULT : gmap Z Z :=
  <[320%Z := 1%Z]> (<[640%Z := 2%Z]> (<[1280%Z := 4%Z]> ∅)).

(** What [get_effective_attn_mask_or_float] and
    [get_effective_adain_mask_or_float] return: a float, or a mask tensor.
    The mask starts as [torch.ones(shape) * strength * channel_strength] and
    is scaled in place by [apply_advanced_strengths_and_masks] ([utils.py]),
    which is taken to return; of the mask the model keeps the shape it is
    returned with and the value it starts from. *)
Inductive strength_or_mask : Type :=
  | Strength (effective_strength : Q)
  | Mask (shape : list Z) (start : Q).

Section EffectiveStrength.
Context {Tensor : Type}.

Definition get_effective_strength (self : ReferenceAdvanced.t Tensor) : Q :=
  let effective_strength := AdvancedControlBase.strength (ReferenceAdvanced.base self) in
  match AdvancedControlBase._current_timestep_keyframe (ReferenceAdvanced.base self) with
  | Some keyframe => (effective_strength * TimestepKeyframe.strength keyframe)%Q
  | None => effective_strength
  end.

Definition get_effective_attn_mask_or_float (self : ReferenceAdvanced.t Tensor)
    (channels : Z) (is_mid : bool) : outcome strength_or_mask :=
  let attn_strength := ReferenceOptions.attn_strength (ReferenceAdvanced.ref_opts self) in
  if negb (ReferenceAdvanced.should_apply_effective_masks self)
  then Ok (Strength (get_effective_strength self * attn_strength)%Q)
  else
    let div :=
      if is_mid then Some 8%Z else CHANNEL_TO_MULT !! channels in
    match div with
    | None => Raised (KeyError (pretty channels))
    | Some div =>
        match ReferenceAdvanced.latent_shape self with
        | None => Raised TypeError
        | Some shape =>
            match shape !! 0%nat, shape !! 2%nat, shape !! 3%nat with
            | Some b, Some h, Some w =>
                (* [b, 1, h // div, w // div], then permuted and reshaped to
                   [b, h*w, 1] *)
                Ok (Mask [b; ((h / div) * (w / div))%Z; 1%Z]
                         (AdvancedControlBase.strength (ReferenceAdvanced.base self)
                          * attn_strength)%Q)
            | _, _, _ => Raised IndexError
            end
        end
    end.

(** [x_shape] is [x.shape], four dimensions. *)
Definition get_effective_adain_mask_or_float (self : ReferenceAdvanced.t Tensor)
    (x_shape : Z * Z * Z * Z) : strength_or_mask :=
  let adain_strength := ReferenceOptions.adain_strength (ReferenceAdvanced.ref_opts self) in
  if negb (ReferenceAdvanced.should_apply_effective_masks self)
  then Strength (get_effective_strength self * adain_strength)%Q
  else
    let '(b, c, h, w) := x_shape in
    Mask [b; 1%Z; h; w]
         (AdvancedControlBase.strength (ReferenceAdvanced.base self) * adain_strength)%Q.

(** [not (math.isclose(self.strength, 1.0) and
    math.isclose(self._current_timestep_keyframe.strength, 1.0) and
    math.isclose(channel_strength, 1.0))], with Python's short-circuit
    evaluation: the keyframe is only read when the first test holds. *)
Definition should_apply_effective_strength (self : ReferenceAdvanced.t Tensor)
    (channel_strength : Q) : outcome bool :=
  let base := ReferenceAdvanced.base self in
  if isclose (AdvancedControlBase.strength base) 1 then
    match AdvancedControlBase._current_timestep_keyframe base with
    | None => Raised AttributeError
    | Some keyframe =>
        Ok (negb (isclose (TimestepKeyframe.strength keyframe) 1
                  && isclose channel_strength 1))
    end
  else Ok true.

(** The end of [get_control_advanced]: the three flags the READ loops
    consult, and [self.latent_shape = list(x_noisy.shape)].  [base] is the
    state of the base classes after [prepare_mask_cond_hint], which runs
    between the strength flags and the mask flag. *)
Definition get_control_advanced_flags (self : ReferenceAdvanced.t Tensor)
    (x_noisy_shape : list Z) : outcome (ReferenceAdvanced.t Tensor) :=
  let base := ReferenceAdvanced.base self in
  match should_apply_effective_strength self
          (ReferenceOptions.attn_strength (ReferenceAdvanced.ref_opts self)) with
  | Raised e => Raised e
  | Ok attn_flag =>
      match should_apply_effective_strength self
              (ReferenceOptions.adain_strength (ReferenceAdvanced.ref_opts self)) with
      | Raised e => Raised e
      | Ok adain_flag =>
          Ok {| ReferenceAdvanced.base_should_run := ReferenceAdvanced.base_should_run self;
                ReferenceAdvanced.base := base;
                ReferenceAdvanced.cond_hint := ReferenceAdvanced.cond_hint self;
                ReferenceAdvanced.ref_opts := ReferenceAdvanced.ref_opts self;
                ReferenceAdvanced.order := ReferenceAdvanced.order self;
                ReferenceAdvanced.should_apply_attn_effective_strength := attn_flag;
                ReferenceAdvanced.should_apply_adain_effective_strength := adain_flag;
                ReferenceAdvanced.should_apply_effective_masks :=
                  AdvancedControlBase.latent_keyframes base
                  || AdvancedControlBase.mask_cond_hint base
                  || AdvancedControlBase.tk_mask_cond_hint base;
                ReferenceAdvanced.latent_shape := Some x_noisy_shape;
                ReferenceAdvanced.is_context_ref := ReferenceAdvanced.is_context_ref self |}
      end
  end.
End EffectiveStrength.

(** ** Values stored in [transformer_options] *)

Inductive pyval {Tensor : Type} : Type :=
  | PyStr (s : string)
  | PyControlList (l : list (ReferenceAdvanced.t Tensor))
  | PyIntList (l : list Z)
  | PyClass (name : string).
Arguments pyval : clear implicits.

(** ** handle_context_ref_setup *)

Section ContextRefSetup.
Context {Tensor : Type}.
(** What the base-class constructors decide about running and leave in the
    attributes the strength code reads; [utils.py] is not among the
    sources. *)
Variable base_running : bool.
Variable base : AdvancedControlBase.t.

Definition handle_context_ref_setup (transformer_options : gmap string (pyval Tensor))
    : list (ReferenceAdvanced.t Tensor) * gmap string (pyval Tensor) :=
  let transformer_options :=
    <[CONTEXTREF_ATTN_MACHINE_STATE := PyStr MachineState.OFF]> transformer_options in
  let transformer_options :=
    <[CONTEXTREF_ADAIN_MACHINE_STATE := PyStr MachineState.OFF]> transformer_options in
  let opts := ReferenceOptions.init ReferenceType.ATTN 1 0 1 0 1 1 false in
  let cref := ReferenceAdvanced.init base_running base opts in
  let cref := ReferenceAdvanced.set_order cref (-1) in
  let context_ref_list := [cref] in
  let transformer_options :=
    <[CONTEXTREF_CONTROL_LIST_ALL := PyControlList context_ref_list]> transformer_options in
  let transformer_options :=
    <[CONTEXTREF_OPTIONS_CLASS := PyClass "ReferenceOptions"]> transformer_options in
  (context_ref_list, transformer_options).
End ContextRefSetup.

(** ** Per-layer banks

    The parallel Python lists are kept as they are: one list per attribute,
    the RefCN ("own") set and the ContextRef ("context", [c_]) set. *)

(** Python's [sum(l)], without the rounding of the float additions. *)
Definition py_sum (l : list Q) : Q := fold_left Qplus l 0%Q.

Module BankStylesBasicTransformerBlock.
Section Def.
Context {Tensor : Type}.

Record t : Type := mk {
  (* ref *)
  bank : list Tensor;
  style_cfgs : list Q;
  cn_idx : list Z;
  (* contextref *)
  c_bank : list Tensor;
  c_style_cfgs : list Q;
  c_cn_idx : list Z
}.

Definition init : t := mk [] [] [] [] [] [].

Definition get_bank (self : t) (ignore_contextref : bool) : list Tensor :=
  if ignore_contextref then bank self else bank self ++ c_bank self.

(** [sum(combined) / float(len(combined))]: the exact mean, which the float
    quotient approximates within rounding (the mean of three times 0.1 is
    0.10000000000000002 in Python). *)
Definition get_avg_style_fidelity (self : t) (ignore_contextref : bool) : outcome Q :=
  let combined :=
    if ignore_contextref then style_cfgs self
    else style_cfgs self ++ c_style_cfgs self in
  match combined with
  | [] => Raised ZeroDivisionError
  | _ => Ok (py_sum combined / inject_Z (Z.of_nat (length combined)))%Q
  end.

Definition get_cn_idxs (self : t) (ignore_contxtref : bool) : list Z :=
  if ignore_contxtref then cn_idx self else cn_idx self ++ c_cn_idx self.

Definition clean_ref (self : t) : t :=
  mk [] [] [] (c_bank self) (c_style_cfgs self) (c_cn_idx self).

Definition clean_contextref (self : t) : t :=
  mk (bank self) (style_cfgs self) (cn_idx self) [] [] [].

Definition clean_all (self : t) : t :=
  clean_contextref (clean_ref self).
End Def.
Arguments t : clear implicits.
End BankStylesBasicTransformerBlock.

Module BankStylesTimestepEmbedSequential.
Section Def.
Context {Tensor : Type}.

Record t : Type := mk {
  (* ref *)
  var_bank : list Tensor;
  mean_bank : list Tensor;
  style_cfgs : list Q;
  cn_idx : list Z;
  (* cref *)
  c_var_bank : list Tensor;
  c_mean_bank : list Tensor;
  c_style_cfgs : list Q;
  c_cn_idx : list Z
}.

Definition init : t := mk [] [] [] [] [] [] [] [].

Definition get_var_bank (self : t) (ignore_contextref : bool) : list Tensor :=
  if ignore_contextref then var_bank self else var_bank self ++ c_var_bank self.

Definition get_mean_bank (self : t) (ignore_contextref : bool) : list Tensor :=
  if ignore_contextref then mean_bank self else mean_bank self ++ c_mean_bank self.

Definition get_style_cfgs (self : t) (ignore_contextref : bool) : list Q :=
  if ignore_contextref then style_cfgs self else style_cfgs self ++ c_style_cfgs self.

Definition get_cn_idx (self : t) (ignore_contextref : bool) : list Z :=
  if ignore_contextref then cn_idx self else cn_idx self ++ c_cn_idx self.

Definition clean_ref (self : t) : t :=
  mk [] [] [] [] (c_var_bank self) (c_mean_bank self) (c_style_cfgs self) (c_cn_idx self).

Definition clean_contextref (self : t) : t :=
  mk (var_bank self) (mean_bank self) (style_cfgs self) (cn_idx self) [] [] [] [].

Definition clean_all (self : t) : t :=
  clean_contextref (clean_ref self).
End Def.
Arguments t : clear implicits.
End BankStylesTimestepEmbedSequential.

(** ** Holders

    [original_forward] only serves [restore], which no statement below
    involves; it is left out of the records. *)

Module InjectionBasicTransformerBlockHolder.
Section Def.
Context {Tensor : Type}.

Record t : Type := mk {
  idx : option Z;
  attn_weight : Q;
  is_middle : bool;
  bank_styles : BankStylesBasicTransformerBlock.t Tensor
}.

Definition init (idx : option Z) : t :=
  mk idx 1 false BankStylesBasicTransformerBlock.init.

Definition set_bank_styles (self : t) (b : BankStylesBasicTransformerBlock.t Tensor) : t :=
  mk (idx self) (attn_weight self) (is_middle self) b.

Definition clean_ref (self : t) : t :=
  set_bank_styles self (BankStylesBasicTransformerBlock.clean_ref (bank_styles self)).

Definition clean_contextref (self : t) : t :=
  set_bank_styles self (BankStylesBasicTransformerBlock.clean_contextref (bank_styles self)).

Definition clean_all (self : t) : t :=
  set_bank_styles self (BankStylesBasicTransformerBlock.clean_all (bank_styles self)).
End Def.
Arguments t : clear implicits.
End InjectionBasicTransformerBlockHolder.

Module InjectionTimestepEmbedSequentialHolder.
Section Def.
Context {Tensor : Type}.

Record t : Type := mk {
  idx : option Z;
  gn_weight : Q;
  is_middle : bool;
  is_input : bool;
  is_output : bool;
  bank_styles : BankStylesTimestepEmbedSequential.t Tensor
}.

Definition init (idx : option Z) (is_middle is_input is_output : bool) : t :=
  mk idx 1 is_middle is_input is_output BankStylesTimestepEmbedSequential.init.

Definition set_bank_styles (self : t) (b : BankStylesTimestepEmbedSequential.t Tensor) : t :=
  mk (idx self) (gn_weight self) (is_middle self) (is_input self) (is_output self) b.

Definition clean_ref (self : t) : t :=
  set_bank_styles self (BankStylesTimestepEmbedSequential.clean_ref (bank_styles self)).

Definition clean_contextref (self : t) : t :=
  set_bank_styles self (BankStylesTimestepEmbedSequential.clean_contextref (bank_styles self)).

Definition clean_all (self : t) : t :=
  set_bank_styles self (BankStylesTimestepEmbedSequential.clean_all (bank_styles self)).
End Def.
Arguments t : clear implicits.
End InjectionTimestepEmbedSequentialHolder.

(** ** ReferenceInjections

    The registry lists the patched modules; each is represented by the
    [injection_holder] it carries.  Cleaning a holder cannot raise, so the
    [try]/[except Exception: pass] around each call never fires and the loops
    are plain maps. *)

Module ReferenceInjections.
Section Def.
Context {Tensor : Type}.

Record t : Type := mk {
  attn_modules : list (InjectionBasicTransformerBlockHolder.t Tensor);
  gn_modules : list (InjectionTimestepEmbedSequentialHolder.t Tensor)
}.

Definition clean_ref_module_mem (self : t) : t :=
  mk (map InjectionBasicTransformerBlockHolder.clean_ref (attn_modules self))
     (map InjectionTimestepEmbedSequentialHolder.clean_ref (gn_modules self)).

Definition clean_contextref_module_mem (self : t) : t :=
  mk (map InjectionBasicTransformerBlockHolder.clean_contextref (attn_modules self))
     (map InjectionTimestepEmbedSequentialHolder.clean_contextref (gn_modules self)).

Definition clean_all_module_mem (self : t) : t :=
  mk (map InjectionBasicTransformerBlockHolder.clean_all (attn_modules self))
     (map InjectionTimestepEmbedSequentialHolder.clean_all (gn_modules self)).

Definition cleanup (self : t) : t :=
  let _ := clean_all_module_mem self in mk [] [].
End Def.
Arguments t : clear implicits.
End ReferenceInjections.

(** ** Typed reads of [transformer_options] *)

Section Options.
Context {Tensor : Type}.

(** [transformer_options.get(key, [])] used as a list of units. *)
Definition get_control_list (transformer_options : gmap string (pyval Tensor))
    (key : string) : outcome (list (ReferenceAdvanced.t Tensor)) :=
  match transformer_options !! key with
  | None => Ok []
  | Some (PyControlList l) => Ok l
  | Some _ => Raised TypeError
  end.

(** [transformer_options.get(key, [])] used as a list of indices. *)
Definition get_int_list (transformer_options : gmap string (pyval Tensor))
    (key : string) : outcome (list Z) :=
  match transformer_options !! key with
  | None => Ok []
  | Some (PyIntList l) => Ok l
  | Some _ => Raised TypeError
  end.

(** [v == s] for a string constant [s]. *)
Definition py_eq_str (v : pyval Tensor) (s : string) : bool :=
  match v with
  | PyStr s' => bool_decide (s' = s)
  | _ => false
  end.
End Options.

(** ** The order-matching scan shared by the READ loops

    [for i in range(cn_idx, len(ref_read_cns)): if ref_read_cns[i].order ==
    order: cn_idx = i; break] — the first position at or after [cn_idx] whose
    unit has the wanted order, [cn_idx] itself when there is none. *)

Section Scan.
Context {Tensor : Type}.

Fixpoint first_match (order : Z) (l : list (ReferenceAdvanced.t Tensor)) (i : nat)
    : option nat :=
  match l with
  | [] => None
  | u :: l' =>
      if Z.eqb (ReferenceAdvanced.order u) order then Some i
      else first_match order l' (S i)
  end.

Definition scan_cn_idx (ref_read_cns : list (ReferenceAdvanced.t Tensor))
    (cn_idx : nat) (order : Z) : nat :=
  match first_match order (drop cn_idx ref_read_cns) cn_idx with
  | Some i => i
  | None => cn_idx
  end.
End Scan.

(** ** Attention injection: [_forward_inject_BasicTransformerBlock]

    [n] is the post-norm tensor [self.norm1(x)].  The attention arithmetic is
    the network's: [attn1 n] is the ordinary call [self.attn1(n, ...)], and
    [attn1_reference n style_fidelity real_bank uc_idx_mask] stands for the
    READ branch computed from the (possibly strength-blended) bank entries.
    An entry of [real_bank] is the stored tensor together with the read-list
    unit whose effective strength was blended into it, if any.  The READ loop
    asks that unit for the strength, with the channel count [n.shape[2]] and
    the block's [is_middle], and an exception of that call ends the layer
    call.  The branch taken under an [attn1] replace patch runs the same bank
    code. *)

(** [t.shape] of a tensor the state machine hands around. *)
Class TensorShape (Tensor : Type) := tensor_shape : Tensor -> list Z.

Section AttentionInjection.
Context {Tensor : Type} `{!TensorShape Tensor}.
Variable detach_clone : Tensor -> Tensor.
Variable attn1 : Tensor -> Tensor.
Variable attn1_reference :
  Tensor -> Q -> list (Tensor * option (ReferenceAdvanced.t Tensor)) -> list Z -> Tensor.

Local Abbreviation Bank := (BankStylesBasicTransformerBlock.t Tensor).
Local Abbreviation Unit := (ReferenceAdvanced.t Tensor).

(** One iteration of [for refcn in ref_write_cns]; [first] is
    [ref_write_cns[0]], the state is [(cached_n, bank_styles,
    ignore_contextref_read)]. *)
Definition attn_write_step (attn_weight : Q) (n : Tensor) (first : Unit)
    (st : option Tensor * Bank * bool) (refcn : Unit) : option Tensor * Bank * bool :=
  let '(cached_n, b, ignore_contextref_read) := st in
  if Qgt_bool (ReferenceOptions.attn_ref_weight (ReferenceAdvanced.ref_opts refcn)) attn_weight
  then
    let cached :=
      match cached_n with
      | None => detach_clone n
      | Some c => c
      end in
    let fidelity := ReferenceOptions.attn_style_fidelity (ReferenceAdvanced.ref_opts first) in
    if ReferenceAdvanced.is_context_ref refcn then
      (Some cached,
       BankStylesBasicTransformerBlock.mk
         (BankStylesBasicTransformerBlock.bank b)
         (BankStylesBasicTransformerBlock.style_cfgs b)
         (BankStylesBasicTransformerBlock.cn_idx b)
         (BankStylesBasicTransformerBlock.c_bank b ++ [cached])
         (BankStylesBasicTransformerBlock.c_style_cfgs b ++ [fidelity])
         (BankStylesBasicTransformerBlock.c_cn_idx b ++ [ReferenceAdvanced.order first]),
       true)
    else
      (Some cached,
       BankStylesBasicTransformerBlock.mk
         (BankStylesBasicTransformerBlock.bank b ++ [cached])
         (BankStylesBasicTransformerBlock.style_cfgs b ++ [fidelity])
         (BankStylesBasicTransformerBlock.cn_idx b ++ [ReferenceAdvanced.order first])
         (BankStylesBasicTransformerBlock.c_bank b)
         (BankStylesBasicTransformerBlock.c_style_cfgs b)
         (BankStylesBasicTransformerBlock.c_cn_idx b),
       ignore_contextref_read)
  else st.

(** [if len(ref_write_cns) > 0: ... for refcn in ref_write_cns: ...] *)
Definition attn_write (attn_weight : Q) (n : Tensor) (ref_write_cns : list Unit)
    (b : Bank) : Bank * bool :=
  match ref_write_cns with
  | [] => (b, false)
  | first :: _ =>
      let '(_, b', ignore_contextref_read) :=
        fold_left (attn_write_step attn_weight n first) ref_write_cns (None, b, false) in
      (b', ignore_contextref_read)
  end.

(** The call [refcn.get_effective_attn_mask_or_float(x=n,
    channels=n.shape[2], is_mid=self.injection_holder.is_middle)] of the READ
    loop. *)
Definition attn_effective_strength (is_middle : bool) (n : Tensor) (refcn : Unit)
    : outcome strength_or_mask :=
  match tensor_shape n !! 2%nat with
  | None => Raised IndexError
  | Some channels => get_effective_attn_mask_or_float refcn channels is_middle
  end.

(** [for idx, order in enumerate(bank_styles.get_cn_idxs(...))]; [is_middle]
    is [self.injection_holder.is_middle]. *)
Fixpoint attn_read_loop (is_middle : bool) (n : Tensor) (ref_read_cns : list Unit)
    (orders : list Z) (idx cn_idx : nat) (real_bank : list (Tensor * option Unit))
    : outcome (list (Tensor * option Unit)) :=
  match orders with
  | [] => Ok real_bank
  | order :: rest =>
      let cn_idx := scan_cn_idx ref_read_cns cn_idx order in
      match ref_read_cns !! cn_idx with
      | None => Raised IndexError
      | Some u =>
          if negb (Z.eqb order (ReferenceAdvanced.order u)) then Raised AssertionError
          else if ReferenceAdvanced.any_attn_strength_to_apply u then
            match attn_effective_strength is_middle n u with
            | Raised e => Raised e
            | Ok effective_strength =>
                match real_bank !! idx with
                | None => Raised IndexError
                | Some (entry, _) =>
                    attn_read_loop is_middle n ref_read_cns rest (S idx) cn_idx
                      (<[idx := (entry, Some u)]> real_bank)
                end
            end
          else attn_read_loop is_middle n ref_read_cns rest (S idx) cn_idx real_bank
      end
  end.

(** The READ branch, entered when [len(ref_read_cns) > 0] and the selected
    bank is not empty. *)
Definition attn_read (is_middle : bool) (ref_read_cns : list Unit)
    (ignore_contextref_read : bool) (uc_idx_mask : list Z) (n : Tensor) (b : Bank)
    : outcome Tensor * Bank :=
  match BankStylesBasicTransformerBlock.get_avg_style_fidelity b ignore_contextref_read with
  | Raised e => (Raised e, b)
  | Ok style_fidelity =>
      let real_bank :=
        map (fun entry => (entry, None))
            (BankStylesBasicTransformerBlock.get_bank b ignore_contextref_read) in
      match attn_read_loop is_middle n ref_read_cns
              (BankStylesBasicTransformerBlock.get_cn_idxs b ignore_contextref_read)
              0 0 real_bank with
      | Raised e => (Raised e, b)
      | Ok real_bank =>
          (Ok (attn1_reference n style_fidelity real_bank uc_idx_mask),
           BankStylesBasicTransformerBlock.clean_ref b)
      end
  end.

Definition _forward_inject_BasicTransformerBlock
    (self : InjectionBasicTransformerBlockHolder.t Tensor) (n : Tensor)
    (transformer_options : gmap string (pyval Tensor))
    : outcome Tensor * InjectionBasicTransformerBlockHolder.t Tensor :=
  match get_int_list transformer_options REF_UNCOND_IDXS,
        get_control_list transformer_options REF_WRITE_ATTN_CONTROL_LIST,
        get_control_list transformer_options REF_READ_ATTN_CONTROL_LIST with
  | Ok uc_idx_mask, Ok ref_write_cns, Ok ref_read_cns =>
      (* if any refs to WRITE, save n and style_fidelity *)
      let '(b, ignore_contextref_read) :=
        attn_write (InjectionBasicTransformerBlockHolder.attn_weight self) n ref_write_cns
                   (InjectionBasicTransformerBlockHolder.bank_styles self) in
      (* Reference CN READ *)
      if (0 <? length ref_read_cns)%nat
         && (0 <? length (BankStylesBasicTransformerBlock.get_bank b ignore_contextref_read))%nat
      then
        let '(r, b') :=
          attn_read (InjectionBasicTransformerBlockHolder.is_middle self) ref_read_cns
            ignore_contextref_read uc_idx_mask n b in
        (r, InjectionBasicTransformerBlockHolder.set_bank_styles self b')
      else
        (Ok (attn1 n), InjectionBasicTransformerBlockHolder.set_bank_styles self b)
  | _, _, _ => (Raised TypeError, self)
  end.
End AttentionInjection.

(** ** Normalization injection: [forward_timestep_embed_ref_inject_factory]

    [openaimodel.forward_timestep_embed] is a module-level global that the
    interceptor swaps; [dispatch] is its value: the function ComfyUI shipped
    or an instrumented wrapper around a previous value.  [var_mean x] is
    [torch.var_mean(x, dim=(2, 3), keepdim=True, correction=0)];
    [adain_reference x style_fidelity entries count uc_idx_mask] stands for
    the READ arithmetic on the consumed [(var, mean, strength unit)] entries,
    [count] being [len(bank_styles.cn_idx)]. *)

Inductive dispatch : Type :=
  | OrigDispatch
  | RefInject (orig_timestep_embed_inject_factory : dispatch).

Section NormalizationInjection.
Context {Tensor : Type} `{!TensorShape Tensor}.
Variable var_mean : Tensor -> Tensor * Tensor.
Variable adain_reference :
  Tensor -> Q -> list (Tensor * Tensor * option (ReferenceAdvanced.t Tensor)) -> nat ->
  list Z -> Tensor.

Local Abbreviation Bank := (BankStylesTimestepEmbedSequential.t Tensor).
Local Abbreviation Unit := (ReferenceAdvanced.t Tensor).
Local Abbreviation Holder := (InjectionTimestepEmbedSequentialHolder.t Tensor).

(** One iteration of [for refcn in ref_write_cns]; the state is
    [(bank_styles, ignore_contextref_read)]. *)
Definition adain_write_step (gn_weight : Q) (x : Tensor) (st : Bank * bool) (refcn : Unit)
    : Bank * bool :=
  let '(b, ignore_contextref_read) := st in
  if Qgt_bool (ReferenceOptions.adain_ref_weight (ReferenceAdvanced.ref_opts refcn)) gn_weight
  then
    let '(var, mean) := var_mean x in
    let fidelity := ReferenceOptions.adain_style_fidelity (ReferenceAdvanced.ref_opts refcn) in
    if ReferenceAdvanced.is_context_ref refcn then
      (BankStylesTimestepEmbedSequential.mk
         (BankStylesTimestepEmbedSequential.var_bank b)
         (BankStylesTimestepEmbedSequential.mean_bank b)
         (BankStylesTimestepEmbedSequential.style_cfgs b)
         (BankStylesTimestepEmbedSequential.cn_idx b)
         (BankStylesTimestepEmbedSequential.c_var_bank b ++ [var])
         (BankStylesTimestepEmbedSequential.c_mean_bank b ++ [mean])
         (BankStylesTimestepEmbedSequential.c_style_cfgs b ++ [fidelity])
         (BankStylesTimestepEmbedSequential.c_cn_idx b ++ [ReferenceAdvanced.order refcn]),
       true)
    else
      (BankStylesTimestepEmbedSequential.mk
         (BankStylesTimestepEmbedSequential.var_bank b ++ [var])
         (BankStylesTimestepEmbedSequential.mean_bank b ++ [mean])
         (BankStylesTimestepEmbedSequential.style_cfgs b ++ [fidelity])
         (BankStylesTimestepEmbedSequential.cn_idx b ++ [ReferenceAdvanced.order refcn])
         (BankStylesTimestepEmbedSequential.c_var_bank b)
         (BankStylesTimestepEmbedSequential.c_mean_bank b)
         (BankStylesTimestepEmbedSequential.c_style_cfgs b)
         (BankStylesTimestepEmbedSequential.c_cn_idx b),
       ignore_contextref_read)
  else st.

Definition adain_write (gn_weight : Q) (x : Tensor) (ref_write_cns : list Unit) (b : Bank)
    : Bank * bool :=
  fold_left (adain_write_step gn_weight x) ref_write_cns (b, false).

(** [for idx, order in enumerate(bank_styles.get_cn_idx(...))]; the loop
    leaves [style_fidelity] bound to the last entry's value, unbound when
    there was no iteration. *)
Fixpoint adain_read_loop (ref_read_cns : list Unit)
    (real_style_cfgs : list Q) (real_var_bank real_mean_bank : list Tensor)
    (orders : list Z) (idx cn_idx : nat) (style_fidelity : option Q)
    (consumed : list (Tensor * Tensor * option Unit))
    : outcome (option Q * list (Tensor * Tensor * option Unit)) :=
  match orders with
  | [] => Ok (style_fidelity, consumed)
  | order :: rest =>
      let cn_idx := scan_cn_idx ref_read_cns cn_idx order in
      match ref_read_cns !! cn_idx with
      | None => Raised IndexError
      | Some u =>
          if negb (Z.eqb order (ReferenceAdvanced.order u)) then Raised AssertionError
          else
            match real_style_cfgs !! idx, real_var_bank !! idx, real_mean_bank !! idx with
            | Some fidelity, Some var_acc, Some mean_acc =>
                let strength_unit :=
                  if ReferenceAdvanced.any_adain_strength_to_apply u then Some u else None in
                adain_read_loop ref_read_cns real_style_cfgs real_var_bank real_mean_bank
                  rest (S idx) cn_idx (Some fidelity)
                  (consumed ++ [(var_acc, mean_acc, strength_unit)])
            | _, _, _ => Raised IndexError
            end
      end
  end.

(** The body under [if len(ref_read_cns) > 0]. *)
Definition adain_read (ref_read_cns : list Unit) (ignore_contextref_read : bool)
    (uc_idx_mask : list Z) (x : Tensor) (b : Bank) : outcome Tensor * Bank :=
  if (0 <? length (BankStylesTimestepEmbedSequential.get_var_bank b ignore_contextref_read))%nat
  then
    match adain_read_loop ref_read_cns
            (BankStylesTimestepEmbedSequential.get_style_cfgs b ignore_contextref_read)
            (BankStylesTimestepEmbedSequential.get_var_bank b ignore_contextref_read)
            (BankStylesTimestepEmbedSequential.get_mean_bank b ignore_contextref_read)
            (BankStylesTimestepEmbedSequential.get_cn_idx b ignore_contextref_read)
            0 0 None [] with
    | Raised e => (Raised e, b)
    | Ok (None, _) => (Raised (UnboundLocalError "style_fidelity"), b)
    | Ok (Some style_fidelity, consumed) =>
        (Ok (adain_reference x style_fidelity consumed
               (length (BankStylesTimestepEmbedSequential.cn_idx b)) uc_idx_mask),
         BankStylesTimestepEmbedSequential.clean_ref b)
    end
  else (Ok x, BankStylesTimestepEmbedSequential.clean_ref b).

(** [forward_timestep_embed_ref_inject] applied to the output [x] of the
    wrapped function, for a module that carries [self]. *)
Definition forward_timestep_embed_ref_inject (self : Holder) (x : Tensor)
    (transformer_options : gmap string (pyval Tensor)) : outcome Tensor * Holder :=
  match get_int_list transformer_options REF_UNCOND_IDXS,
        get_control_list transformer_options REF_WRITE_ADAIN_CONTROL_LIST,
        get_control_list transformer_options REF_READ_ADAIN_CONTROL_LIST with
  | Ok uc_idx_mask, Ok ref_write_cns, Ok ref_read_cns =>
      (* if any refs to WRITE, save var, mean, and style_cfg *)
      let '(b, ignore_contextref_read) :=
        adain_write (InjectionTimestepEmbedSequentialHolder.gn_weight self) x ref_write_cns
                    (InjectionTimestepEmbedSequentialHolder.bank_styles self) in
      (* if any refs to READ, do math with saved var, mean, and style_cfg *)
      if (0 <? length ref_read_cns)%nat then
        let '(r, b') := adain_read ref_read_cns ignore_contextref_read uc_idx_mask x b in
        (r, InjectionTimestepEmbedSequentialHolder.set_bank_styles self b')
      else (Ok x, InjectionTimestepEmbedSequentialHolder.set_bank_styles self b)
  | _, _, _ => (Raised TypeError, self)
  end.

(** A call [openaimodel.forward_timestep_embed(ts, ...)] through the
    current value [d] of the global.  [ts] is the position of the module in
    [gn_modules], [None] for a module without [injection_holder]; [x] is what
    the shipped function returns for it. *)
Fixpoint call_forward_timestep_embed (d : dispatch) (ts : option nat) (x : Tensor)
    (transformer_options : gmap string (pyval Tensor)) (gn_modules : list Holder)
    : outcome Tensor * list Holder :=
  match d with
  | OrigDispatch => (Ok x, gn_modules)
  | RefInject orig =>
      match ts with
      | None => call_forward_timestep_embed orig ts x transformer_options gn_modules
      | Some j =>
          match call_forward_timestep_embed orig ts x transformer_options gn_modules with
          | (Raised e, gn_modules) => (Raised e, gn_modules)
          | (Ok x, gn_modules) =>
              match gn_modules !! j with
              | None => (Raised ModelError, gn_modules)
              | Some self =>
                  let '(r, self') :=
                    forward_timestep_embed_ref_inject self x transformer_options in
                  (r, <[j := self']> gn_modules)
              end
          end
      end
  end.
End NormalizationInjection.

(** ** The world of one sampling process and the wrapped network

    [reference_injections] is the registry the factory closes over,
    [forward_timestep_embed] the global of [openaimodel],
    [transformer_options] the dictionary the caller threads through every
    layer, and [forward_calls] the inputs with which
    [diffusion_model_orig_forward] has been called so far (the tensor and
    whether the [control] keyword was passed on).

    The network itself is not part of the module.  What matters of one pass is
    the sequence of patched-layer calls it makes, and whether its own code
    raises. *)

Inductive net_step {Tensor : Type} : Type :=
  | AttnBlock (i : nat) (n : Tensor)
  | EmbedSequential (ts : option nat) (x : Tensor)
  | NetRaise (e : exn).
Arguments net_step : clear implicits.

Module World.
Section Def.
Context {Tensor : Type} `{!TensorShape Tensor}.

Record t : Type := mk {
  reference_injections : ReferenceInjections.t Tensor;
  forward_timestep_embed : dispatch;
  transformer_options : gmap string (pyval Tensor);
  forward_calls : list (Tensor * bool)
}.

Definition set_reference_injections (w : t) (r : ReferenceInjections.t Tensor) : t :=
  mk r (forward_timestep_embed w) (transformer_options w) (forward_calls w).

Definition set_attn_modules (w : t)
    (l : list (InjectionBasicTransformerBlockHolder.t Tensor)) : t :=
  set_reference_injections w
    (ReferenceInjections.mk l (ReferenceInjections.gn_modules (reference_injections w))).

Definition set_gn_modules (w : t)
    (l : list (InjectionTimestepEmbedSequentialHolder.t Tensor)) : t :=
  set_reference_injections w
    (ReferenceInjections.mk (ReferenceInjections.attn_modules (reference_injections w)) l).

Definition set_forward_timestep_embed (w : t) (d : dispatch) : t :=
  mk (reference_injections w) d (transformer_options w) (forward_calls w).

Definition set_transformer_options (w : t) (o : gmap string (pyval Tensor)) : t :=
  mk (reference_injections w) (forward_timestep_embed w) o (forward_calls w).

Definition set_item (w : t) (key : string) (v : pyval Tensor) : t :=
  set_transformer_options w (<[key := v]> (transformer_options w)).

Definition log_forward_call (w : t) (x : Tensor) (control : bool) : t :=
  mk (reference_injections w) (forward_timestep_embed w) (transformer_options w)
     (forward_calls w ++ [(x, control)]).
End Def.
Arguments t : clear implicits.
End World.

Section Interceptor.
Context {Tensor : Type} `{!TensorShape Tensor}.
Variable detach_clone : Tensor -> Tensor.
Variable attn1 : Tensor -> Tensor.
Variable attn1_reference :
  Tensor -> Q -> list (Tensor * option (ReferenceAdvanced.t Tensor)) -> list Z -> Tensor.
Variable var_mean : Tensor -> Tensor * Tensor.
Variable adain_reference :
  Tensor -> Q -> list (Tensor * Tensor * option (ReferenceAdvanced.t Tensor)) -> nat ->
  list Z -> Tensor.
(** [x.shape[0]] *)
Variable batch_size : Tensor -> Z.
(** The layer calls the wrapped network makes for an input, with or without
    the downstream control chain. *)
Variable unet : Tensor -> bool -> list (net_step Tensor).

Local Abbreviation Unit := (ReferenceAdvanced.t Tensor).
Local Abbreviation W := (World.t Tensor).

(** One layer call of a pass. *)
Definition run_step (s : net_step Tensor) (w : W) : outcome Tensor * W :=
  match s with
  | AttnBlock i n =>
      let attn_modules :=
        ReferenceInjections.attn_modules (World.reference_injections w) in
      match attn_modules !! i with
      | None => (Raised ModelError, w)
      | Some self =>
          let '(r, self') :=
            _forward_inject_BasicTransformerBlock detach_clone attn1 attn1_reference
              self n (World.transformer_options w) in
          (r, World.set_attn_modules w (<[i := self']> attn_modules))
      end
  | EmbedSequential ts x =>
      let '(r, gn_modules) :=
        call_forward_timestep_embed var_mean adain_reference
          (World.forward_timestep_embed w) ts x (World.transformer_options w)
          (ReferenceInjections.gn_modules (World.reference_injections w)) in
      (r, World.set_gn_modules w gn_modules)
  | NetRaise e => (Raised e, w)
  end.

(** The layer calls of a pass in sequence; the pass returns the layer
    outputs it gathered, or stops at the first exception. *)
Fixpoint run_steps (steps : list (net_step Tensor)) (outs : list Tensor) (w : W)
    : outcome (list Tensor) * W :=
  match steps with
  | [] => (Ok outs, w)
  | s :: rest =>
      match run_step s w with
      | (Raised e, w') => (Raised e, w')
      | (Ok y, w') => run_steps rest (outs ++ [y]) w'
      end
  end.

(** [reference_injections.diffusion_model_orig_forward(x, *args, **kwargs)] *)
Definition diffusion_model_orig_forward (x : Tensor) (control : bool) (w : W)
    : outcome (list Tensor) * W :=
  run_steps (unet x control) [] (World.log_forward_call w x control).

(** Indices [i] of [l] with [l[i] == v]. *)
Definition indices_equal (v : Z) (l : list Z) : list Z :=
  map (fun p => Z.of_nat (fst p))
      (List.filter (fun p => Z.eqb (snd p) v) (zip (seq 0 (length l)) l)).

(** "assign cond and uncond idxs" *)
Definition assign_cond_idxs (x : Tensor) (w : W) : outcome unit * W :=
  match World.transformer_options w !! COND_OR_UNCOND with
  | None => (Raised (KeyError COND_OR_UNCOND), w)
  | Some (PyIntList cond_or_uncond) =>
      let batched_number := Z.of_nat (length cond_or_uncond) in
      if Z.eqb batched_number 0 then (Raised ZeroDivisionError, w)
      else
        let per_batch := (batch_size x / batched_number)%Z in
        let indiv_conds :=
          flat_map (fun cond_type => repeat cond_type (Z.to_nat per_batch)) cond_or_uncond in
        let w := World.set_item w REF_UNCOND_IDXS (PyIntList (indices_equal 1 indiv_conds)) in
        let w := World.set_item w REF_COND_IDXS (PyIntList (indices_equal 0 indiv_conds)) in
        (Ok tt, w)
  | Some _ => (Raised TypeError, w)
  end.

Definition attn_capable (l : list Unit) : list Unit :=
  List.filter (fun control =>
    ReferenceType.is_attn (ReferenceOptions.reference_type (ReferenceAdvanced.ref_opts control))) l.

Definition adain_capable (l : list Unit) : list Unit :=
  List.filter (fun control =>
    ReferenceType.is_adain (ReferenceOptions.reference_type (ReferenceAdvanced.ref_opts control))) l.

Definition apply_lists (read_attn_list write_attn_list read_adain_list write_adain_list : list Unit)
    (w : W) : W :=
  let w := World.set_item w REF_READ_ATTN_CONTROL_LIST (PyControlList read_attn_list) in
  let w := World.set_item w REF_WRITE_ATTN_CONTROL_LIST (PyControlList write_attn_list) in
  let w := World.set_item w REF_READ_ADAIN_CONTROL_LIST (PyControlList read_adain_list) in
  World.set_item w REF_WRITE_ADAIN_CONTROL_LIST (PyControlList write_adain_list).

(** One reference pass: the body of [for control in ref_controlnets]. *)
Definition reference_pass (control : Unit) (w : W) : outcome unit * W :=
  let is_attn :=
    ReferenceType.is_attn (ReferenceOptions.reference_type (ReferenceAdvanced.ref_opts control)) in
  let is_adain :=
    ReferenceType.is_adain (ReferenceOptions.reference_type (ReferenceAdvanced.ref_opts control)) in
  let write_attn_list := if is_attn then [control] else [] in
  let write_adain_list := if is_adain then [control] else [] in
  let w := apply_lists [] write_attn_list [] write_adain_list w in
  match ReferenceAdvanced.cond_hint control with
  | None => (Raised AttributeError, w)
  | Some cond_hint =>
      match diffusion_model_orig_forward cond_hint
              (ReferenceOptions.ref_with_other_cns (ReferenceAdvanced.ref_opts control)) w with
      | (Raised e, w') => (Raised e, w')
      | (Ok _, w') => (Ok tt, w')
      end
  end.

Fixpoint reference_passes (ref_controlnets : list Unit) (w : W) : outcome unit * W :=
  match ref_controlnets with
  | [] => (Ok tt, w)
  | control :: rest =>
      match reference_pass control w with
      | (Raised e, w') => (Raised e, w')
      | (Ok _, w') => reference_passes rest w'
      end
  end.

(** "prepare running diffusion for real now" down to "apply lists": the
    read and write lists of the real pass. *)
Definition prepare_real_pass
    (attn_controlnets adain_controlnets : list Unit)
    (context_controlnets context_attn_controlnets context_adain_controlnets : list Unit)
    (w : W) : outcome unit * W :=
  (* add RefCNs to read lists *)
  let read_attn_list := attn_controlnets in
  let write_attn_list : list Unit := [] in
  let read_adain_list := adain_controlnets in
  let write_adain_list : list Unit := [] in
  (* do contextref stuff, if needed *)
  if (0 <? length context_controlnets)%nat then
    match World.transformer_options w !! CONTEXTREF_ATTN_MACHINE_STATE with
    | None => (Raised (KeyError CONTEXTREF_ATTN_MACHINE_STATE), w)
    | Some attn_state =>
        let w :=
          if py_eq_str attn_state MachineState.WRITE || py_eq_str attn_state MachineState.OFF
          then World.set_reference_injections w
                 (ReferenceInjections.clean_contextref_module_mem (World.reference_injections w))
          else w in
        (* attn *)
        let '(write_attn_list, read_attn_list) :=
          if py_eq_str attn_state MachineState.WRITE
          then (write_attn_list ++ context_attn_controlnets, read_attn_list)
          else if py_eq_str attn_state MachineState.READ
          then (write_attn_list, read_attn_list ++ context_attn_controlnets)
          else (write_attn_list, read_attn_list) in
        (* adain *)
        match World.transformer_options w !! CONTEXTREF_ADAIN_MACHINE_STATE with
        | None => (Raised (KeyError CONTEXTREF_ADAIN_MACHINE_STATE), w)
        | Some adain_state =>
            let '(write_attn_list, read_attn_list) :=
              if py_eq_str adain_state MachineState.WRITE
              then (write_attn_list ++ context_adain_controlnets, read_attn_list)
              else if py_eq_str adain_state MachineState.READ
              then (write_attn_list, read_attn_list ++ context_adain_controlnets)
              else (write_attn_list, read_attn_list) in
            (Ok tt, apply_lists read_attn_list write_attn_list read_adain_list write_adain_list w)
        end
    end
  else (Ok tt, apply_lists read_attn_list write_attn_list read_adain_list write_adain_list w).

(** The [finally] clause.  [adain_controlnets] and
    [orig_forward_timestep_embed] are locals of the [try] body and may still
    be unbound; an exception raised here replaces the pending one. *)
Definition finally_clause {A : Type}
    (adain_controlnets : option (list Unit)) (orig_forward_timestep_embed : option dispatch)
    (r : outcome A) (w : W) : outcome A * W :=
  (* make sure banks are cleared no matter what happens *)
  let w :=
    World.set_reference_injections w
      (ReferenceInjections.clean_ref_module_mem (World.reference_injections w)) in
  match adain_controlnets with
  | None => (Raised (UnboundLocalError "adain_controlnets"), w)
  | Some adain_controlnets =>
      if (0 <? length adain_controlnets)%nat then
        match orig_forward_timestep_embed with
        | None => (Raised (UnboundLocalError "orig_forward_timestep_embed"), w)
        | Some orig => (r, World.set_forward_timestep_embed w orig)
        end
      else (r, w)
  end.

(** The [try] body after the index lists are assigned: partition,
    substitution of the dispatch function, reference passes, real pass.  It
    also returns the local [orig_forward_timestep_embed]. *)
Definition try_body (x : Tensor) (ref_controlnets context_controlnets : list Unit) (w : W)
    : option dispatch * (outcome (list Tensor) * W) :=
  (* check which controlnets do which thing *)
  let attn_controlnets := attn_capable ref_controlnets in
  let adain_controlnets := adain_capable ref_controlnets in
  let context_attn_controlnets := attn_capable context_controlnets in
  let context_adain_controlnets := adain_capable context_controlnets in
  let substitute :=
    (0 <? length adain_controlnets)%nat || (0 <? length context_adain_controlnets)%nat in
  let orig_forward_timestep_embed :=
    if substitute then Some (World.forward_timestep_embed w) else None in
  let w :=
    if substitute
    then World.set_forward_timestep_embed w (RefInject (World.forward_timestep_embed w))
    else w in
  (orig_forward_timestep_embed,
   (* if RefCN to be used, handle running diffusion with ref cond hints *)
   match reference_passes ref_controlnets w with
   | (Raised e, w) => (Raised e, w)
   | (Ok _, w) =>
       match prepare_real_pass attn_controlnets adain_controlnets context_controlnets
               context_attn_controlnets context_adain_controlnets w with
       | (Raised e, w) => (Raised e, w)
       | (Ok _, w) => diffusion_model_orig_forward x true w
       end
   end).

(** [forward_inject_UNetModel], the wrapper [factory_forward_inject_UNetModel]
    returns. *)
Definition forward_inject_UNetModel (x : Tensor) (w : W) : outcome (list Tensor) * W :=
  match get_control_list (World.transformer_options w) REF_CONTROL_LIST_ALL,
        get_control_list (World.transformer_options w) CONTEXTREF_CONTROL_LIST_ALL with
  | Ok ref_controlnets, Ok context_controlnets =>
      (* discard any controlnets that should not run *)
      let ref_controlnets := List.filter ReferenceAdvanced.should_run ref_controlnets in
      let context_controlnets := List.filter ReferenceAdvanced.should_run context_controlnets in
      (* if nothing related to reference controlnets, do nothing special *)
      if Nat.eqb (length ref_controlnets) 0 && Nat.eqb (length context_controlnets) 0
      then diffusion_model_orig_forward x true w
      else
        match assign_cond_idxs x w with
        | (Raised e, w) => finally_clause None None (Raised e) w
        | (Ok _, w) =>
            let '(orig_forward_timestep_embed, (r, w)) :=
              try_body x ref_controlnets context_controlnets w in
            finally_clause (Some (adain_capable ref_controlnets))
              orig_forward_timestep_embed r w
        end
  | _, _ => (Raised TypeError, w)
  end.
End Interceptor.

(** ** Arithmetic kernels on real tensors

    A tensor is its batch axis, a list of samples, each sample flattened to a
    list of reals.  Python scalars enter through [Q2R].  A shape mismatch is
    PyTorch's [RuntimeError], here [None]. *)

Abbreviation RTensor := (list (list R)).

Definition same_shape (a b : RTensor) : Prop :=
  Forall2 (fun s s' : list R => length s = length s') a b.

Section Kernels.
Local Open Scope R_scope.

(** Element-wise combination of two samples of equal size. *)
Definition sample_zip (f : R -> R -> R) (a b : list R) : option (list R) :=
  if Nat.eqb (length a) (length b) then Some (zip_with f a b) else None.

(** Element-wise combination of two tensors, batch axes of equal size. *)
Fixpoint tensor_zip (f : R -> R -> R) (a b : RTensor) : option RTensor :=
  match a, b with
  | [], [] => Some []
  | s :: a', s' :: b' =>
      match sample_zip f s s', tensor_zip f a' b' with
      | Some r, Some rest => Some (r :: rest)
      | _, _ => None
      end
  | _, _ => None
  end.

(** PyTorch broadcasting along the batch axis: sizes agree, or one of them
    is 1 and that operand is repeated. *)
Definition broadcast_size (m k : nat) : option nat :=
  if Nat.eqb m k then Some m
  else if Nat.eqb m 1 then Some k
  else if Nat.eqb k 1 then Some m
  else None.

Definition expand {A : Type} (k : nat) (l : list A) : list A :=
  match l with
  | [a] => replicate k a
  | _ => l
  end.

(** A per-sample coefficient [sigma.unsqueeze(-1).unsqueeze(-1).unsqueeze(-1)]
    times a tensor: the coefficient of sample [b] scales all of sample [b]. *)
Definition scale_per_sample (coef : list R) (t : RTensor) : option RTensor :=
  match broadcast_size (length coef) (length t) with
  | Some k => Some (zip_with (fun c s => map (Rmult c) s) (expand k coef) (expand k t))
  | None => None
  end.

(** Sum of two tensors, broadcast along the batch axis; the trailing axes
    are flattened and have to agree. *)
Definition tensor_add (a b : RTensor) : option RTensor :=
  match broadcast_size (length a) (length b) with
  | Some k => tensor_zip Rplus (expand k a) (expand k b)
  | None => None
  end.

Section RefNoise.
(** [torch.randn_like]: the draw is left to the caller. *)
Variable randn_like : RTensor -> RTensor.

Definition ref_noise_latents (latents : RTensor) (sigma : list R) (noise : option RTensor)
    : option RTensor :=
  let alpha_cumprod := map (fun s => 1 / (s * s + 1)) sigma in
  let sqrt_alpha_prod := map sqrt alpha_cumprod in
  let sqrt_one_minus_alpha_prod := map (fun a => sqrt (1 - a)) alpha_cumprod in
  let noise :=
    match noise with
    | None => randn_like latents
    | Some noise => noise
    end in
  match scale_per_sample sqrt_alpha_prod latents,
        scale_per_sample sqrt_one_minus_alpha_prod noise with
  | Some a, Some b => tensor_add a b
  | _, _ => None
  end.
End RefNoise.

(** [t[idxs]] *)
Fixpoint tensor_select (t : RTensor) (idxs : list nat) : outcome RTensor :=
  match idxs with
  | [] => Ok []
  | i :: idxs' =>
      match t !! i, tensor_select t idxs' with
      | Some s, Ok rest => Ok (s :: rest)
      | None, _ => Raised IndexError
      | _, Raised e => Raised e
      end
  end.

(** [t[idxs] = rows] *)
Fixpoint index_put (t : RTensor) (idxs : list nat) (rows : RTensor) : outcome RTensor :=
  match idxs, rows with
  | [], [] => Ok t
  | i :: idxs', s :: rows' =>
      match t !! i with
      | Some old =>
          if Nat.eqb (length old) (length s) then index_put (<[i := s]> t) idxs' rows'
          else Raised TypeError
      | None => Raised IndexError
      end
  | _, _ => Raised TypeError
  end.

(** [style_fidelity * t_c + (1.0 - style_fidelity) * t_uc] *)
Definition fidelity_mix (style_fidelity : Q) (t_c t_uc : RTensor) : option RTensor :=
  tensor_zip Rplus
    (map (map (Rmult (Q2R style_fidelity))) t_c)
    (map (map (Rmult (Q2R (1 - style_fidelity)))) t_uc).

(** [n_c = n_uc.clone()], then, when [len(uc_idx_mask) > 0 and not
    math.isclose(style_fidelity, 0.0)], the rows at [uc_idx_mask] are
    replaced by [n_self_uc], what [self.attn1] returns for those rows of the
    original context alone. *)
Definition attn_adjusted_branch (style_fidelity : Q) (uc_idx_mask : list nat)
    (n_uc n_self_uc : RTensor) : outcome RTensor :=
  let n_c := n_uc in
  if (0 <? length uc_idx_mask)%nat && negb (isclose style_fidelity 0)
  then index_put n_c uc_idx_mask n_self_uc
  else Ok n_c.

(** [y_c = y_uc.clone()], then, under the same condition,
    [y_c[uc_idx_mask] = x[uc_idx_mask]]. *)
Definition adain_adjusted_branch (style_fidelity : Q) (uc_idx_mask : list nat)
    (y_uc x : RTensor) : outcome RTensor :=
  let y_c := y_uc in
  if (0 <? length uc_idx_mask)%nat && negb (isclose style_fidelity 0)
  then
    match tensor_select x uc_idx_mask with
    | Raised e => Raised e
    | Ok rows => index_put y_c uc_idx_mask rows
    end
  else Ok y_c.

Definition mix_or_raise (style_fidelity : Q) (t_c : outcome RTensor) (t_uc : RTensor)
    : outcome RTensor :=
  match t_c with
  | Raised e => Raised e
  | Ok t_c =>
      match fidelity_mix style_fidelity t_c t_uc with
      | Some t => Ok t
      | None => Raised TypeError
      end
  end.

(** Tail of the attention READ: [n = style_fidelity * n_c + (1.0 -
    style_fidelity) * n_uc], [n_uc] being the extended-context output. *)
Definition attn_fidelity_output (style_fidelity : Q) (uc_idx_mask : list nat)
    (n_uc n_self_uc : RTensor) : outcome RTensor :=
  mix_or_raise style_fidelity
    (attn_adjusted_branch style_fidelity uc_idx_mask n_uc n_self_uc) n_uc.

(** Tail of the normalization READ: [y = style_fidelity * y_c + (1.0 -
    style_fidelity) * y_uc], [y_uc] being the accumulated re-normalized
    output and [x] the block's own output. *)
Definition adain_fidelity_output (style_fidelity : Q) (uc_idx_mask : list nat)
    (y_uc x : RTensor) : outcome RTensor :=
  mix_or_raise style_fidelity
    (adain_adjusted_branch style_fidelity uc_idx_mask y_uc x) y_uc.
End Kernels.

(** ** A concrete instance

    Symbolic tensors: a named tensor supplied from outside, the activation
    that reaches a layer for a given network input, or the result of one of
    the network operations applied to symbolic tensors.  With them the
    machine can be run and its outputs show which bank entries a READ has
    consumed. *)

Module Scenario.
#[local] Set Warnings "-register-all".

Inductive sym : Type :=
  | Sym (name : string)
  | Hidden (layer : string) (x : sym)
  | Detach (t : sym)
  | Var (t : sym)
  | Mean (t : sym)
  | Attn1 (n : sym)
  | Attn1Ref (n : sym) (style_fidelity : Q)
      (real_bank : list (sym * option (ReferenceAdvanced.t sym))) (uc_idx_mask : list Z)
  | AdaIN (x : sym) (style_fidelity : Q)
      (consumed : list (sym * sym * option (ReferenceAdvanced.t sym))) (count : nat)
      (uc_idx_mask : list Z).

(** Every tensor of the scenario has 4096 tokens of 320 channels. *)
#[export] Instance sym_shape : TensorShape sym := fun _ => [2; 4096; 320]%Z.

(** Base-class state at the defaults: strength 1.0, a keyframe of strength
    1.0, no masks. *)
Definition base_default : AdvancedControlBase.t :=
  AdvancedControlBase.mk 1 (Some (TimestepKeyframe.mk 1)) false false false.

Definition unit_of (reference_type : string) (order : Z) (style_fidelity ref_weight : Q)
    (context : bool) (hint : option sym) : ReferenceAdvanced.t sym :=
  {| ReferenceAdvanced.base_should_run := true;
     ReferenceAdvanced.base := base_default;
     ReferenceAdvanced.cond_hint := hint;
     ReferenceAdvanced.ref_opts :=
       ReferenceOptions.create_combo reference_type style_fidelity ref_weight false;
     ReferenceAdvanced.order := order;
     ReferenceAdvanced.should_apply_attn_effective_strength := true;
     ReferenceAdvanced.should_apply_adain_effective_strength := true;
     ReferenceAdvanced.should_apply_effective_masks := false;
     ReferenceAdvanced.latent_shape := Some [2; 4; 64; 64]%Z;
     ReferenceAdvanced.is_context_ref := context |}.

(** Two RefCN units with orders 3 and 7 and distinct fidelities. *)
Definition u3 : ReferenceAdvanced.t sym :=
  unit_of ReferenceType.ATTN_ADAIN 3 (1 # 4) 1 false (Some (Sym "hint3")).
Definition u7 : ReferenceAdvanced.t sym :=
  unit_of ReferenceType.ATTN_ADAIN 7 (3 # 4) 1 false (Some (Sym "hint7")).

(** ContextRef units that carry [is_context_ref]; code outside this module
    has to set it. *)
Definition cref_attn : ReferenceAdvanced.t sym :=
  unit_of ReferenceType.ATTN (-1) 1 1 true None.
Definition cref_adain : ReferenceAdvanced.t sym :=
  unit_of ReferenceType.ADAIN (-2) (1 # 2) 1 true None.

(** One patched transformer block and one patched embed-sequential module,
    both with weight threshold 1/2. *)
Definition attn_holder : InjectionBasicTransformerBlockHolder.t sym :=
  InjectionBasicTransformerBlockHolder.mk (Some 0%Z) (1 # 2) false
    BankStylesBasicTransformerBlock.init.
Definition gn_holder : InjectionTimestepEmbedSequentialHolder.t sym :=
  InjectionTimestepEmbedSequentialHolder.mk (Some 0%Z) (1 # 2) true false false
    BankStylesTimestepEmbedSequential.init.

Definition registry : ReferenceInjections.t sym :=
  ReferenceInjections.mk [attn_holder] [gn_holder].

Definition world (transformer_options : gmap string (pyval sym)) : World.t sym :=
  World.mk registry OrigDispatch transformer_options [].

(** The network visits the embed-sequential module, then the block. *)
Definition unet (x : sym) (control : bool) : list (net_step sym) :=
  [EmbedSequential (Some 0%nat) (Hidden "h" x); AttnBlock 0 (Hidden "n" x)].

(** A network whose own code raises after the two layers. *)
Definition unet_failing (x : sym) (control : bool) : list (net_step sym) :=
  unet x control ++ [NetRaise ModelError].

Definition batch_size (x : sym) : Z := 2.

Definition var_mean (x : sym) : sym * sym := (Var x, Mean x).

Definition forward (net : sym -> bool -> list (net_step sym)) (x : sym) (w : World.t sym)
    : outcome (list sym) * World.t sym :=
  forward_inject_UNetModel Detach Attn1 Attn1Ref var_mean AdaIN batch_size net x w.

Definition options (ref_list context_list : list (ReferenceAdvanced.t sym))
    (attn_state adain_state : string) : gmap string (pyval sym) :=
  <[REF_CONTROL_LIST_ALL := PyControlList ref_list]>
    (<[CONTEXTREF_CONTROL_LIST_ALL := PyControlList context_list]>
       (<[CONTEXTREF_ATTN_MACHINE_STATE := PyStr attn_state]>
          (<[CONTEXTREF_ADAIN_MACHINE_STATE := PyStr adain_state]>
             (<[COND_OR_UNCOND := PyIntList [0%Z; 1%Z]]> ∅)))).

(** The lists a layer finds in [transformer_options], the same ones under
    the attention and the adain keys. *)
Definition layer_options (write_list read_list : list (ReferenceAdvanced.t sym))
    : gmap string (pyval sym) :=
  <[REF_WRITE_ATTN_CONTROL_LIST := PyControlList write_list]>
    (<[REF_READ_ATTN_CONTROL_LIST := PyControlList read_list]>
       (<[REF_WRITE_ADAIN_CONTROL_LIST := PyControlList write_list]>
          (<[REF_READ_ADAIN_CONTROL_LIST := PyControlList read_list]> ∅))).

Definition attn_layer (h : InjectionBasicTransformerBlockHolder.t sym) (n : sym)
    (write_list read_list : list (ReferenceAdvanced.t sym))
    : outcome sym * InjectionBasicTransformerBlockHolder.t sym :=
  _forward_inject_BasicTransformerBlock Detach Attn1 Attn1Ref h n
    (layer_options write_list read_list).

Definition gn_layer (h : InjectionTimestepEmbedSequentialHolder.t sym) (x : sym)
    (write_list read_list : list (ReferenceAdvanced.t sym))
    : outcome sym * InjectionTimestepEmbedSequentialHolder.t sym :=
  forward_timestep_embed_ref_inject var_mean AdaIN h x (layer_options write_list read_list).


(** A RefCN unit of order 5 with masks in effect, after [get_control_advanced]
    and before it ([latent_shape] still [None]). *)
Definition with_masks (u : ReferenceAdvanced.t sym) (latent_shape : option (list Z))
    : ReferenceAdvanced.t sym :=
  {| ReferenceAdvanced.base_should_run := ReferenceAdvanced.base_should_run u;
     ReferenceAdvanced.base := ReferenceAdvanced.base u;
     ReferenceAdvanced.cond_hint := ReferenceAdvanced.cond_hint u;
     ReferenceAdvanced.ref_opts := ReferenceAdvanced.ref_opts u;
     ReferenceAdvanced.order := ReferenceAdvanced.order u;
     ReferenceAdvanced.should_apply_attn_effective_strength :=
       ReferenceAdvanced.should_apply_attn_effective_strength u;
     ReferenceAdvanced.should_apply_adain_effective_strength :=
       ReferenceAdvanced.should_apply_adain_effective_strength u;
     ReferenceAdvanced.should_apply_effective_masks := true;
     ReferenceAdvanced.latent_shape := latent_shape;
     ReferenceAdvanced.is_context_ref := ReferenceAdvanced.is_context_ref u |}.
Definition u_masked : ReferenceAdvanced.t sym :=
  with_masks (unit_of ReferenceType.ATTN 5 (1 # 2) 1 false (Some (Sym "hint5")))
    (Some [2; 4; 64; 64]%Z).
Definition u_masked_fresh : ReferenceAdvanced.t sym :=
  with_masks (unit_of ReferenceType.ATTN 5 (1 # 2) 1 false (Some (Sym "hint5"))) None.

(** Tensors of 512 channels. *)
Definition shape_512 : TensorShape sym := fun _ => [2; 4096; 512]%Z.

(** A RefCN unit whose only enabled channel has weight 0. *)
Definition u_zero : ReferenceAdvanced.t sym :=
  unit_of ReferenceType.ATTN 5 (1 # 2) 0 false (Some (Sym "hint5")).

(** The ContextRef scenario: one attention ContextRef unit, and between two
    forward calls the code driving the context windows sets both machine
    states. *)
Definition set_context_state (w : World.t sym) (state : string) : World.t sym :=
  World.set_item (World.set_item w CONTEXTREF_ATTN_MACHINE_STATE (PyStr state))
    CONTEXTREF_ADAIN_MACHINE_STATE (PyStr state).

Definition step (state : string) (x : sym) (w : World.t sym)
    : outcome (list sym) * World.t sym :=
  forward unet x (set_context_state w state).

Definition w_step0 : World.t sym :=
  world (options [] [cref_attn] MachineState.OFF MachineState.OFF).
Definition w_step1 : World.t sym := snd (step MachineState.WRITE (Sym "x1") w_step0).
Definition w_step2 : World.t sym := snd (step MachineState.READ (Sym "x2") w_step1).
Definition w_step3 : World.t sym := snd (step MachineState.READ (Sym "x3") w_step2).
Definition w_step4 : World.t sym := snd (step MachineState.WRITE (Sym "x4") w_step3).

(** The same steps with the ContextRef unit [handle_context_ref_setup]
    builds, on options that hold no RefCN unit. *)
Definition setup : list (ReferenceAdvanced.t sym) * gmap string (pyval sym) :=
  handle_context_ref_setup true base_default
    (<[REF_CONTROL_LIST_ALL := PyControlList []]>
       (<[COND_OR_UNCOND := PyIntList [0%Z; 1%Z]]> ∅)).
Definition cref_setup : ReferenceAdvanced.t sym :=
  ReferenceAdvanced.set_order
    (ReferenceAdvanced.init true base_default
       (ReferenceOptions.init ReferenceType.ATTN 1 0 1 0 1 1 false)) (-1).
Definition v_step0 : World.t sym := world (snd setup).
Definition v_step1 : World.t sym := snd (step MachineState.WRITE (Sym "x1") v_step0).
Definition v_step2 : World.t sym := snd (step MachineState.READ (Sym "x2") v_step1).
Definition v_step3 : World.t sym := snd (step MachineState.READ (Sym "x3") v_step2).
Definition v_step4 : World.t sym := snd (step MachineState.WRITE (Sym "x4") v_step3).

(** The first call of these steps up to the [finally] clause. *)
Definition v_try :=
  try_body Detach Attn1 Attn1Ref var_mean AdaIN unet (Sym "x1") [] [cref_setup]
    (snd (assign_cond_idxs batch_size (Sym "x1")
            (set_context_state v_step0 MachineState.WRITE))).

(** A RefCN unit whose only enabled channel has weight 1e-12. *)
Definition u_tiny : ReferenceAdvanced.t sym :=
  unit_of ReferenceType.ATTN 5 (1 # 2) (1 # 1000000000000) false (Some (Sym "hint5")).
End Scenario.

(** ** Predicates used in the statements *)

Section Predicates.
Context {Tensor : Type} `{!TensorShape Tensor}.

(** The RefCN-origin ("own") parallel lists of a bank are all empty. *)
Definition attn_own_empty (h : InjectionBasicTransformerBlockHolder.t Tensor) : Prop :=
  let b := InjectionBasicTransformerBlockHolder.bank_styles h in
  BankStylesBasicTransformerBlock.bank b = [] /\
  BankStylesBasicTransformerBlock.style_cfgs b = [] /\
  BankStylesBasicTransformerBlock.cn_idx b = [].

Definition gn_own_empty (h : InjectionTimestepEmbedSequentialHolder.t Tensor) : Prop :=
  let b := InjectionTimestepEmbedSequentialHolder.bank_styles h in
  BankStylesTimestepEmbedSequential.var_bank b = [] /\
  BankStylesTimestepEmbedSequential.mean_bank b = [] /\
  BankStylesTimestepEmbedSequential.style_cfgs b = [] /\
  BankStylesTimestepEmbedSequential.cn_idx b = [].

Definition own_banks_empty (r : ReferenceInjections.t Tensor) : Prop :=
  Forall attn_own_empty (ReferenceInjections.attn_modules r) /\
  Forall gn_own_empty (ReferenceInjections.gn_modules r).

(** The ContextRef-origin parallel lists of a bank are all empty. *)
Definition attn_context_empty (h : InjectionBasicTransformerBlockHolder.t Tensor) : Prop :=
  let b := InjectionBasicTransformerBlockHolder.bank_styles h in
  BankStylesBasicTransformerBlock.c_bank b = [] /\
  BankStylesBasicTransformerBlock.c_style_cfgs b = [] /\
  BankStylesBasicTransformerBlock.c_cn_idx b = [].

Definition gn_context_empty (h : InjectionTimestepEmbedSequentialHolder.t Tensor) : Prop :=
  let b := InjectionTimestepEmbedSequentialHolder.bank_styles h in
  BankStylesTimestepEmbedSequential.c_var_bank b = [] /\
  BankStylesTimestepEmbedSequential.c_mean_bank b = [] /\
  BankStylesTimestepEmbedSequential.c_style_cfgs b = [] /\
  BankStylesTimestepEmbedSequential.c_cn_idx b = [].

Definition context_banks_empty (r : ReferenceInjections.t Tensor) : Prop :=
  Forall attn_context_empty (ReferenceInjections.attn_modules r) /\
  Forall gn_context_empty (ReferenceInjections.gn_modules r).

(** The ContextRef-origin entries held by the registry, module by module. *)
Definition attn_context_entries (h : InjectionBasicTransformerBlockHolder.t Tensor)
    : list Tensor * list Q * list Z :=
  let b := InjectionBasicTransformerBlockHolder.bank_styles h in
  (BankStylesBasicTransformerBlock.c_bank b,
   BankStylesBasicTransformerBlock.c_style_cfgs b,
   BankStylesBasicTransformerBlock.c_cn_idx b).

Definition gn_context_entries (h : InjectionTimestepEmbedSequentialHolder.t Tensor)
    : list Tensor * list Tensor * list Q * list Z :=
  let b := InjectionTimestepEmbedSequentialHolder.bank_styles h in
  (BankStylesTimestepEmbedSequential.c_var_bank b,
   BankStylesTimestepEmbedSequential.c_mean_bank b,
   BankStylesTimestepEmbedSequential.c_style_cfgs b,
   BankStylesTimestepEmbedSequential.c_cn_idx b).

Definition context_entries (r : ReferenceInjections.t Tensor)
    : list (list Tensor * list Q * list Z)
      * list (list Tensor * list Tensor * list Q * list Z) :=
  (map attn_context_entries (ReferenceInjections.attn_modules r),
   map gn_context_entries (ReferenceInjections.gn_modules r)).

(** No unit of the write lists installed in [transformer_options] is a
    ContextRef unit. *)
Definition no_context_writer (transformer_options : gmap string (pyval Tensor)) : Prop :=
  forall key l,
    key = REF_WRITE_ATTN_CONTROL_LIST \/ key = REF_WRITE_ADAIN_CONTROL_LIST ->
    get_control_list transformer_options key = Ok l ->
    Forall (fun u => ReferenceAdvanced.is_context_ref u = false) l.

(** Two registries list the same number of patched modules. *)
Definition same_modules (r r' : ReferenceInjections.t Tensor) : Prop :=
  length (ReferenceInjections.attn_modules r') = length (ReferenceInjections.attn_modules r) /\
  length (ReferenceInjections.gn_modules r') = length (ReferenceInjections.gn_modules r).
End Predicates.



(** * Further definitions

    Notions used by the properties of the second part: the passes a call
    plans, well-formed banks, the invariant of the order matching, the
    strength code of [ReferenceAdvanced] and the arithmetic of the
    normalization READ. *)

Section CallPlan.
Context {Tensor : Type} `{!TensorShape Tensor}.

(** The arguments of the reference pass of one unit: its noised hint, and
    whether the [control] keyword is passed on. *)
Definition reference_pass_call (control : ReferenceAdvanced.t Tensor) : option (Tensor * bool) :=
  match ReferenceAdvanced.cond_hint control with
  | Some cond_hint =>
      Some (cond_hint,
            ReferenceOptions.ref_with_other_cns (ReferenceAdvanced.ref_opts control))
  | None => None
  end.

(** The passes of one call in the order the [try] body makes them. *)
Definition planned_calls (x : Tensor) (ref_controlnets : list (ReferenceAdvanced.t Tensor))
    : list (Tensor * bool) :=
  omap reference_pass_call ref_controlnets ++ [(x, true)].
End CallPlan.

Section WellFormed.
Context {Tensor : Type} `{!TensorShape Tensor}.

(** The parallel lists of a bank have one entry per write event, in the own
    set and in the ContextRef set. *)
Definition attn_lists_wf (b : BankStylesBasicTransformerBlock.t Tensor) : Prop :=
  length (BankStylesBasicTransformerBlock.style_cfgs b)
    = length (BankStylesBasicTransformerBlock.bank b) /\
  length (BankStylesBasicTransformerBlock.cn_idx b)
    = length (BankStylesBasicTransformerBlock.bank b) /\
  length (BankStylesBasicTransformerBlock.c_style_cfgs b)
    = length (BankStylesBasicTransformerBlock.c_bank b) /\
  length (BankStylesBasicTransformerBlock.c_cn_idx b)
    = length (BankStylesBasicTransformerBlock.c_bank b).

Definition gn_lists_wf (b : BankStylesTimestepEmbedSequential.t Tensor) : Prop :=
  length (BankStylesTimestepEmbedSequential.mean_bank b)
    = length (BankStylesTimestepEmbedSequential.var_bank b) /\
  length (BankStylesTimestepEmbedSequential.style_cfgs b)
    = length (BankStylesTimestepEmbedSequential.var_bank b) /\
  length (BankStylesTimestepEmbedSequential.cn_idx b)
    = length (BankStylesTimestepEmbedSequential.var_bank b) /\
  length (BankStylesTimestepEmbedSequential.c_mean_bank b)
    = length (BankStylesTimestepEmbedSequential.c_var_bank b) /\
  length (BankStylesTimestepEmbedSequential.c_style_cfgs b)
    = length (BankStylesTimestepEmbedSequential.c_var_bank b) /\
  length (BankStylesTimestepEmbedSequential.c_cn_idx b)
    = length (BankStylesTimestepEmbedSequential.c_var_bank b).

Definition attn_bank_wf (h : InjectionBasicTransformerBlockHolder.t Tensor) : Prop :=
  attn_lists_wf (InjectionBasicTransformerBlockHolder.bank_styles h).

Definition gn_bank_wf (h : InjectionTimestepEmbedSequentialHolder.t Tensor) : Prop :=
  gn_lists_wf (InjectionTimestepEmbedSequentialHolder.bank_styles h).

Definition banks_wf (r : ReferenceInjections.t Tensor) : Prop :=
  Forall attn_bank_wf (ReferenceInjections.attn_modules r) /\
  Forall gn_bank_wf (ReferenceInjections.gn_modules r).
End WellFormed.

(** How many instrumented wrappers sit on the shipped dispatch function. *)
Fixpoint dispatch_depth (d : dispatch) : nat :=
  match d with
  | OrigDispatch => 0
  | RefInject orig => S (dispatch_depth orig)
  end.

(** The keys the wrapper writes. *)
Definition wrapper_keys : list string :=
  [REF_UNCOND_IDXS; REF_COND_IDXS;
   REF_READ_ATTN_CONTROL_LIST; REF_WRITE_ATTN_CONTROL_LIST;
   REF_READ_ADAIN_CONTROL_LIST; REF_WRITE_ADAIN_CONTROL_LIST].


Section Follows.
Context {Tensor : Type} `{!TensorShape Tensor}.






End Follows.



(** ** Model-specific fidelities: [pre_run_advanced]

    What [ReferenceAdvanced.pre_run_advanced] does to [self.ref_opts];
    [model_type_name] is [type(model).__name__].  The float power
    [f ** 3.0] is the cube of the rational. *)

Definition pre_run_advanced (model_type_name : string) (ref_opts : ReferenceOptions.t)
    : ReferenceOptions.t :=
  let original_attn := ReferenceOptions.original_attn_style_fidelity ref_opts in
  let original_adain := ReferenceOptions.original_adain_style_fidelity ref_opts in
  let '(attn_style_fidelity, adain_style_fidelity) :=
    (* SDXL is more sensitive to style_fidelity *)
    if bool_decide (model_type_name = "SDXL")
    then ((original_attn * original_attn * original_attn)%Q,
          (original_adain * original_adain * original_adain)%Q)
    else (original_attn, original_adain) in
  {| ReferenceOptions.reference_type := ReferenceOptions.reference_type ref_opts;
     ReferenceOptions.original_attn_style_fidelity := original_attn;
     ReferenceOptions.attn_style_fidelity := attn_style_fidelity;
     ReferenceOptions.attn_ref_weight := ReferenceOptions.attn_ref_weight ref_opts;
     ReferenceOptions.attn_strength := ReferenceOptions.attn_strength ref_opts;
     ReferenceOptions.original_adain_style_fidelity := original_adain;
     ReferenceOptions.adain_style_fidelity := adain_style_fidelity;
     ReferenceOptions.adain_ref_weight := ReferenceOptions.adain_ref_weight ref_opts;
     ReferenceOptions.adain_strength := ReferenceOptions.adain_strength ref_opts;
     ReferenceOptions.ref_with_other_cns := ReferenceOptions.ref_with_other_cns ref_opts |}.

(** ** More arithmetic kernels *)

Section MoreKernels.
Local Open Scope R_scope.

(** *** The statistics of the normalization injection

    Here a tensor [x] of shape [b, c, h, w] is the list of its samples, a
    sample the list of its channels, a channel the flattened plane of its
    [h * w] values.  Statistics taken over the plane with [keepdim=True] have
    shape [b, c, 1, 1]: one value per sample and channel. *)

Definition Rsum (l : list R) : R := fold_right Rplus 0 l.

Definition plane_mean (plane : list R) : R := Rsum plane / INR (length plane).

(** Population variance ([correction=0]). *)
Definition plane_var (plane : list R) : R :=
  Rsum (map (fun v => (v - plane_mean plane) * (v - plane_mean plane)) plane)
  / INR (length plane).

(** [torch.var_mean(x, dim=(2, 3), keepdim=True, correction=0)] *)
Definition var_mean_R (x : list (list (list R))) : list (list R) * list (list R) :=
  (map (map plane_var) x, map (map plane_mean) x).

Definition eps : R := 1 / 1000000.

(** [torch.maximum(var, torch.zeros_like(var) + eps) ** 0.5] *)
Definition std_of (var : list (list R)) : list (list R) :=
  map (map (fun v => sqrt (Rmax v eps))) var.

(** Broadcasting an operand to an axis of size [k]: it has that size, or
    size 1 and is repeated. *)
Definition broadcast_to {A : Type} (k : nat) (l : list A) : option (list A) :=
  if Nat.eqb (length l) k then Some l
  else match l with
       | [a] => Some (replicate k a)
       | _ => None
       end.

(** [f] between every value of a sample and the statistic of its channel. *)
Definition sample_with_stats (f : R -> R -> R) (sample : list (list R)) (stats : list R)
    : option (list (list R)) :=
  match broadcast_to (length sample) stats with
  | Some stats => Some (zip_with (fun plane v => map (fun e => f e v) plane) sample stats)
  | None => None
  end.

Fixpoint samples_with_stats (f : R -> R -> R) (x : list (list (list R)))
    (stats : list (list R)) : option (list (list (list R))) :=
  match x, stats with
  | [], [] => Some []
  | sample :: x', row :: stats' =>
      match sample_with_stats f sample row, samples_with_stats f x' stats' with
      | Some s, Some rest => Some (s :: rest)
      | _, _ => None
      end
  | _, _ => None
  end.

(** An operation between [x] and statistics of shape [b', c', 1, 1] that
    broadcast to [x].  Statistics to which [x] itself would have to be
    broadcast give a result larger than [x], which the in-place [y_uc +=
    sub_y_uc] on [zeros_like(x)] then refuses with a [RuntimeError]; the
    failure is placed here. *)
Definition with_stats (f : R -> R -> R) (x : list (list (list R))) (stats : list (list R))
    : option (list (list (list R))) :=
  match broadcast_to (length x) stats with
  | Some stats => samples_with_stats f x stats
  | None => None
  end.

(** [sub_y_uc = (((x - mean) / std) * std_acc) + mean_acc], [None] for the
    [RuntimeError] of shapes that do not fit. *)
Definition adain_sub_y_uc (x : list (list (list R))) (var_acc mean_acc : list (list R))
    : option (list (list (list R))) :=
  let '(var, mean) := var_mean_R x in
  let std := std_of var in
  let std_acc := std_of var_acc in
  match with_stats Rminus x mean with
  | None => None
  | Some t =>
      match with_stats Rdiv t std with
      | None => None
      | Some t =>
          match with_stats Rmult t std_acc with
          | None => None
          | Some t => with_stats Rplus t mean_acc
          end
      end
  end.

(** Element-wise combination of two tensors of one shape. *)
Fixpoint planes_zip (f : R -> R -> R) (a b : list (list R)) : option (list (list R)) :=
  match a, b with
  | [], [] => Some []
  | p :: a', q :: b' =>
      match sample_zip f p q, planes_zip f a' b' with
      | Some r, Some rest => Some (r :: rest)
      | _, _ => None
      end
  | _, _ => None
  end.

Fixpoint samples_zip (f : R -> R -> R) (a b : list (list (list R)))
    : option (list (list (list R))) :=
  match a, b with
  | [], [] => Some []
  | s :: a', s' :: b' =>
      match planes_zip f s s', samples_zip f a' b' with
      | Some r, Some rest => Some (r :: rest)
      | _, _ => None
      end
  | _, _ => None
  end.

(** The loop over the consumed bank entries: [y_uc += sub_y_uc], with
    [sub_y_uc = sub_y_uc * effective_strength + x * (1 - effective_strength)]
    first when a float strength applies.  An entry is its statistics and the
    float [get_effective_adain_mask_or_float] gave for it, if the unit has a
    strength to apply. *)
Fixpoint adain_accumulate (x : list (list (list R)))
    (entries : list (list (list R) * list (list R) * option R))
    (y_uc : list (list (list R))) : option (list (list (list R))) :=
  match entries with
  | [] => Some y_uc
  | (var_acc, mean_acc, effective_strength) :: rest =>
      match adain_sub_y_uc x var_acc mean_acc with
      | None => None
      | Some sub_y_uc =>
          let blended :=
            match effective_strength with
            | None => Some sub_y_uc
            | Some s => samples_zip (fun a b => a * s + b * (1 - s)) sub_y_uc x
            end in
          match blended with
          | None => None
          | Some sub_y_uc =>
              match samples_zip Rplus y_uc sub_y_uc with
              | None => None
              | Some y_uc => adain_accumulate x rest y_uc
              end
          end
      end
  end.

(** [y_uc] as the READ has it before the fidelity blend: the accumulated
    outputs, divided by [count = len(bank_styles.cn_idx)] when that exceeds
    1. *)
Definition adain_y_uc (x : list (list (list R)))
    (entries : list (list (list R) * list (list R) * option R)) (count : nat)
    : option (list (list (list R))) :=
  match adain_accumulate x entries (map (map (map (fun _ => 0))) x) with
  | None => None
  | Some y_uc =>
      if (1 <? count)%nat then Some (map (map (map (fun e => e / INR count))) y_uc)
      else Some y_uc
  end.
End MoreKernels.

(** Statistics with one value per sample and channel of [x]. *)
Definition stats_shape (x : list (list (list R))) (stats : list (list R)) : Prop :=
  Forall2 (fun (sample : list (list R)) (row : list R) => length row = length sample) x stats.

(** * Properties *)

(** ** [handle_context_ref_setup] *)

(** C10.  Whatever mapping comes in, [handle_context_ref_setup] leaves both
    ContextRef machine-state keys at OFF, stores under the ContextRef control
    list key the very list it returns, and that list has exactly one unit:
    order -1, reference type ATTN, attention fidelity, weight and strength
    1.0, adain fidelity and weight 0.0, and [is_context_ref] still at the
    constructor's [False]. *)
Theorem handle_context_ref_setup_installs_off_and_single_unit
    {Tensor : Type} (base_running : bool) (base : AdvancedControlBase.t)
    (transformer_options : gmap string (pyval Tensor)) :
  let r := handle_context_ref_setup base_running base transformer_options in
  snd r !! CONTEXTREF_ATTN_MACHINE_STATE = Some (PyStr MachineState.OFF) ∧
  snd r !! CONTEXTREF_ADAIN_MACHINE_STATE = Some (PyStr MachineState.OFF) ∧
  snd r !! CONTEXTREF_CONTROL_LIST_ALL = Some (PyControlList (fst r)) ∧
  ∃ cref : ReferenceAdvanced.t Tensor,
    fst r = [cref] ∧
    ReferenceAdvanced.order cref = (-1)%Z ∧
    ReferenceAdvanced.is_context_ref cref = false ∧
    ReferenceOptions.reference_type (ReferenceAdvanced.ref_opts cref) = ReferenceType.ATTN ∧
    ReferenceOptions.attn_style_fidelity (ReferenceAdvanced.ref_opts cref) = 1%Q ∧
    ReferenceOptions.attn_ref_weight (ReferenceAdvanced.ref_opts cref) = 1%Q ∧
    ReferenceOptions.attn_strength (ReferenceAdvanced.ref_opts cref) = 1%Q ∧
    ReferenceOptions.adain_style_fidelity (ReferenceAdvanced.ref_opts cref) = 0%Q ∧
    ReferenceOptions.adain_ref_weight (ReferenceAdvanced.ref_opts cref) = 0%Q.
Proof.
  cbn zeta. unfold handle_context_ref_setup. cbn [fst snd].
  split; [|split; [|split]].
  - rewrite !lookup_insert_ne by done. apply lookup_insert_eq.
  - rewrite !lookup_insert_ne by done. apply lookup_insert_eq.
  - rewrite lookup_insert_ne by done. apply lookup_insert_eq.
  - eexists. split; [reflexivity|]. cbn. repeat split.
Qed.

(** ** [math.isclose] against zero *)

Lemma Qabs_zero_iff (a : Q) : (Qabs a == 0 <-> a == 0)%Q.
Proof.
  split; intros H.
  - destruct (Qlt_le_dec a 0) as [Hlt|Hge].
    + assert (Hle : (a <= 0)%Q) by lra.
      pose proof (Qabs_neg a Hle) as H1. lra.
    + pose proof (Qabs_pos a Hge) as H1. lra.
  - rewrite H. reflexivity.
Qed.

(** With the default tolerances ([abs_tol = 0]) a value is close to [0.0]
    only when it is zero: the relative tolerance scales with the value. *)
Lemma isclose_zero_iff (a : Q) : isclose a 0 = true <-> (a == 0)%Q.
Proof.
  unfold isclose, rel_tol, abs_tol. rewrite Qle_bool_iff.
  assert (Ha : (Qabs (a - 0) == Qabs a)%Q) by (apply Qabs_wd; ring).
  rewrite Ha. clear Ha.
  assert (H0 : (Qabs 0 == 0)%Q) by reflexivity.
  pose proof (Qabs_nonneg a) as Hn.
  rewrite <- Qabs_zero_iff.
  generalize dependent (Qabs a). intros q Hq.
  destruct (Q.max_spec q (Qabs 0)) as [[_ Hm]|[_ Hm]];
    destruct (Q.max_spec ((1 # 1000000000) * Qmax q (Qabs 0)) 0) as [[Hc Hk]|[Hc Hk]];
    rewrite Hk in *; try rewrite Hm in *; clear Hk Hm.
  all: split; intros H; lra.
Qed.

Lemma isclose_zero_false_iff (a : Q) : isclose a 0 = false <-> ~ (a == 0)%Q.
Proof.
  rewrite <- isclose_zero_iff. destruct (isclose a 0); split; congruence.
Qed.


(** ** The order-matching scan *)

Section ScanFacts.
Context {Tensor : Type} `{!TensorShape Tensor}.
Local Abbreviation Unit := (ReferenceAdvanced.t Tensor).





End ScanFacts.

(** ** The READ loops *)

Section ReadLoopFacts.
Context {Tensor : Type} `{!TensorShape Tensor}.
Local Abbreviation Unit := (ReferenceAdvanced.t Tensor).


(** Without masks the strength call returns the float. *)
Lemma attn_effective_strength_float (is_middle : bool) (n : Tensor) (u : Unit) :
  ReferenceAdvanced.should_apply_effective_masks u = false ->
  is_Some (tensor_shape n !! 2%nat) ->
  attn_effective_strength is_middle n u
  = Ok (Strength (get_effective_strength u
                  * ReferenceOptions.attn_strength (ReferenceAdvanced.ref_opts u))%Q).
Proof.
  intros Hm [channels Hc]. unfold attn_effective_strength, get_effective_attn_mask_or_float.
  rewrite Hc, Hm. done.
Qed.

(** A successful attention loop has found, for every stored order, a
    read-list unit of that order, and whatever unit it blended into an entry
    has the order stored with that entry and gave its effective strength. *)
Lemma attn_read_loop_sound (is_middle : bool) (n : Tensor) (ref_read_cns : list Unit)
    (orders : list Z) (idx cn_idx : nat)
    (real_bank real_bank' : list (Tensor * option Unit)) :
  attn_read_loop is_middle n ref_read_cns orders idx cn_idx real_bank = Ok real_bank' ->
  length real_bank' = length real_bank /\
  Forall (fun o => exists u, u ∈ ref_read_cns /\ ReferenceAdvanced.order u = o) orders /\
  forall (k : nat) (entry : Tensor) (su : option Unit),
    real_bank' !! k = Some (entry, su) ->
    exists su0, real_bank !! k = Some (entry, su0) /\
      (su = su0 \/
       exists u, su = Some u /\ idx <= k /\
                 orders !! (k - idx)%nat = Some (ReferenceAdvanced.order u) /\
                 u ∈ ref_read_cns /\
                 is_ok (attn_effective_strength is_middle n u) = true).
Proof.
  revert idx cn_idx real_bank.
  induction orders as [|order rest IH]; intros idx cn_idx real_bank; cbn.
  - intros [= <-]. split; [done|]. split; [constructor|]. eauto.
  - set (k0 := scan_cn_idx ref_read_cns cn_idx order).
    destruct (ref_read_cns !! k0) as [u|] eqn:Hu; [|done].
    destruct (Z.eqb_spec order (ReferenceAdvanced.order u)) as [Ho|Ho]; cbn; [|done].
    assert (Hin : u ∈ ref_read_cns) by (eapply list_elem_of_lookup_2, Hu).
    destruct (ReferenceAdvanced.any_attn_strength_to_apply u).
    + destruct (attn_effective_strength is_middle n u) as [es|] eqn:Hes; [|done].
      destruct (real_bank !! idx) as [[entry0 s0]|] eqn:Hidx; [|done].
      intros H. apply IH in H as (Hlen & Hall & Hpt).
      rewrite length_insert in Hlen. split; [done|].
      split; [constructor; eauto|].
      intros k entry su Hk. destruct (Hpt k entry su Hk) as (su1 & Hk1 & Hsu).
      destruct (decide (k = idx)) as [->|Hne].
      * rewrite list_lookup_insert_eq in Hk1 by (eapply lookup_lt_Some, Hidx).
        injection Hk1 as <- <-. exists s0. split; [done|]. right.
        destruct Hsu as [->|(u' & _ & Hle & _)]; [|lia].
        exists u. rewrite Nat.sub_diag, Hes. cbn. rewrite Ho. done.
      * rewrite list_lookup_insert_ne in Hk1 by done.
        exists su1. split; [done|].
        destruct Hsu as [->|(u' & -> & Hle & Hr & Hin' & Hok)]; [by left|right].
        exists u'. split; [done|]. split; [lia|]. split; [|done].
        replace (k - idx)%nat with (S (k - S idx)) by lia. done.
    + intros H. apply IH in H as (Hlen & Hall & Hpt).
      split; [done|]. split; [constructor; eauto|].
      intros k entry su Hk. destruct (Hpt k entry su Hk) as (su1 & Hk1 & Hsu).
      exists su1. split; [done|].
      destruct Hsu as [->|(u' & -> & Hle & Hr & Hin' & Hok)]; [by left|right].
      exists u'. split; [done|]. split; [lia|]. split; [|done].
      replace (k - idx)%nat with (S (k - S idx)) by lia. done.
Qed.



(** The normalization loop consumes the stored statistics in bank order, and
    a unit it takes the strength from has the order stored with the entry. *)
Lemma adain_read_loop_sound (ref_read_cns : list Unit) (cfgs : list Q)
    (vars means : list Tensor) (orders : list Z) (idx cn_idx : nat) (sf sf' : option Q)
    (consumed consumed' : list (Tensor * Tensor * option Unit)) :
  adain_read_loop ref_read_cns cfgs vars means orders idx cn_idx sf consumed
    = Ok (sf', consumed') ->
  Forall (fun o => exists u, u ∈ ref_read_cns /\ ReferenceAdvanced.order u = o) orders /\
  exists new, consumed' = consumed ++ new /\ length new = length orders /\
    forall (j : nat) (var mean : Tensor) (su : option Unit),
      new !! j = Some (var, mean, su) ->
      vars !! (idx + j)%nat = Some var /\ means !! (idx + j)%nat = Some mean /\
      forall u, su = Some u ->
        orders !! j = Some (ReferenceAdvanced.order u) /\ u ∈ ref_read_cns.
Proof.
  revert idx cn_idx sf consumed.
  induction orders as [|order rest IH]; intros idx cn_idx sf consumed; cbn.
  - intros [= <- <-]. split; [constructor|]. exists []. rewrite app_nil_r.
    repeat split; done.
  - set (k0 := scan_cn_idx ref_read_cns cn_idx order).
    destruct (ref_read_cns !! k0) as [u|] eqn:Hu; [|done].
    destruct (Z.eqb_spec order (ReferenceAdvanced.order u)) as [Ho|Ho]; cbn; [|done].
    assert (Hin : u ∈ ref_read_cns) by (eapply list_elem_of_lookup_2, Hu).
    destruct (cfgs !! idx) as [fidelity|]; [|done].
    destruct (vars !! idx) as [var_acc|] eqn:Hv; [|done].
    destruct (means !! idx) as [mean_acc|] eqn:Hm; [|done].
    intros H. apply IH in H as (Hall & new & -> & Hlen & Hpt).
    split; [constructor; eauto|].
    eexists (_ :: new). split; [rewrite <- app_assoc; reflexivity|].
    split; [cbn; lia|].
    intros [|j] var mean su; cbn.
    + intros [= <- <- <-]. rewrite Nat.add_0_r. split; [done|]. split; [done|].
      intros u'. destruct (ReferenceAdvanced.any_adain_strength_to_apply u); [|done].
      intros [= <-]. rewrite Ho. done.
    + intros Hj. apply Hpt in Hj. rewrite <- Nat.add_succ_comm. done.
Qed.


(** The loop blends into the entries but keeps the stored tensors. *)
Lemma attn_read_loop_entries (is_middle : bool) (n : Tensor) (ref_read_cns : list Unit)
    (orders : list Z) (cn_idx : nat)
    (bank : list Tensor) (real_bank : list (Tensor * option Unit)) :
  attn_read_loop is_middle n ref_read_cns orders 0 cn_idx
    (map (fun entry => (entry, None)) bank)
    = Ok real_bank ->
  map fst real_bank = bank.
Proof.
  intros H. apply attn_read_loop_sound in H as (Hlen & _ & Hpt).
  apply list_eq. intros k. rewrite list_lookup_fmap.
  destruct (real_bank !! k) as [[entry su]|] eqn:Hk; cbn.
  - destruct (Hpt _ _ _ Hk) as (su0 & Hk0 & _).
    rewrite list_lookup_fmap in Hk0.
    destruct (bank !! k); cbn in Hk0; congruence.
  - apply lookup_ge_None in Hk. rewrite Hlen, length_map in Hk.
    symmetry. apply lookup_ge_None. done.
Qed.
End ReadLoopFacts.

(** ** Order matching of both READ paths *)


(** ** What the WRITE loops append *)

Section WriteFacts.
Context {Tensor : Type} `{!TensorShape Tensor}.
Variable detach_clone : Tensor -> Tensor.
Variable var_mean : Tensor -> Tensor * Tensor.

Local Abbreviation Unit := (ReferenceAdvanced.t Tensor).

(** The attention WRITE appends one entry per unit whose weight exceeds the
    threshold, to the ContextRef lists for a ContextRef unit and to the own
    lists otherwise; every entry is the one detached copy of [n], and every
    entry carries the fidelity and order of the first unit of the write
    list. *)
Lemma attn_write_appends (attn_weight : Q) (n : Tensor) (first : Unit) (rest : list Unit)
    (b : BankStylesBasicTransformerBlock.t Tensor) :
  let qualifying :=
    List.filter (fun u => Qgt_bool (ReferenceOptions.attn_ref_weight
                                      (ReferenceAdvanced.ref_opts u)) attn_weight)
                (first :: rest) in
  let own := List.filter (fun u => negb (ReferenceAdvanced.is_context_ref u)) qualifying in
  let context := List.filter ReferenceAdvanced.is_context_ref qualifying in
  let fidelity := ReferenceOptions.attn_style_fidelity (ReferenceAdvanced.ref_opts first) in
  attn_write detach_clone attn_weight n (first :: rest) b =
  (BankStylesBasicTransformerBlock.mk
     (BankStylesBasicTransformerBlock.bank b ++ map (fun _ => detach_clone n) own)
     (BankStylesBasicTransformerBlock.style_cfgs b ++ map (fun _ => fidelity) own)
     (BankStylesBasicTransformerBlock.cn_idx b
        ++ map (fun _ => ReferenceAdvanced.order first) own)
     (BankStylesBasicTransformerBlock.c_bank b ++ map (fun _ => detach_clone n) context)
     (BankStylesBasicTransformerBlock.c_style_cfgs b ++ map (fun _ => fidelity) context)
     (BankStylesBasicTransformerBlock.c_cn_idx b
        ++ map (fun _ => ReferenceAdvanced.order first) context),
   negb (Nat.eqb (length context) 0)).
Proof.
  cbn zeta. unfold attn_write.
  assert (Hgen : forall (l : list Unit) (cached : option Tensor)
                        (b0 : BankStylesBasicTransformerBlock.t Tensor) (ign : bool),
    cached = None \/ cached = Some (detach_clone n) ->
    let q := List.filter (fun u => Qgt_bool (ReferenceOptions.attn_ref_weight
                                               (ReferenceAdvanced.ref_opts u)) attn_weight) l in
    let own := List.filter (fun u => negb (ReferenceAdvanced.is_context_ref u)) q in
    let context := List.filter ReferenceAdvanced.is_context_ref q in
    let fidelity := ReferenceOptions.attn_style_fidelity (ReferenceAdvanced.ref_opts first) in
    let st := fold_left (attn_write_step detach_clone attn_weight n first) l
                (cached, b0, ign) in
    snd (fst st) =
    BankStylesBasicTransformerBlock.mk
      (BankStylesBasicTransformerBlock.bank b0 ++ map (fun _ => detach_clone n) own)
      (BankStylesBasicTransformerBlock.style_cfgs b0 ++ map (fun _ => fidelity) own)
      (BankStylesBasicTransformerBlock.cn_idx b0
         ++ map (fun _ => ReferenceAdvanced.order first) own)
      (BankStylesBasicTransformerBlock.c_bank b0 ++ map (fun _ => detach_clone n) context)
      (BankStylesBasicTransformerBlock.c_style_cfgs b0 ++ map (fun _ => fidelity) context)
      (BankStylesBasicTransformerBlock.c_cn_idx b0
         ++ map (fun _ => ReferenceAdvanced.order first) context) /\
    snd st = ign || negb (Nat.eqb (length context) 0)).
  { induction l as [|u l IH]; intros cached b0 ign Hcached; cbn.
    - rewrite !app_nil_r, orb_false_r. destruct b0; done.
    - destruct (Qgt_bool _ _) eqn:Hq; cbn.
      + assert (Hc : match cached with
                     | Some c => c
                     | None => detach_clone n
                     end = detach_clone n) by (destruct Hcached as [-> | ->]; done).
        rewrite Hc.
        destruct (ReferenceAdvanced.is_context_ref u) eqn:Hu; cbn;
          (edestruct IH as [-> ->]; [by right|]); cbn;
          rewrite <- ?app_assoc; cbn; rewrite ?orb_true_l, ?orb_true_r; done.
      + apply IH. done. }
  destruct (Hgen (first :: rest) None b false (or_introl eq_refl)) as [H1 H2].
  cbn zeta in H1, H2. destruct (fold_left _ _ _) as [[cached b'] ign].
  cbn in H1, H2. rewrite H1, H2. done.
Qed.

(** The normalization WRITE appends, for each unit whose weight exceeds the
    threshold, the statistics of [x] with that unit's own fidelity and
    order. *)
Lemma adain_write_appends (gn_weight : Q) (x : Tensor) (ref_write_cns : list Unit)
    (b : BankStylesTimestepEmbedSequential.t Tensor) :
  let qualifying :=
    List.filter (fun u => Qgt_bool (ReferenceOptions.adain_ref_weight
                                      (ReferenceAdvanced.ref_opts u)) gn_weight)
                ref_write_cns in
  let own := List.filter (fun u => negb (ReferenceAdvanced.is_context_ref u)) qualifying in
  let context := List.filter ReferenceAdvanced.is_context_ref qualifying in
  let fidelity (u : Unit) :=
    ReferenceOptions.adain_style_fidelity (ReferenceAdvanced.ref_opts u) in
  adain_write var_mean gn_weight x ref_write_cns b =
  (BankStylesTimestepEmbedSequential.mk
     (BankStylesTimestepEmbedSequential.var_bank b ++ map (fun _ => fst (var_mean x)) own)
     (BankStylesTimestepEmbedSequential.mean_bank b ++ map (fun _ => snd (var_mean x)) own)
     (BankStylesTimestepEmbedSequential.style_cfgs b ++ map fidelity own)
     (BankStylesTimestepEmbedSequential.cn_idx b ++ map ReferenceAdvanced.order own)
     (BankStylesTimestepEmbedSequential.c_var_bank b
        ++ map (fun _ => fst (var_mean x)) context)
     (BankStylesTimestepEmbedSequential.c_mean_bank b
        ++ map (fun _ => snd (var_mean x)) context)
     (BankStylesTimestepEmbedSequential.c_style_cfgs b ++ map fidelity context)
     (BankStylesTimestepEmbedSequential.c_cn_idx b ++ map ReferenceAdvanced.order context),
   negb (Nat.eqb (length context) 0)).
Proof.
  cbn zeta. unfold adain_write.
  change (negb (Nat.eqb (length (List.filter ReferenceAdvanced.is_context_ref
            (List.filter (fun u => Qgt_bool (ReferenceOptions.adain_ref_weight
               (ReferenceAdvanced.ref_opts u)) gn_weight) ref_write_cns))) 0))
    with (false || negb (Nat.eqb (length (List.filter ReferenceAdvanced.is_context_ref
            (List.filter (fun u => Qgt_bool (ReferenceOptions.adain_ref_weight
               (ReferenceAdvanced.ref_opts u)) gn_weight) ref_write_cns))) 0)).
  generalize false. revert b.
  induction ref_write_cns as [|u l IH]; intros b ign; cbn.
  - rewrite !app_nil_r, orb_false_r. destruct b; done.
  - destruct (Qgt_bool _ _) eqn:Hq; cbn; [|apply IH].
    destruct (var_mean x) as [var mean] eqn:Hvm.
    destruct (ReferenceAdvanced.is_context_ref u) eqn:Hu; cbn;
      rewrite IH; cbn; rewrite ?Hvm; cbn;
      rewrite <- ?app_assoc; cbn; rewrite ?orb_true_l, ?orb_true_r; done.
Qed.
End WriteFacts.

(** ** What a layer call does to the ContextRef entries *)

Section LayerContextFacts.
Context {Tensor : Type} `{!TensorShape Tensor}.
Variable detach_clone : Tensor -> Tensor.
Variable attn1 : Tensor -> Tensor.
Variable attn1_reference :
  Tensor -> Q -> list (Tensor * option (ReferenceAdvanced.t Tensor)) -> list Z -> Tensor.
Variable var_mean : Tensor -> Tensor * Tensor.
Variable adain_reference :
  Tensor -> Q -> list (Tensor * Tensor * option (ReferenceAdvanced.t Tensor)) -> nat ->
  list Z -> Tensor.

Local Abbreviation Unit := (ReferenceAdvanced.t Tensor).

Lemma attn_write_no_context (attn_weight : Q) (n : Tensor) (ref_write_cns : list Unit)
    (b : BankStylesBasicTransformerBlock.t Tensor) :
  Forall (fun u => ReferenceAdvanced.is_context_ref u = false) ref_write_cns ->
  let r := attn_write detach_clone attn_weight n ref_write_cns b in
  snd r = false /\
  BankStylesBasicTransformerBlock.c_bank (fst r) = BankStylesBasicTransformerBlock.c_bank b /\
  BankStylesBasicTransformerBlock.c_style_cfgs (fst r)
    = BankStylesBasicTransformerBlock.c_style_cfgs b /\
  BankStylesBasicTransformerBlock.c_cn_idx (fst r) = BankStylesBasicTransformerBlock.c_cn_idx b.
Proof.
  intros Hall. cbn zeta. unfold attn_write.
  destruct ref_write_cns as [|first rest] eqn:Hl; [done|]. rewrite <- Hl in *.
  assert (Hgen : forall (l : list Unit) (st : option Tensor * _ * bool),
    Forall (fun u => ReferenceAdvanced.is_context_ref u = false) l ->
    let st' := fold_left (attn_write_step detach_clone attn_weight n first) l st in
    snd st' = snd st /\
    BankStylesBasicTransformerBlock.c_bank (snd (fst st'))
      = BankStylesBasicTransformerBlock.c_bank (snd (fst st)) /\
    BankStylesBasicTransformerBlock.c_style_cfgs (snd (fst st'))
      = BankStylesBasicTransformerBlock.c_style_cfgs (snd (fst st)) /\
    BankStylesBasicTransformerBlock.c_cn_idx (snd (fst st'))
      = BankStylesBasicTransformerBlock.c_cn_idx (snd (fst st))).
  { induction l as [|u l IH]; intros st Hl'; cbn; [done|].
    inversion Hl' as [|? ? Hu Hrest]; subst.
    destruct (IH (attn_write_step detach_clone attn_weight n first st u) Hrest)
      as (-> & -> & -> & ->).
    destruct st as [[cached b0] ign]. unfold attn_write_step.
    destruct (Qgt_bool _ _); [|done]. rewrite Hu. done. }
  specialize (Hgen ref_write_cns (None, b, false) Hall). cbn zeta in Hgen.
  destruct (fold_left _ _ _) as [[cached b'] ign]. cbn in *. done.
Qed.

Lemma attn_read_context (is_middle : bool) (ref_read_cns : list Unit) (ign : bool)
    (uc_idx_mask : list Z)
    (n : Tensor) (b b' : BankStylesBasicTransformerBlock.t Tensor) (r : outcome Tensor) :
  attn_read attn1_reference is_middle ref_read_cns ign uc_idx_mask n b = (r, b') ->
  BankStylesBasicTransformerBlock.c_bank b' = BankStylesBasicTransformerBlock.c_bank b /\
  BankStylesBasicTransformerBlock.c_style_cfgs b'
    = BankStylesBasicTransformerBlock.c_style_cfgs b /\
  BankStylesBasicTransformerBlock.c_cn_idx b' = BankStylesBasicTransformerBlock.c_cn_idx b.
Proof.
  unfold attn_read.
  destruct (BankStylesBasicTransformerBlock.get_avg_style_fidelity b ign);
    [|intros [= <- <-]; done].
  destruct (attn_read_loop _ _ _ _ _ _ _); intros [= <- <-]; done.
Qed.

(** An attention layer call under write lists without ContextRef units
    leaves the ContextRef entries of its bank as they were. *)
Lemma attn_layer_keeps_context (self self' : InjectionBasicTransformerBlockHolder.t Tensor)
    (n : Tensor) (o : gmap string (pyval Tensor)) (r : outcome Tensor) :
  no_context_writer o ->
  _forward_inject_BasicTransformerBlock detach_clone attn1 attn1_reference self n o
    = (r, self') ->
  attn_context_entries self' = attn_context_entries self.
Proof.
  intros Hno. unfold _forward_inject_BasicTransformerBlock.
  destruct (get_int_list o REF_UNCOND_IDXS) as [uc|]; [|intros [= <- <-]; done].
  destruct (get_control_list o REF_WRITE_ATTN_CONTROL_LIST) as [wl|] eqn:Hw;
    [|intros [= <- <-]; done].
  destruct (get_control_list o REF_READ_ATTN_CONTROL_LIST) as [rl|];
    [|intros [= <- <-]; done].
  pose proof (attn_write_no_context
                (InjectionBasicTransformerBlockHolder.attn_weight self) n wl
                (InjectionBasicTransformerBlockHolder.bank_styles self)
                (Hno _ _ (or_introl eq_refl) Hw)) as Hwr.
  cbn zeta in Hwr. destruct (attn_write _ _ _ _ _) as [b ign]. cbn in Hwr.
  destruct Hwr as (-> & Hc1 & Hc2 & Hc3).
  destruct (_ && _).
  - destruct (attn_read _ _ _ _ _ _ _) as [r1 b1] eqn:Hr.
    apply attn_read_context in Hr as (Hd1 & Hd2 & Hd3).
    intros [= <- <-]. unfold attn_context_entries. cbn. congruence.
  - intros [= <- <-]. unfold attn_context_entries. cbn. congruence.
Qed.

Lemma adain_write_no_context (gn_weight : Q) (x : Tensor) (ref_write_cns : list Unit)
    (b : BankStylesTimestepEmbedSequential.t Tensor) :
  Forall (fun u => ReferenceAdvanced.is_context_ref u = false) ref_write_cns ->
  let r := adain_write var_mean gn_weight x ref_write_cns b in
  snd r = false /\
  BankStylesTimestepEmbedSequential.c_var_bank (fst r)
    = BankStylesTimestepEmbedSequential.c_var_bank b /\
  BankStylesTimestepEmbedSequential.c_mean_bank (fst r)
    = BankStylesTimestepEmbedSequential.c_mean_bank b /\
  BankStylesTimestepEmbedSequential.c_style_cfgs (fst r)
    = BankStylesTimestepEmbedSequential.c_style_cfgs b /\
  BankStylesTimestepEmbedSequential.c_cn_idx (fst r)
    = BankStylesTimestepEmbedSequential.c_cn_idx b.
Proof.
  intros Hall. cbn zeta. unfold adain_write.
  assert (Hgen : forall (l : list Unit) (st : BankStylesTimestepEmbedSequential.t Tensor * bool),
    Forall (fun u => ReferenceAdvanced.is_context_ref u = false) l ->
    let st' := fold_left (adain_write_step var_mean gn_weight x) l st in
    snd st' = snd st /\
    BankStylesTimestepEmbedSequential.c_var_bank (fst st')
      = BankStylesTimestepEmbedSequential.c_var_bank (fst st) /\
    BankStylesTimestepEmbedSequential.c_mean_bank (fst st')
      = BankStylesTimestepEmbedSequential.c_mean_bank (fst st) /\
    BankStylesTimestepEmbedSequential.c_style_cfgs (fst st')
      = BankStylesTimestepEmbedSequential.c_style_cfgs (fst st) /\
    BankStylesTimestepEmbedSequential.c_cn_idx (fst st')
      = BankStylesTimestepEmbedSequential.c_cn_idx (fst st)).
  { induction l as [|u l IH]; intros st Hl'; cbn; [done|].
    inversion Hl' as [|? ? Hu Hrest]; subst.
    destruct (IH (adain_write_step var_mean gn_weight x st u) Hrest)
      as (-> & -> & -> & -> & ->).
    destruct st as [b0 ign]. unfold adain_write_step.
    destruct (Qgt_bool _ _); [|done].
    destruct (var_mean x) as [var mean]. rewrite Hu. done. }
  apply (Hgen ref_write_cns (b, false) Hall).
Qed.

Lemma adain_read_context (ref_read_cns : list Unit) (ign : bool) (uc_idx_mask : list Z)
    (x : Tensor) (b b' : BankStylesTimestepEmbedSequential.t Tensor) (r : outcome Tensor) :
  adain_read adain_reference ref_read_cns ign uc_idx_mask x b = (r, b') ->
  BankStylesTimestepEmbedSequential.c_var_bank b'
    = BankStylesTimestepEmbedSequential.c_var_bank b /\
  BankStylesTimestepEmbedSequential.c_mean_bank b'
    = BankStylesTimestepEmbedSequential.c_mean_bank b /\
  BankStylesTimestepEmbedSequential.c_style_cfgs b'
    = BankStylesTimestepEmbedSequential.c_style_cfgs b /\
  BankStylesTimestepEmbedSequential.c_cn_idx b'
    = BankStylesTimestepEmbedSequential.c_cn_idx b.
Proof.
  unfold adain_read.
  destruct (0 <? _)%nat; [|intros [= <- <-]; done].
  destruct (adain_read_loop _ _ _ _ _ _ _ _ _) as [[[sf|] consumed]|];
    intros [= <- <-]; done.
Qed.

Lemma gn_layer_keeps_context (self self' : InjectionTimestepEmbedSequentialHolder.t Tensor)
    (x : Tensor) (o : gmap string (pyval Tensor)) (r : outcome Tensor) :
  no_context_writer o ->
  forward_timestep_embed_ref_inject var_mean adain_reference self x o = (r, self') ->
  gn_context_entries self' = gn_context_entries self.
Proof.
  intros Hno. unfold forward_timestep_embed_ref_inject.
  destruct (get_int_list o REF_UNCOND_IDXS) as [uc|]; [|intros [= <- <-]; done].
  destruct (get_control_list o REF_WRITE_ADAIN_CONTROL_LIST) as [wl|] eqn:Hw;
    [|intros [= <- <-]; done].
  destruct (get_control_list o REF_READ_ADAIN_CONTROL_LIST) as [rl|];
    [|intros [= <- <-]; done].
  pose proof (adain_write_no_context
                (InjectionTimestepEmbedSequentialHolder.gn_weight self) x wl
                (InjectionTimestepEmbedSequentialHolder.bank_styles self)
                (Hno _ _ (or_intror eq_refl) Hw)) as Hwr.
  cbn zeta in Hwr. destruct (adain_write _ _ _ _ _) as [b ign]. cbn in Hwr.
  destruct Hwr as (-> & Hc1 & Hc2 & Hc3 & Hc4).
  destruct (0 <? _)%nat.
  - destruct (adain_read _ _ _ _ _ _) as [r1 b1] eqn:Hr.
    apply adain_read_context in Hr as (Hd1 & Hd2 & Hd3 & Hd4).
    intros [= <- <-]. unfold gn_context_entries. cbn. congruence.
  - intros [= <- <-]. unfold gn_context_entries. cbn. congruence.
Qed.

Lemma call_forward_timestep_embed_keeps_context (d : dispatch) (ts : option nat) (x : Tensor)
    (o : gmap string (pyval Tensor))
    (l l' : list (InjectionTimestepEmbedSequentialHolder.t Tensor)) (r : outcome Tensor) :
  no_context_writer o ->
  call_forward_timestep_embed var_mean adain_reference d ts x o l = (r, l') ->
  map gn_context_entries l' = map gn_context_entries l.
Proof.
  intros Hno. revert x l l' r. induction d as [|d IH]; intros x l l' r; cbn.
  - intros [= <- <-]. done.
  - destruct ts as [j|]; [|apply IH].
    destruct (call_forward_timestep_embed _ _ d _ _ _ _) as [[x1|e] l1] eqn:Hc;
      apply IH in Hc.
    + destruct (l1 !! j) as [self|] eqn:Hj; [|intros [= <- <-]; done].
      destruct (forward_timestep_embed_ref_inject _ _ _ _ _) as [r1 self'] eqn:Hf.
      apply gn_layer_keeps_context in Hf; [|done].
      intros [= <- <-]. rewrite <- Hc. rewrite list_fmap_insert, Hf.
      apply list_insert_id. rewrite list_lookup_fmap, Hj. done.
    + intros [= <- <-]. done.
Qed.

(** With nothing to write, a non-empty read list and entries in the bank,
    the attention READ that goes through has consumed the own entries
    followed by the ContextRef entries; afterwards the own lists are empty
    and the ContextRef lists are as before. *)
Lemma attn_layer_read_consumes_context
    (self self' : InjectionBasicTransformerBlockHolder.t Tensor) (n out : Tensor)
    (o : gmap string (pyval Tensor)) (ref_read_cns : list Unit) :
  get_control_list o REF_WRITE_ATTN_CONTROL_LIST = Ok [] ->
  get_control_list o REF_READ_ATTN_CONTROL_LIST = Ok ref_read_cns ->
  ref_read_cns <> [] ->
  let b := InjectionBasicTransformerBlockHolder.bank_styles self in
  BankStylesBasicTransformerBlock.bank b ++ BankStylesBasicTransformerBlock.c_bank b <> [] ->
  _forward_inject_BasicTransformerBlock detach_clone attn1 attn1_reference self n o
    = (Ok out, self') ->
  (exists style_fidelity real_bank uc_idx_mask,
     out = attn1_reference n style_fidelity real_bank uc_idx_mask /\
     map fst real_bank
     = BankStylesBasicTransformerBlock.bank b ++ BankStylesBasicTransformerBlock.c_bank b) /\
  attn_own_empty self' /\
  attn_context_entries self' = attn_context_entries self.
Proof.
  intros Hw Hr Hne b Hbank. unfold _forward_inject_BasicTransformerBlock.
  destruct (get_int_list o REF_UNCOND_IDXS) as [uc|]; [|done].
  rewrite Hw, Hr. cbn [attn_write].
  destruct ref_read_cns as [|u0 rl]; [done|].
  unfold BankStylesBasicTransformerBlock.get_bank at 1. fold b.
  destruct (BankStylesBasicTransformerBlock.bank b ++ BankStylesBasicTransformerBlock.c_bank b)
    as [|t0 ts] eqn:Hb; [done|].
  cbn [length Nat.ltb Nat.leb andb]. unfold attn_read.
  destruct (BankStylesBasicTransformerBlock.get_avg_style_fidelity _ _) as [sf|]; [|done].
  destruct (attn_read_loop _ _ _ _ _ _ _) as [real_bank|] eqn:Hloop; [|done].
  intros [= <- <-]. split; [|split].
  - exists sf, real_bank, uc. split; [done|].
    apply attn_read_loop_entries in Hloop. rewrite Hloop.
    unfold BankStylesBasicTransformerBlock.get_bank. done.
  - repeat split.
  - done.
Qed.
End LayerContextFacts.
(** ** Frame properties of the interceptor's parts *)

Section InterceptorFacts.
Context {Tensor : Type} `{!TensorShape Tensor}.
Variable detach_clone : Tensor -> Tensor.
Variable attn1 : Tensor -> Tensor.
Variable attn1_reference :
  Tensor -> Q -> list (Tensor * option (ReferenceAdvanced.t Tensor)) -> list Z -> Tensor.
Variable var_mean : Tensor -> Tensor * Tensor.
Variable adain_reference :
  Tensor -> Q -> list (Tensor * Tensor * option (ReferenceAdvanced.t Tensor)) -> nat ->
  list Z -> Tensor.
Variable batch_size : Tensor -> Z.
Variable unet : Tensor -> bool -> list (net_step Tensor).

Local Abbreviation Unit := (ReferenceAdvanced.t Tensor).
Local Abbreviation W := (World.t Tensor).
Local Abbreviation run_step' :=
  (run_step detach_clone attn1 attn1_reference var_mean adain_reference).
Local Abbreviation run_steps' :=
  (run_steps detach_clone attn1 attn1_reference var_mean adain_reference).
Local Abbreviation orig_forward :=
  (diffusion_model_orig_forward detach_clone attn1 attn1_reference var_mean adain_reference
     unet).
Local Abbreviation reference_pass' :=
  (reference_pass detach_clone attn1 attn1_reference var_mean adain_reference unet).
Local Abbreviation reference_passes' :=
  (reference_passes detach_clone attn1 attn1_reference var_mean adain_reference unet).
Local Abbreviation try_body' :=
  (try_body detach_clone attn1 attn1_reference var_mean adain_reference unet).
Local Abbreviation forward :=
  (forward_inject_UNetModel detach_clone attn1 attn1_reference var_mean adain_reference
     batch_size unet).

(** A layer call touches the registry only. *)
Lemma run_step_frame (s : net_step Tensor) (w w' : W) (r : outcome Tensor) :
  run_step' s w = (r, w') ->
  World.forward_calls w' = World.forward_calls w /\
  World.transformer_options w' = World.transformer_options w /\
  World.forward_timestep_embed w' = World.forward_timestep_embed w.
Proof.
  destruct s as [i n|ts x|e]; cbn.
  - destruct (_ !! i); [|intros [= <- <-]; done].
    destruct (_forward_inject_BasicTransformerBlock _ _ _ _ _ _).
    intros [= <- <-]; done.
  - destruct (call_forward_timestep_embed _ _ _ _ _ _ _).
    intros [= <- <-]; done.
  - intros [= <- <-]; done.
Qed.

Lemma run_steps_frame (steps : list (net_step Tensor)) (outs : list Tensor) (w w' : W)
    (r : outcome (list Tensor)) :
  run_steps' steps outs w = (r, w') ->
  World.forward_calls w' = World.forward_calls w /\
  World.transformer_options w' = World.transformer_options w /\
  World.forward_timestep_embed w' = World.forward_timestep_embed w.
Proof.
  revert outs w. induction steps as [|s rest IH]; intros outs w; cbn.
  - intros [= <- <-]; done.
  - destruct (run_step' s w) as [[y|e] w1] eqn:Hs;
      apply run_step_frame in Hs as (Hc & Ho & Hd).
    + intros H. apply IH in H as (-> & -> & ->). done.
    + intros [= <- <-]; done.
Qed.

Lemma orig_forward_frame (x : Tensor) (control : bool) (w w' : W)
    (r : outcome (list Tensor)) :
  orig_forward x control w = (r, w') ->
  World.forward_calls w' = World.forward_calls w ++ [(x, control)] /\
  World.transformer_options w' = World.transformer_options w /\
  World.forward_timestep_embed w' = World.forward_timestep_embed w.
Proof.
  unfold diffusion_model_orig_forward. intros H.
  apply run_steps_frame in H as (-> & -> & ->). done.
Qed.

Lemma apply_lists_frame (ra wa rd wd : list Unit) (w : W) :
  World.forward_calls (apply_lists ra wa rd wd w) = World.forward_calls w /\
  World.forward_timestep_embed (apply_lists ra wa rd wd w) = World.forward_timestep_embed w /\
  World.reference_injections (apply_lists ra wa rd wd w) = World.reference_injections w.
Proof. done. Qed.

Lemma reference_pass_frame (control : Unit) (w w' : W) (r : outcome unit) :
  reference_pass' control w = (r, w') ->
  World.forward_timestep_embed w' = World.forward_timestep_embed w /\
  (is_ok r = true -> length (World.forward_calls w') = S (length (World.forward_calls w))).
Proof.
  unfold reference_pass.
  destruct (ReferenceAdvanced.cond_hint control) as [hint|]; [|intros [= <- <-]; done].
  destruct (diffusion_model_orig_forward _ _ _ _ _ _ _ _ _) as [[outs|e] w1] eqn:Hf;
    apply orig_forward_frame in Hf as (Hc & Ho & Hd);
    intros [= <- <-]; (split; [rewrite Hd; done|]).
  - intros _. rewrite Hc, length_app. cbn. lia.
  - done.
Qed.

Lemma reference_passes_frame (l : list Unit) (w w' : W) (r : outcome unit) :
  reference_passes' l w = (r, w') ->
  World.forward_timestep_embed w' = World.forward_timestep_embed w /\
  (is_ok r = true ->
   length (World.forward_calls w') = (length (World.forward_calls w) + length l)%nat).
Proof.
  revert w. induction l as [|control rest IH]; intros w; cbn.
  - intros [= <- <-]. split; [done|]. intros _. lia.
  - destruct (reference_pass' control w) as [[u|e] w1] eqn:Hp;
      apply reference_pass_frame in Hp as (Hd & Hc).
    + intros H. apply IH in H as (Hd' & Hc'). split; [congruence|].
      intros Hok. rewrite (Hc' Hok), (Hc eq_refl). lia.
    + intros [= <- <-]. done.
Qed.

Lemma prepare_real_pass_frame (a d c ca cd : list Unit) (w w' : W) (r : outcome unit) :
  prepare_real_pass a d c ca cd w = (r, w') ->
  World.forward_calls w' = World.forward_calls w /\
  World.forward_timestep_embed w' = World.forward_timestep_embed w.
Proof.
  unfold prepare_real_pass.
  destruct (0 <? length c)%nat; [|intros [= <- <-]; done].
  destruct (World.transformer_options w !! CONTEXTREF_ATTN_MACHINE_STATE) as [attn_state|];
    [|intros [= <- <-]; done].
  destruct (py_eq_str attn_state MachineState.WRITE),
           (py_eq_str attn_state MachineState.OFF),
           (py_eq_str attn_state MachineState.READ); cbn;
    (destruct (World.transformer_options w !! CONTEXTREF_ADAIN_MACHINE_STATE) as [adain_state|];
     [|intros [= <- <-]; done]);
    destruct (py_eq_str adain_state MachineState.WRITE),
             (py_eq_str adain_state MachineState.READ);
    intros [= <- <-]; done.
Qed.

(** *** The registry keeps its modules *)

Lemma same_modules_refl (r : ReferenceInjections.t Tensor) : same_modules r r.
Proof. done. Qed.

Lemma same_modules_trans (r1 r2 r3 : ReferenceInjections.t Tensor) :
  same_modules r1 r2 -> same_modules r2 r3 -> same_modules r1 r3.
Proof. unfold same_modules. intros [-> ->] [-> ->]. done. Qed.

Lemma call_forward_timestep_embed_length (d : dispatch) (ts : option nat) (x : Tensor)
    (o : gmap string (pyval Tensor))
    (l l' : list (InjectionTimestepEmbedSequentialHolder.t Tensor)) (r : outcome Tensor) :
  call_forward_timestep_embed var_mean adain_reference d ts x o l = (r, l') ->
  length l' = length l.
Proof.
  revert x l l' r. induction d as [|d IH]; intros x l l' r; cbn.
  - intros [= <- <-]. done.
  - destruct ts as [j|]; [|apply IH].
    destruct (call_forward_timestep_embed _ _ d _ _ _ _) as [[x1|e] l1] eqn:Hc;
      apply IH in Hc.
    + destruct (l1 !! j) as [self|]; [|intros [= <- <-]; done].
      destruct (forward_timestep_embed_ref_inject _ _ _ _ _).
      intros [= <- <-]. rewrite length_insert. done.
    + intros [= <- <-]. done.
Qed.

Lemma run_step_modules (s : net_step Tensor) (w w' : W) (r : outcome Tensor) :
  run_step' s w = (r, w') ->
  same_modules (World.reference_injections w) (World.reference_injections w').
Proof.
  destruct s as [i n|ts x|e]; cbn.
  - destruct (_ !! i); [|intros [= <- <-]; done].
    destruct (_forward_inject_BasicTransformerBlock _ _ _ _ _ _).
    intros [= <- <-]. split; cbn; [apply length_insert|done].
  - destruct (call_forward_timestep_embed _ _ _ _ _ _ _) as [r1 l1] eqn:Hc.
    apply call_forward_timestep_embed_length in Hc.
    intros [= <- <-]. split; cbn; done.
  - intros [= <- <-]; done.
Qed.

Lemma run_steps_modules (steps : list (net_step Tensor)) (outs : list Tensor) (w w' : W)
    (r : outcome (list Tensor)) :
  run_steps' steps outs w = (r, w') ->
  same_modules (World.reference_injections w) (World.reference_injections w').
Proof.
  revert outs w. induction steps as [|s rest IH]; intros outs w; cbn.
  - intros [= <- <-]; done.
  - destruct (run_step' s w) as [[y|e] w1] eqn:Hs; apply run_step_modules in Hs.
    + intros H. apply IH in H. eapply same_modules_trans; eassumption.
    + intros [= <- <-]; done.
Qed.

Lemma orig_forward_modules (x : Tensor) (control : bool) (w w' : W)
    (r : outcome (list Tensor)) :
  orig_forward x control w = (r, w') ->
  same_modules (World.reference_injections w) (World.reference_injections w').
Proof. unfold diffusion_model_orig_forward. apply run_steps_modules. Qed.

Lemma reference_passes_modules (l : list Unit) (w w' : W) (r : outcome unit) :
  reference_passes' l w = (r, w') ->
  same_modules (World.reference_injections w) (World.reference_injections w').
Proof.
  revert w. induction l as [|control rest IH]; intros w; cbn.
  - intros [= <- <-]. done.
  - unfold reference_pass.
    destruct (ReferenceAdvanced.cond_hint control) as [hint|]; [|intros [= <- <-]; done].
    destruct (diffusion_model_orig_forward _ _ _ _ _ _ _ _ _) as [[outs|e] w1] eqn:Hf;
      apply orig_forward_modules in Hf.
    + intros H. apply IH in H. eapply same_modules_trans; eassumption.
    + intros [= <- <-]. done.
Qed.

Lemma clean_contextref_modules (r : ReferenceInjections.t Tensor) :
  same_modules r (ReferenceInjections.clean_contextref_module_mem r).
Proof. split; cbn; apply length_map. Qed.

Lemma clean_ref_modules (r : ReferenceInjections.t Tensor) :
  same_modules r (ReferenceInjections.clean_ref_module_mem r).
Proof. split; cbn; apply length_map. Qed.

Lemma prepare_real_pass_modules (a d c ca cd : list Unit) (w w' : W) (r : outcome unit) :
  prepare_real_pass a d c ca cd w = (r, w') ->
  same_modules (World.reference_injections w) (World.reference_injections w').
Proof.
  unfold prepare_real_pass.
  destruct (0 <? length c)%nat; [|intros [= <- <-]; done].
  destruct (World.transformer_options w !! CONTEXTREF_ATTN_MACHINE_STATE) as [attn_state|];
    [|intros [= <- <-]; done].
  destruct (py_eq_str attn_state MachineState.WRITE),
           (py_eq_str attn_state MachineState.OFF),
           (py_eq_str attn_state MachineState.READ); cbn;
    (destruct (World.transformer_options w !! CONTEXTREF_ADAIN_MACHINE_STATE) as [adain_state|];
     [|intros [= <- <-]; first [done | apply clean_contextref_modules]]);
    destruct (py_eq_str adain_state MachineState.WRITE),
             (py_eq_str adain_state MachineState.READ);
    intros [= <- <-]; first [done | apply clean_contextref_modules].
Qed.

Lemma try_body_modules (x : Tensor) (rc cc : list Unit) (w w' : W)
    (o : option dispatch) (r : outcome (list Tensor)) :
  try_body' x rc cc w = (o, (r, w')) ->
  same_modules (World.reference_injections w) (World.reference_injections w').
Proof.
  unfold try_body. intros [= _ H]. revert H.
  match goal with
  | |- context [reference_passes _ _ _ _ _ _ _ ?ww] => set (w0 := ww)
  end.
  assert (Hw0 : World.reference_injections w0 = World.reference_injections w).
  { subst w0. destruct (_ || _); done. }
  rewrite <- Hw0. clearbody w0.
  destruct (reference_passes _ _ _ _ _ _ _ _) as [[u|e] w1] eqn:Hp;
    apply reference_passes_modules in Hp; [|intros [= <- <-]; done].
  destruct (prepare_real_pass _ _ _ _ _ _) as [[u'|e] w2] eqn:Hq;
    apply prepare_real_pass_modules in Hq.
  - intros H. apply orig_forward_modules in H.
    eapply same_modules_trans; [eassumption|].
    eapply same_modules_trans; eassumption.
  - intros [= <- <-]. eapply same_modules_trans; eassumption.
Qed.

(** *** The [finally] clause *)

Lemma clean_ref_module_mem_own_empty (r : ReferenceInjections.t Tensor) :
  own_banks_empty (ReferenceInjections.clean_ref_module_mem r).
Proof.
  split; cbn; apply Forall_forall; intros h Hin;
    apply list_elem_of_fmap in Hin as (h0 & -> & _); repeat split.
Qed.

Lemma finally_clause_registry {A : Type} (a : option (list Unit)) (o : option dispatch)
    (r r' : outcome A) (w w' : W) :
  finally_clause a o r w = (r', w') ->
  World.reference_injections w' =
  ReferenceInjections.clean_ref_module_mem (World.reference_injections w).
Proof.
  unfold finally_clause.
  destruct a as [l|]; [|intros [= <- <-]; done].
  destruct (0 <? length l)%nat; [|intros [= <- <-]; done].
  destruct o; intros [= <- <-]; done.
Qed.

Lemma finally_clause_calls {A : Type} (a : option (list Unit)) (o : option dispatch)
    (r r' : outcome A) (w w' : W) :
  finally_clause a o r w = (r', w') ->
  World.forward_calls w' = World.forward_calls w /\
  (is_ok r' = true -> r' = r).
Proof.
  unfold finally_clause.
  destruct a as [l|]; [|intros [= <- <-]; done].
  destruct (0 <? length l)%nat; [|intros [= <- <-]; done].
  destruct o; intros [= <- <-]; done.
Qed.

Lemma assign_cond_idxs_frame (x : Tensor) (w w' : W) (r : outcome unit) :
  assign_cond_idxs batch_size x w = (r, w') ->
  World.forward_calls w' = World.forward_calls w /\
  World.forward_timestep_embed w' = World.forward_timestep_embed w /\
  World.reference_injections w' = World.reference_injections w.
Proof.
  unfold assign_cond_idxs.
  destruct (World.transformer_options w !! COND_OR_UNCOND) as [[| |l|]|];
    try (intros [= <- <-]; done).
  destruct (Z.eqb _ 0); intros [= <- <-]; done.
Qed.

Lemma existsb_filter_nonempty (l1 l2 : list Unit) :
  existsb ReferenceAdvanced.should_run (l1 ++ l2) = true ->
  Nat.eqb (length (List.filter ReferenceAdvanced.should_run l1)) 0
  && Nat.eqb (length (List.filter ReferenceAdvanced.should_run l2)) 0 = false.
Proof.
  rewrite existsb_app, orb_true_iff.
  intros [H|H]; apply existsb_exists in H as (u & Hin & Hu).
  - assert (Hf : In u (List.filter ReferenceAdvanced.should_run l1))
      by (apply filter_In; done).
    destruct (List.filter _ l1); [destruct Hf|done].
  - assert (Hf : In u (List.filter ReferenceAdvanced.should_run l2))
      by (apply filter_In; done).
    destruct (List.filter _ l2); [destruct Hf|]. apply andb_false_r.
Qed.

(** C2.  Whenever at least one reference unit of either source runs, the
    wrapper ends, by normal return or with an exception, in a world in which
    every RefCN-origin sub-bank of every patched attention and normalization
    module is empty; the registry still lists the same modules. *)
Theorem own_banks_empty_after_forward (x : Tensor) (w w' : W)
    (r : outcome (list Tensor)) (ref_all context_all : list Unit) :
  get_control_list (World.transformer_options w) REF_CONTROL_LIST_ALL = Ok ref_all ->
  get_control_list (World.transformer_options w) CONTEXTREF_CONTROL_LIST_ALL
    = Ok context_all ->
  existsb ReferenceAdvanced.should_run (ref_all ++ context_all) = true ->
  forward x w = (r, w') ->
  own_banks_empty (World.reference_injections w') /\
  same_modules (World.reference_injections w) (World.reference_injections w').
Proof.
  intros Href Hctx Hrun. unfold forward_inject_UNetModel.
  rewrite Href, Hctx, (existsb_filter_nonempty _ _ Hrun).
  destruct (assign_cond_idxs batch_size x w) as [[u|e] w1] eqn:Ha;
    apply assign_cond_idxs_frame in Ha as (_ & _ & Hreg).
  - destruct (try_body _ _ _ _ _ _ _ _ _ _) as [o [r2 w2]] eqn:Hb.
    apply try_body_modules in Hb. rewrite Hreg in Hb.
    intros Hf. apply finally_clause_registry in Hf. rewrite Hf. split.
    + apply clean_ref_module_mem_own_empty.
    + eapply same_modules_trans; [eassumption|apply clean_ref_modules].
  - intros Hf. apply finally_clause_registry in Hf. rewrite Hf, Hreg. split.
    + apply clean_ref_module_mem_own_empty.
    + apply clean_ref_modules.
Qed.

(** *** Number of forward passes *)

Lemma try_body_calls (x : Tensor) (rc cc : list Unit) (w w' : W)
    (o : option dispatch) (outs : list Tensor) :
  try_body' x rc cc w = (o, (Ok outs, w')) ->
  length (World.forward_calls w') = (length (World.forward_calls w) + length rc + 1)%nat.
Proof.
  unfold try_body. intros [= _ H]. revert H.
  match goal with
  | |- context [reference_passes _ _ _ _ _ _ _ ?ww] => set (w0 := ww)
  end.
  assert (Hw0 : World.forward_calls w0 = World.forward_calls w).
  { subst w0. destruct (_ || _); done. }
  rewrite <- Hw0. clearbody w0.
  destruct (reference_passes _ _ _ _ _ _ _ _) as [[u1|e] w3] eqn:Hp;
    apply reference_passes_frame in Hp as (_ & Hc5); [|done].
  specialize (Hc5 eq_refl).
  destruct (prepare_real_pass _ _ _ _ _ _) as [[u'|e] w4] eqn:Hq;
    apply prepare_real_pass_frame in Hq as (Hc4 & _); [|done].
  intros H. apply orig_forward_frame in H as (-> & _).
  rewrite length_app, Hc4, Hc5. cbn. lia.
Qed.

Lemma forward_calls_count (x : Tensor) (w w' : W) (outs : list Tensor)
    (ref_all : list Unit) :
  get_control_list (World.transformer_options w) REF_CONTROL_LIST_ALL = Ok ref_all ->
  forward x w = (Ok outs, w') ->
  length (World.forward_calls w') =
  (length (World.forward_calls w)
   + length (List.filter ReferenceAdvanced.should_run ref_all) + 1)%nat.
Proof.
  intros Href. unfold forward_inject_UNetModel. rewrite Href.
  destruct (get_control_list _ CONTEXTREF_CONTROL_LIST_ALL) as [context_all|]; [|done].
  destruct (Nat.eqb (length (List.filter _ ref_all)) 0
            && Nat.eqb (length (List.filter _ context_all)) 0) eqn:Hz.
  - apply andb_true_iff in Hz as [Hz _]. apply Nat.eqb_eq in Hz. rewrite Hz.
    intros H. apply orig_forward_frame in H as (-> & _). rewrite length_app. cbn. lia.
  - destruct (assign_cond_idxs batch_size x w) as [[u|e] w1] eqn:Ha;
      apply assign_cond_idxs_frame in Ha as (Hc1 & _ & _); [|done].
    destruct (try_body _ _ _ _ _ _ _ _ _ _) as [o [r2 w2]] eqn:Hb.
    intros Hf. apply finally_clause_calls in Hf as (Hc3 & Hr).
    specialize (Hr eq_refl). subst r2. rewrite Hc3, <- Hc1.
    eapply try_body_calls. eassumption.
Qed.

(** C8.  [should_run] is false when the base scheduling collaborator says
    so.  Otherwise it is true exactly when some channel enabled by the
    reference type has both its ref_weight and its strength different from
    zero: the test is [math.isclose(v, 0.0)] with the default tolerances, a
    relative one of 1e-09 and an absolute one of 0.0, and against 0.0 the
    relative tolerance is [1e-09 * abs(v)], which [abs(v)] exceeds unless [v]
    is zero.  A unit all of whose enabled channels have weight or strength 0
    is therefore not run; the interceptor filters on [should_run], and a call
    that returns has made one forward pass per running RefCN unit plus the
    real one, so such a unit adds none. *)
Theorem should_run_iff_some_enabled_channel_nonzero :
  (forall v : Q, isclose v 0 = true <-> (v == 0)%Q) /\
  (forall u : Unit,
     ReferenceAdvanced.base_should_run u = false -> ReferenceAdvanced.should_run u = false) /\
  (forall u : Unit,
     ReferenceAdvanced.base_should_run u = true ->
     let o := ReferenceAdvanced.ref_opts u in
     ReferenceAdvanced.should_run u = true <->
     (ReferenceType.is_attn (ReferenceOptions.reference_type o) = true /\
      ~ (ReferenceOptions.attn_ref_weight o == 0)%Q /\
      ~ (ReferenceOptions.attn_strength o == 0)%Q) \/
     (ReferenceType.is_adain (ReferenceOptions.reference_type o) = true /\
      ~ (ReferenceOptions.adain_ref_weight o == 0)%Q /\
      ~ (ReferenceOptions.adain_strength o == 0)%Q)) /\
  (forall u : Unit,
     let o := ReferenceAdvanced.ref_opts u in
     (ReferenceType.is_attn (ReferenceOptions.reference_type o) = true ->
      (ReferenceOptions.attn_ref_weight o == 0)%Q \/ (ReferenceOptions.attn_strength o == 0)%Q) ->
     (ReferenceType.is_adain (ReferenceOptions.reference_type o) = true ->
      (ReferenceOptions.adain_ref_weight o == 0)%Q \/ (ReferenceOptions.adain_strength o == 0)%Q) ->
     ReferenceAdvanced.should_run u = false) /\
  (forall (x : Tensor) (w w' : W) (outs : list Tensor) (ref_all : list Unit),
     get_control_list (World.transformer_options w) REF_CONTROL_LIST_ALL = Ok ref_all ->
     forward x w = (Ok outs, w') ->
     length (World.forward_calls w') =
     (length (World.forward_calls w)
      + length (List.filter ReferenceAdvanced.should_run ref_all) + 1)%nat).
Proof.
  split; [apply isclose_zero_iff|]. split; [|split; [|split]].
  - intros u Hb. unfold ReferenceAdvanced.should_run. rewrite Hb. done.
  - intros u Hb o. rewrite <- !isclose_zero_false_iff.
    unfold ReferenceAdvanced.should_run. rewrite Hb. cbn [negb].
    fold o.
    destruct (ReferenceType.is_attn _), (ReferenceType.is_adain _),
      (isclose (ReferenceOptions.attn_ref_weight o) 0),
      (isclose (ReferenceOptions.attn_strength o) 0),
      (isclose (ReferenceOptions.adain_ref_weight o) 0),
      (isclose (ReferenceOptions.adain_strength o) 0); cbn; intuition congruence.
  - intros u o Hattn Hadain. unfold ReferenceAdvanced.should_run. fold o.
    destruct (ReferenceAdvanced.base_should_run u); [|done]. cbn [negb].
    destruct (ReferenceType.is_attn _).
    + destruct (Hattn eq_refl) as [H|H]; apply isclose_zero_iff in H; rewrite H;
        rewrite ?orb_true_r; cbn;
        (destruct (ReferenceType.is_adain _); [|done]);
        destruct (Hadain eq_refl) as [H'|H']; apply isclose_zero_iff in H'; rewrite H';
        rewrite ?orb_true_r; done.
    + cbn. destruct (ReferenceType.is_adain _); [|done].
      destruct (Hadain eq_refl) as [H'|H']; apply isclose_zero_iff in H'; rewrite H';
        rewrite ?orb_true_r; done.
  - apply forward_calls_count.
Qed.

(** *** The dispatch function across a call *)

Lemma try_body_dispatch (x : Tensor) (rc cc : list Unit) (w w' : W)
    (o : option dispatch) (r : outcome (list Tensor)) :
  try_body' x rc cc w = (o, (r, w')) ->
  let substitute :=
    (0 <? length (adain_capable rc))%nat || (0 <? length (adain_capable cc))%nat in
  o = (if substitute then Some (World.forward_timestep_embed w) else None) /\
  World.forward_timestep_embed w' =
  (if substitute then RefInject (World.forward_timestep_embed w)
   else World.forward_timestep_embed w).
Proof.
  unfold try_body. cbn zeta. intros [= <- H]. split; [done|]. revert H.
  match goal with
  | |- context [reference_passes _ _ _ _ _ _ _ ?ww] => set (w0 := ww)
  end.
  assert (Hw0 : World.forward_timestep_embed w0 =
                if (0 <? length (adain_capable rc))%nat
                   || (0 <? length (adain_capable cc))%nat
                then RefInject (World.forward_timestep_embed w)
                else World.forward_timestep_embed w).
  { subst w0. destruct (_ || _); done. }
  rewrite <- Hw0. clearbody w0.
  destruct (reference_passes _ _ _ _ _ _ _ _) as [[u1|e] w3] eqn:Hp;
    apply reference_passes_frame in Hp as (Hd3 & _); [|intros [= <- <-]; done].
  destruct (prepare_real_pass _ _ _ _ _ _) as [[u'|e] w4] eqn:Hq;
    apply prepare_real_pass_frame in Hq as (_ & Hd4).
  - intros H. apply orig_forward_frame in H as (_ & _ & Hd5). congruence.
  - intros [= <- <-]. congruence.
Qed.

(** The dispatch function is back at its value from before the call, on
    every exit, when a running RefCN unit is adain-capable or no running
    ContextRef unit is. *)
Lemma forward_restores_dispatch (x : Tensor) (w w' : W) (r : outcome (list Tensor))
    (ref_all context_all : list Unit) :
  get_control_list (World.transformer_options w) REF_CONTROL_LIST_ALL = Ok ref_all ->
  get_control_list (World.transformer_options w) CONTEXTREF_CONTROL_LIST_ALL
    = Ok context_all ->
  adain_capable (List.filter ReferenceAdvanced.should_run ref_all) <> [] \/
  adain_capable (List.filter ReferenceAdvanced.should_run context_all) = [] ->
  forward x w = (r, w') ->
  World.forward_timestep_embed w' = World.forward_timestep_embed w.
Proof.
  intros Href Hctx Hcase. unfold forward_inject_UNetModel. rewrite Href, Hctx.
  destruct (_ && _).
  { intros H. apply orig_forward_frame in H as (_ & _ & Hd). done. }
  destruct (assign_cond_idxs batch_size x w) as [[u|e] w1] eqn:Ha;
    apply assign_cond_idxs_frame in Ha as (_ & Hd1 & _).
  - destruct (try_body _ _ _ _ _ _ _ _ _ _) as [o [r2 w2]] eqn:Hb.
    apply try_body_dispatch in Hb as (Ho & Hd2). cbn zeta in Ho, Hd2.
    unfold finally_clause.
    destruct (adain_capable (List.filter ReferenceAdvanced.should_run ref_all))
      as [|a0 al] eqn:Had; cbn [length Nat.ltb Nat.leb orb] in *.
    + destruct Hcase as [Hcase|Hcase]; [done|]. rewrite Hcase in *. cbn in *.
      intros [= <- <-]. cbn. congruence.
    + subst o. intros [= <- <-]. cbn. congruence.
  - unfold finally_clause. intros [= <- <-]. cbn. congruence.
Qed.

(** When only ContextRef units are adain-capable the instrumented function
    stays installed after the call. *)
Lemma forward_leaves_dispatch_substituted (x : Tensor) (w w' : W)
    (r : outcome (list Tensor)) (ref_all context_all : list Unit) :
  get_control_list (World.transformer_options w) REF_CONTROL_LIST_ALL = Ok ref_all ->
  get_control_list (World.transformer_options w) CONTEXTREF_CONTROL_LIST_ALL
    = Ok context_all ->
  adain_capable (List.filter ReferenceAdvanced.should_run ref_all) = [] ->
  adain_capable (List.filter ReferenceAdvanced.should_run context_all) <> [] ->
  is_ok (fst (assign_cond_idxs batch_size x w)) = true ->
  forward x w = (r, w') ->
  World.forward_timestep_embed w' = RefInject (World.forward_timestep_embed w).
Proof.
  intros Href Hctx Had Hcad Hassign. unfold forward_inject_UNetModel. rewrite Href, Hctx.
  assert (Hne : List.filter ReferenceAdvanced.should_run context_all <> []).
  { intros Hnil. rewrite Hnil in Hcad. done. }
  destruct (List.filter ReferenceAdvanced.should_run context_all) as [|c0 cl] eqn:Hcl;
    [done|].
  cbn [length Nat.eqb andb]. rewrite andb_false_r.
  destruct (assign_cond_idxs batch_size x w) as [[u|e] w1] eqn:Ha; [|done].
  apply assign_cond_idxs_frame in Ha as (_ & Hd1 & _).
  destruct (try_body _ _ _ _ _ _ _ _ _ _) as [o [r2 w2]] eqn:Hb.
  apply try_body_dispatch in Hb as (Ho & Hd2). cbn zeta in Ho, Hd2.
  unfold finally_clause. rewrite Had in *.
  destruct (adain_capable (c0 :: cl)) as [|a0 al]; [done|].
  cbn in *. intros [= <- <-]. cbn. congruence.
Qed.

(** *** ContextRef entries across the parts of a call *)

Lemma insert_keeps_context_attn
    (l : list (InjectionBasicTransformerBlockHolder.t Tensor)) (i : nat)
    (self self' : InjectionBasicTransformerBlockHolder.t Tensor) :
  l !! i = Some self -> attn_context_entries self' = attn_context_entries self ->
  map attn_context_entries (<[i := self']> l) = map attn_context_entries l.
Proof.
  intros Hi He. rewrite list_fmap_insert, He.
  apply list_insert_id. rewrite list_lookup_fmap, Hi. done.
Qed.

Lemma run_step_keeps_context (s : net_step Tensor) (w w' : W) (r : outcome Tensor) :
  no_context_writer (World.transformer_options w) ->
  run_step' s w = (r, w') ->
  context_entries (World.reference_injections w')
  = context_entries (World.reference_injections w).
Proof.
  intros Hno. destruct s as [i n|ts x|e]; cbn.
  - destruct (_ !! i) as [self|] eqn:Hi; [|intros [= <- <-]; done].
    destruct (_forward_inject_BasicTransformerBlock _ _ _ _ _ _) as [r1 self'] eqn:Hf.
    apply attn_layer_keeps_context in Hf; [|done].
    intros [= <- <-]. unfold context_entries. cbn.
    rewrite (insert_keeps_context_attn _ _ _ _ Hi Hf). done.
  - destruct (call_forward_timestep_embed _ _ _ _ _ _ _) as [r1 l1] eqn:Hc.
    apply call_forward_timestep_embed_keeps_context in Hc; [|done].
    intros [= <- <-]. unfold context_entries. cbn. rewrite Hc. done.
  - intros [= <- <-]; done.
Qed.

Lemma run_steps_keeps_context (steps : list (net_step Tensor)) (outs : list Tensor)
    (w w' : W) (r : outcome (list Tensor)) :
  no_context_writer (World.transformer_options w) ->
  run_steps' steps outs w = (r, w') ->
  context_entries (World.reference_injections w')
  = context_entries (World.reference_injections w).
Proof.
  revert outs w. induction steps as [|s rest IH]; intros outs w Hno; cbn.
  - intros [= <- <-]; done.
  - destruct (run_step' s w) as [[y|e] w1] eqn:Hs.
    + pose proof (run_step_frame _ _ _ _ Hs) as (_ & Ho & _).
      apply run_step_keeps_context in Hs; [|done].
      intros H. apply IH in H; [|rewrite Ho; done]. congruence.
    + apply run_step_keeps_context in Hs; [|done]. intros [= <- <-]; done.
Qed.

Lemma orig_forward_keeps_context (x : Tensor) (control : bool) (w w' : W)
    (r : outcome (list Tensor)) :
  no_context_writer (World.transformer_options w) ->
  orig_forward x control w = (r, w') ->
  context_entries (World.reference_injections w')
  = context_entries (World.reference_injections w).
Proof.
  unfold diffusion_model_orig_forward. intros Hno H.
  apply run_steps_keeps_context in H; done.
Qed.

Lemma apply_lists_write_lists (ra wa rd wd : list Unit) (w : W) :
  get_control_list (World.transformer_options (apply_lists ra wa rd wd w))
    REF_WRITE_ATTN_CONTROL_LIST = Ok wa /\
  get_control_list (World.transformer_options (apply_lists ra wa rd wd w))
    REF_WRITE_ADAIN_CONTROL_LIST = Ok wd /\
  get_control_list (World.transformer_options (apply_lists ra wa rd wd w))
    REF_READ_ATTN_CONTROL_LIST = Ok ra /\
  get_control_list (World.transformer_options (apply_lists ra wa rd wd w))
    REF_READ_ADAIN_CONTROL_LIST = Ok rd.
Proof.
  unfold apply_lists, World.set_item, get_control_list. cbn.
  repeat split.
  - rewrite !lookup_insert_ne by done. rewrite lookup_insert_eq. done.
  - rewrite lookup_insert_eq. done.
  - rewrite !lookup_insert_ne by done. rewrite lookup_insert_eq. done.
  - rewrite !lookup_insert_ne by done. rewrite lookup_insert_eq. done.
Qed.

Lemma apply_lists_other_keys (ra wa rd wd : list Unit) (w : W) (key : string) :
  key <> REF_READ_ATTN_CONTROL_LIST -> key <> REF_WRITE_ATTN_CONTROL_LIST ->
  key <> REF_READ_ADAIN_CONTROL_LIST -> key <> REF_WRITE_ADAIN_CONTROL_LIST ->
  World.transformer_options (apply_lists ra wa rd wd w) !! key
  = World.transformer_options w !! key.
Proof.
  intros. unfold apply_lists, World.set_item. cbn.
  rewrite !lookup_insert_ne by done. done.
Qed.

Lemma apply_lists_no_context_writer (ra wa rd wd : list Unit) (w : W) :
  Forall (fun u => ReferenceAdvanced.is_context_ref u = false) wa ->
  Forall (fun u => ReferenceAdvanced.is_context_ref u = false) wd ->
  no_context_writer (World.transformer_options (apply_lists ra wa rd wd w)).
Proof.
  intros Ha Hd key l [-> | ->] Hl;
    destruct (apply_lists_write_lists ra wa rd wd w) as (H1 & H2 & _); congruence.
Qed.

Lemma reference_pass_keeps_context (control : Unit) (w w' : W) (r : outcome unit) :
  ReferenceAdvanced.is_context_ref control = false ->
  reference_pass' control w = (r, w') ->
  context_entries (World.reference_injections w')
  = context_entries (World.reference_injections w) /\
  (forall key, key <> REF_READ_ATTN_CONTROL_LIST -> key <> REF_WRITE_ATTN_CONTROL_LIST ->
     key <> REF_READ_ADAIN_CONTROL_LIST -> key <> REF_WRITE_ADAIN_CONTROL_LIST ->
     World.transformer_options w' !! key = World.transformer_options w !! key).
Proof.
  intros Hc. unfold reference_pass.
  match goal with
  | |- context [apply_lists ?ra ?wa ?rd ?wd w] =>
      pose proof (apply_lists_no_context_writer ra wa rd wd w) as Hno;
      pose proof (apply_lists_other_keys ra wa rd wd w) as Hkeys;
      set (w0 := apply_lists ra wa rd wd w) in *
  end.
  assert (Hno' : no_context_writer (World.transformer_options w0)).
  { apply Hno;
      repeat match goal with
             | |- context [if ?b then _ else _] => destruct b
             end;
      repeat constructor; done. }
  assert (Hreg : World.reference_injections w0 = World.reference_injections w) by done.
  clear Hno. clearbody w0.
  destruct (ReferenceAdvanced.cond_hint control) as [hint|];
    [|intros [= <- <-]; rewrite Hreg; done].
  destruct (diffusion_model_orig_forward _ _ _ _ _ _ _ _ _) as [[outs|e] w1] eqn:Hf;
    pose proof (orig_forward_frame _ _ _ _ _ Hf) as (_ & Ho & _);
    apply orig_forward_keeps_context in Hf; try done;
    intros [= <- <-]; (split; [congruence|]); intros; rewrite Ho; auto.
Qed.

Lemma reference_passes_keeps_context (l : list Unit) (w w' : W) (r : outcome unit) :
  Forall (fun u => ReferenceAdvanced.is_context_ref u = false) l ->
  reference_passes' l w = (r, w') ->
  context_entries (World.reference_injections w')
  = context_entries (World.reference_injections w) /\
  (forall key, key <> REF_READ_ATTN_CONTROL_LIST -> key <> REF_WRITE_ATTN_CONTROL_LIST ->
     key <> REF_READ_ADAIN_CONTROL_LIST -> key <> REF_WRITE_ADAIN_CONTROL_LIST ->
     World.transformer_options w' !! key = World.transformer_options w !! key).
Proof.
  intros Hall. revert w. induction Hall as [|control rest Hc Hrest IH]; intros w; cbn.
  - intros [= <- <-]. done.
  - destruct (reference_pass' control w) as [[u|e] w1] eqn:Hp;
      apply reference_pass_keeps_context in Hp as (He & Hk); try done.
    + intros H. apply IH in H as (He' & Hk'). split; [congruence|].
      intros key H1 H2 H3 H4. rewrite Hk', Hk by done. done.
    + intros [= <- <-]. done.
Qed.

Lemma py_eq_str_refl (s : string) : py_eq_str (Tensor := Tensor) (PyStr s) s = true.
Proof. cbn. apply bool_decide_eq_true. done. Qed.

Lemma py_eq_str_ne (s s' : string) :
  s <> s' -> py_eq_str (Tensor := Tensor) (PyStr s) s' = false.
Proof. intros H. cbn. apply bool_decide_eq_false. done. Qed.

Lemma py_eq_str_false (v : pyval Tensor) (s : string) :
  v <> PyStr s -> py_eq_str v s = false.
Proof.
  intros H. destruct v as [s'| | |]; cbn; try done.
  apply bool_decide_eq_false. congruence.
Qed.

(** With the attention machine state at READ and the adain machine state
    not at WRITE, nothing is cleared and the real pass gets empty write
    lists. *)
Lemma prepare_real_pass_read (a d c ca cd : list Unit) (w w' : W) (r : outcome unit) :
  World.transformer_options w !! CONTEXTREF_ATTN_MACHINE_STATE
    = Some (PyStr MachineState.READ) ->
  World.transformer_options w !! CONTEXTREF_ADAIN_MACHINE_STATE
    <> Some (PyStr MachineState.WRITE) ->
  prepare_real_pass a d c ca cd w = (r, w') ->
  World.reference_injections w' = World.reference_injections w /\
  (is_ok r = true -> no_context_writer (World.transformer_options w')).
Proof.
  intros Hattn Hadain. unfold prepare_real_pass.
  destruct (0 <? length c)%nat.
  - rewrite Hattn.
    rewrite (py_eq_str_ne MachineState.READ MachineState.WRITE) by done.
    rewrite (py_eq_str_ne MachineState.READ MachineState.OFF) by done.
    rewrite py_eq_str_refl. cbn [orb].
    destruct (World.transformer_options w !! CONTEXTREF_ADAIN_MACHINE_STATE)
      as [adain_state|]; [|intros [= <- <-]; done].
    rewrite (py_eq_str_false adain_state MachineState.WRITE) by congruence.
    destruct (py_eq_str adain_state MachineState.READ);
      intros [= <- <-]; (split; [done|]); intros _;
      apply apply_lists_no_context_writer; constructor.
  - intros [= <- <-]. split; [done|]. intros _.
    apply apply_lists_no_context_writer; constructor.
Qed.

Lemma clean_contextref_module_mem_empty (r : ReferenceInjections.t Tensor) :
  context_banks_empty (ReferenceInjections.clean_contextref_module_mem r).
Proof.
  split; cbn; apply Forall_forall; intros h Hin;
    apply list_elem_of_fmap in Hin as (h0 & -> & _); repeat split.
Qed.

(** With the attention machine state at WRITE or OFF and a ContextRef unit
    running, the lists of the real pass are installed in a world whose
    ContextRef banks are all empty. *)
Lemma prepare_real_pass_clears (a d c ca cd : list Unit) (w w' : W) (r : outcome unit)
    (attn_state : string) :
  c <> [] ->
  World.transformer_options w !! CONTEXTREF_ATTN_MACHINE_STATE = Some (PyStr attn_state) ->
  attn_state = MachineState.WRITE \/ attn_state = MachineState.OFF ->
  prepare_real_pass a d c ca cd w = (r, w') ->
  context_banks_empty (World.reference_injections w').
Proof.
  intros Hc Hattn Hstate. unfold prepare_real_pass.
  destruct c as [|u0 c]; [done|]. cbn [length Nat.ltb Nat.leb].
  rewrite Hattn.
  assert (Hwo : py_eq_str (Tensor := Tensor) (PyStr attn_state) MachineState.WRITE
                || py_eq_str (Tensor := Tensor) (PyStr attn_state) MachineState.OFF = true).
  { destruct Hstate as [-> | ->].
    - rewrite py_eq_str_refl. done.
    - rewrite py_eq_str_refl. apply orb_true_r. }
  rewrite Hwo.
  destruct (py_eq_str (Tensor := Tensor) (PyStr attn_state) MachineState.WRITE),
           (py_eq_str (Tensor := Tensor) (PyStr attn_state) MachineState.READ); cbn;
    (destruct (World.transformer_options w !! CONTEXTREF_ADAIN_MACHINE_STATE)
       as [adain_state|];
     [|intros [= <- <-]; apply clean_contextref_module_mem_empty]);
    destruct (py_eq_str adain_state MachineState.WRITE),
             (py_eq_str adain_state MachineState.READ);
    intros [= <- <-]; apply clean_contextref_module_mem_empty.
Qed.

Lemma clean_ref_keeps_context (r : ReferenceInjections.t Tensor) :
  context_entries (ReferenceInjections.clean_ref_module_mem r) = context_entries r.
Proof.
  unfold context_entries. cbn. rewrite !map_map. f_equal; apply map_ext; done.
Qed.

Lemma assign_cond_idxs_other_keys (x : Tensor) (w w' : W) (r : outcome unit) (key : string) :
  key <> REF_UNCOND_IDXS -> key <> REF_COND_IDXS ->
  assign_cond_idxs batch_size x w = (r, w') ->
  World.transformer_options w' !! key = World.transformer_options w !! key.
Proof.
  intros H1 H2. unfold assign_cond_idxs.
  destruct (World.transformer_options w !! COND_OR_UNCOND) as [[| |l|]|];
    try (intros [= <- <-]; done).
  destruct (Z.eqb _ 0); intros [= <- <-]; [done|].
  cbn. rewrite !lookup_insert_ne by done. done.
Qed.

Lemma filter_should_run_no_context (l : list Unit) :
  Forall (fun u => ReferenceAdvanced.is_context_ref u = false) l ->
  Forall (fun u => ReferenceAdvanced.is_context_ref u = false)
         (List.filter ReferenceAdvanced.should_run l).
Proof.
  rewrite !List.Forall_forall. intros H u Hin. apply filter_In in Hin as [Hin _]. auto.
Qed.

(** A call under READ keeps every ContextRef entry, however it ends. *)
Lemma forward_read_keeps_context (x : Tensor) (w w' : W) (r : outcome (list Tensor))
    (ref_all context_all : list Unit) :
  get_control_list (World.transformer_options w) REF_CONTROL_LIST_ALL = Ok ref_all ->
  get_control_list (World.transformer_options w) CONTEXTREF_CONTROL_LIST_ALL
    = Ok context_all ->
  existsb ReferenceAdvanced.should_run (ref_all ++ context_all) = true ->
  Forall (fun u => ReferenceAdvanced.is_context_ref u = false) ref_all ->
  World.transformer_options w !! CONTEXTREF_ATTN_MACHINE_STATE
    = Some (PyStr MachineState.READ) ->
  World.transformer_options w !! CONTEXTREF_ADAIN_MACHINE_STATE
    <> Some (PyStr MachineState.WRITE) ->
  forward x w = (r, w') ->
  context_entries (World.reference_injections w')
  = context_entries (World.reference_injections w).
Proof.
  intros Href Hctx Hrun Hnc Hattn Hadain. unfold forward_inject_UNetModel.
  rewrite Href, Hctx, (existsb_filter_nonempty _ _ Hrun).
  destruct (assign_cond_idxs batch_size x w) as [[u|e] w1] eqn:Ha;
    pose proof (assign_cond_idxs_other_keys _ _ _ _ CONTEXTREF_ATTN_MACHINE_STATE
                  ltac:(done) ltac:(done) Ha) as Hk1;
    pose proof (assign_cond_idxs_other_keys _ _ _ _ CONTEXTREF_ADAIN_MACHINE_STATE
                  ltac:(done) ltac:(done) Ha) as Hk2;
    apply assign_cond_idxs_frame in Ha as (_ & _ & Hreg).
  - destruct (try_body _ _ _ _ _ _ _ _ _ _) as [o [r2 w2]] eqn:Hb.
    intros Hf. apply finally_clause_registry in Hf.
    rewrite Hf, clean_ref_keeps_context, <- Hreg. clear Hf.
    unfold try_body in Hb. injection Hb as _ Hb. revert Hb.
    match goal with
    | |- context [reference_passes _ _ _ _ _ _ _ ?ww] => set (w0 := ww)
    end.
    assert (Hw0 : World.reference_injections w0 = World.reference_injections w1
                  /\ World.transformer_options w0 = World.transformer_options w1).
    { subst w0. destruct (_ || _); done. }
    destruct Hw0 as [Hr0 Ho0]. rewrite <- Hr0. rewrite <- Ho0 in Hk1, Hk2. clearbody w0.
    destruct (reference_passes _ _ _ _ _ _ _ _) as [[u1|e] w3] eqn:Hp;
      apply reference_passes_keeps_context in Hp as (He3 & Hk3);
      try (apply filter_should_run_no_context; done);
      [|intros [= <- <-]; done].
    destruct (prepare_real_pass _ _ _ _ _ _) as [[u'|e] w4] eqn:Hq;
      apply prepare_real_pass_read in Hq as (Hr4 & Hno4);
      try (rewrite Hk3 by done; congruence).
    + intros H. apply orig_forward_keeps_context in H; [|auto]. congruence.
    + intros [= <- <-]. congruence.
  - intros Hf. apply finally_clause_registry in Hf.
    rewrite Hf, clean_ref_keeps_context, Hreg. done.
Qed.

Lemma reference_passes_other_keys (l : list Unit) (w w' : W) (r : outcome unit)
    (key : string) :
  key <> REF_READ_ATTN_CONTROL_LIST -> key <> REF_WRITE_ATTN_CONTROL_LIST ->
  key <> REF_READ_ADAIN_CONTROL_LIST -> key <> REF_WRITE_ADAIN_CONTROL_LIST ->
  reference_passes' l w = (r, w') ->
  World.transformer_options w' !! key = World.transformer_options w !! key.
Proof.
  intros H1 H2 H3 H4. revert w. induction l as [|control rest IH]; intros w; cbn.
  - intros [= <- <-]. done.
  - unfold reference_pass.
    match goal with
    | |- context [apply_lists ?ra ?wa ?rd ?wd w] =>
        pose proof (apply_lists_other_keys ra wa rd wd w key H1 H2 H3 H4) as Hkeys;
        set (w0 := apply_lists ra wa rd wd w) in *
    end.
    clearbody w0.
    destruct (ReferenceAdvanced.cond_hint control) as [hint|]; [|intros [= <- <-]; done].
    destruct (diffusion_model_orig_forward _ _ _ _ _ _ _ _ _) as [[outs|e] w1] eqn:Hf;
      apply orig_forward_frame in Hf as (_ & Ho & _).
    + intros H. apply IH in H. rewrite H, Ho. done.
    + intros [= <- <-]. rewrite Ho. done.
Qed.

(** A call under WRITE or OFF that returns has run its real pass from a
    world whose ContextRef banks were all empty. *)
Lemma forward_write_clears_context (x : Tensor) (w w' : W) (outs : list Tensor)
    (ref_all context_all : list Unit) (attn_state : string) :
  get_control_list (World.transformer_options w) REF_CONTROL_LIST_ALL = Ok ref_all ->
  get_control_list (World.transformer_options w) CONTEXTREF_CONTROL_LIST_ALL
    = Ok context_all ->
  existsb ReferenceAdvanced.should_run context_all = true ->
  World.transformer_options w !! CONTEXTREF_ATTN_MACHINE_STATE = Some (PyStr attn_state) ->
  attn_state = MachineState.WRITE \/ attn_state = MachineState.OFF ->
  forward x w = (Ok outs, w') ->
  exists w_real w_end : W,
    context_banks_empty (World.reference_injections w_real) /\
    orig_forward x true w_real = (Ok outs, w_end) /\
    World.reference_injections w'
    = ReferenceInjections.clean_ref_module_mem (World.reference_injections w_end).
Proof.
  intros Href Hctx Hrun Hattn Hstate. unfold forward_inject_UNetModel.
  rewrite Href, Hctx.
  assert (Hrun' : existsb ReferenceAdvanced.should_run (ref_all ++ context_all) = true).
  { rewrite existsb_app, Hrun. apply orb_true_r. }
  rewrite (existsb_filter_nonempty _ _ Hrun').
  assert (Hne : List.filter ReferenceAdvanced.should_run context_all <> []).
  { apply existsb_exists in Hrun as (u & Hin & Hu). intros Hnil.
    assert (Hf : In u (List.filter ReferenceAdvanced.should_run context_all))
      by (apply filter_In; done).
    rewrite Hnil in Hf. destruct Hf. }
  destruct (assign_cond_idxs batch_size x w) as [[u|e] w1] eqn:Ha; [|done].
  pose proof (assign_cond_idxs_other_keys _ _ _ _ CONTEXTREF_ATTN_MACHINE_STATE
                ltac:(done) ltac:(done) Ha) as Hk1.
  destruct (try_body _ _ _ _ _ _ _ _ _ _) as [o [r2 w2]] eqn:Hb.
  intros Hf. pose proof (finally_clause_registry _ _ _ _ _ _ Hf) as Hreg.
  apply finally_clause_calls in Hf as (_ & Hr). specialize (Hr eq_refl). subst r2.
  unfold try_body in Hb. injection Hb as _ Hb. revert Hb.
  match goal with
  | |- context [reference_passes _ _ _ _ _ _ _ ?ww] => set (w0 := ww)
  end.
  assert (Ho0 : World.transformer_options w0 = World.transformer_options w1).
  { subst w0. destruct (_ || _); done. }
  rewrite <- Ho0 in Hk1. clearbody w0.
  destruct (reference_passes _ _ _ _ _ _ _ _) as [[u1|e] w3] eqn:Hp; [|done].
  apply (reference_passes_other_keys _ _ _ _ CONTEXTREF_ATTN_MACHINE_STATE) in Hp;
    [|done..].
  destruct (prepare_real_pass _ _ _ _ _ _) as [[u'|e] w4] eqn:Hq; [|done].
  apply (prepare_real_pass_clears _ _ _ _ _ _ _ _ attn_state) in Hq;
    [|done|congruence|done].
  intros H. exists w4, w2. done.
Qed.

(** Entries of the ContextRef set live across READ calls and go at the next
    WRITE or OFF.  (1) A forward call made while the ContextRef attention
    machine state is READ (and the adain one is not WRITE) leaves every
    ContextRef-origin entry of every bank in place, whether it returns or
    raises.  (2) In such a pass an attention layer
    that has entries and a non-empty read list consumes the own entries
    followed by the ContextRef entries, and afterwards only its own lists
    are empty.  (3) A forward call made while the attention machine state is
    WRITE or OFF, and that returns, has run its real pass (the one in
    which ContextRef units write) from a world whose ContextRef banks were
    all empty. *)
Theorem contextref_entries_persist_over_read_and_clear_on_write :
  (forall (x : Tensor) (w w' : W) (r : outcome (list Tensor))
          (ref_all context_all : list Unit),
     get_control_list (World.transformer_options w) REF_CONTROL_LIST_ALL = Ok ref_all ->
     get_control_list (World.transformer_options w) CONTEXTREF_CONTROL_LIST_ALL
       = Ok context_all ->
     existsb ReferenceAdvanced.should_run (ref_all ++ context_all) = true ->
     Forall (fun u => ReferenceAdvanced.is_context_ref u = false) ref_all ->
     World.transformer_options w !! CONTEXTREF_ATTN_MACHINE_STATE
       = Some (PyStr MachineState.READ) ->
     World.transformer_options w !! CONTEXTREF_ADAIN_MACHINE_STATE
       <> Some (PyStr MachineState.WRITE) ->
     forward x w = (r, w') ->
     context_entries (World.reference_injections w')
     = context_entries (World.reference_injections w)) /\
  (forall (self self' : InjectionBasicTransformerBlockHolder.t Tensor) (n out : Tensor)
          (o : gmap string (pyval Tensor)) (ref_read_cns : list Unit),
     get_control_list o REF_WRITE_ATTN_CONTROL_LIST = Ok [] ->
     get_control_list o REF_READ_ATTN_CONTROL_LIST = Ok ref_read_cns ->
     ref_read_cns <> [] ->
     let b := InjectionBasicTransformerBlockHolder.bank_styles self in
     BankStylesBasicTransformerBlock.bank b ++ BankStylesBasicTransformerBlock.c_bank b
       <> [] ->
     _forward_inject_BasicTransformerBlock detach_clone attn1 attn1_reference self n o
       = (Ok out, self') ->
     (exists style_fidelity real_bank uc_idx_mask,
        out = attn1_reference n style_fidelity real_bank uc_idx_mask /\
        map fst real_bank
        = BankStylesBasicTransformerBlock.bank b
          ++ BankStylesBasicTransformerBlock.c_bank b) /\
     attn_own_empty self' /\
     attn_context_entries self' = attn_context_entries self) /\
  (forall (x : Tensor) (w w' : W) (outs : list Tensor)
          (ref_all context_all : list Unit) (attn_state : string),
     get_control_list (World.transformer_options w) REF_CONTROL_LIST_ALL = Ok ref_all ->
     get_control_list (World.transformer_options w) CONTEXTREF_CONTROL_LIST_ALL
       = Ok context_all ->
     existsb ReferenceAdvanced.should_run context_all = true ->
     World.transformer_options w !! CONTEXTREF_ATTN_MACHINE_STATE
       = Some (PyStr attn_state) ->
     attn_state = MachineState.WRITE \/ attn_state = MachineState.OFF ->
     forward x w = (Ok outs, w') ->
     exists w_real w_end : W,
       context_banks_empty (World.reference_injections w_real) /\
       orig_forward x true w_real = (Ok outs, w_end) /\
       World.reference_injections w'
       = ReferenceInjections.clean_ref_module_mem (World.reference_injections w_end)).
Proof.
  split; [|split].
  - apply forward_read_keeps_context.
  - apply attn_layer_read_consumes_context.
  - apply forward_write_clears_context.
Qed.
End InterceptorFacts.

(** ** The arithmetic kernels *)

Section KernelFacts.
Local Open Scope R_scope.

Lemma same_shape_refl (t : RTensor) : same_shape t t.
Proof. apply Forall2_same_length_lookup. split; [done|]. intros; simplify_eq. done. Qed.

Lemma same_shape_sym (a b : RTensor) : same_shape a b -> same_shape b a.
Proof. unfold same_shape. induction 1; constructor; done. Qed.

Lemma same_shape_trans (a b c : RTensor) :
  same_shape a b -> same_shape b c -> same_shape a c.
Proof.
  unfold same_shape. intros Hab. revert c.
  induction Hab as [|x y a b Hxy Hab IH]; intros c Hbc; inversion Hbc; subst;
    constructor; [congruence|auto].
Qed.

Lemma broadcast_size_same (k : nat) : broadcast_size k k = Some k.
Proof. unfold broadcast_size. rewrite Nat.eqb_refl. done. Qed.

Lemma expand_length_self {A : Type} (l : list A) : expand (length l) l = l.
Proof. destruct l as [|a [|b l]]; done. Qed.

Lemma sample_zip_same_length (f : R -> R -> R) (a b : list R) :
  length a = length b -> sample_zip f a b = Some (zip_with f a b).
Proof. intros H. unfold sample_zip. rewrite H, Nat.eqb_refl. done. Qed.

Lemma tensor_zip_same_shape (f : R -> R -> R) (a b : RTensor) :
  same_shape a b -> tensor_zip f a b = Some (zip_with (zip_with f) a b).
Proof.
  unfold same_shape. induction 1 as [|s s' a b Hs Hab IH]; cbn; [done|].
  rewrite sample_zip_same_length, IH by done. done.
Qed.

(** A sample scaled by one plus a sample of the same size scaled by zero. *)
Lemma one_zero_mix_row (l e : list R) :
  length l = length e ->
  zip_with Rplus (map (Rmult 1) l) (map (Rmult 0) e) = l.
Proof.
  revert e. induction l as [|x l IH]; intros [|y e] Hlen; cbn in *; try done.
  f_equal; [lra|]. apply IH. lia.
Qed.

Lemma zero_one_mix_row (l e : list R) :
  length l = length e ->
  zip_with Rplus (map (Rmult 0) l) (map (Rmult 1) e) = e.
Proof.
  revert e. induction l as [|x l IH]; intros [|y e] Hlen; cbn in *; try done.
  f_equal; [lra|]. apply IH. lia.
Qed.

Lemma Q2R_one (q : Q) : (q == 1)%Q -> Q2R q = 1 /\ Q2R (1 - q) = 0.
Proof.
  intros H. split.
  - rewrite (Qeq_eqR _ _ H). unfold Q2R. cbn. lra.
  - assert (H' : (1 - q == 0)%Q) by (rewrite H; reflexivity).
    rewrite (Qeq_eqR _ _ H'). unfold Q2R. cbn. lra.
Qed.

Lemma Q2R_zero (q : Q) : (q == 0)%Q -> Q2R q = 0 /\ Q2R (1 - q) = 1.
Proof.
  intros H. split.
  - rewrite (Qeq_eqR _ _ H). unfold Q2R. cbn. lra.
  - assert (H' : (1 - q == 1)%Q) by (rewrite H; reflexivity).
    rewrite (Qeq_eqR _ _ H'). unfold Q2R. cbn. lra.
Qed.

Lemma fidelity_mix_one (style_fidelity : Q) (t_c t_uc : RTensor) :
  (style_fidelity == 1)%Q -> same_shape t_c t_uc ->
  fidelity_mix style_fidelity t_c t_uc = Some t_c.
Proof.
  intros Hq Hs. unfold fidelity_mix. destruct (Q2R_one _ Hq) as [-> ->].
  unfold same_shape in Hs. induction Hs as [|s s' a b Hlen Hab IH]; cbn; [done|].
  unfold sample_zip. rewrite !length_map, Hlen, Nat.eqb_refl, IH.
  rewrite one_zero_mix_row by done. done.
Qed.

Lemma fidelity_mix_zero (style_fidelity : Q) (t_c t_uc : RTensor) :
  (style_fidelity == 0)%Q -> same_shape t_c t_uc ->
  fidelity_mix style_fidelity t_c t_uc = Some t_uc.
Proof.
  intros Hq Hs. unfold fidelity_mix. destruct (Q2R_zero _ Hq) as [-> ->].
  unfold same_shape in Hs. induction Hs as [|s s' a b Hlen Hab IH]; cbn; [done|].
  unfold sample_zip. rewrite !length_map, Hlen, Nat.eqb_refl, IH.
  rewrite zero_one_mix_row by done. done.
Qed.

(** Putting rows keeps the shape. *)
Lemma index_put_same_shape (t t' : RTensor) (idxs : list nat) (rows : RTensor) :
  index_put t idxs rows = Ok t' -> same_shape t' t.
Proof.
  revert t rows. induction idxs as [|i idxs IH]; intros t [|s rows]; cbn; try done.
  - intros [= <-]. apply same_shape_refl.
  - destruct (t !! i) as [old|] eqn:Hi; [|done].
    destruct (Nat.eqb_spec (length old) (length s)) as [Hlen|]; [|done].
    intros H. apply IH in H. eapply same_shape_trans; [exact H|].
    apply Forall2_same_length_lookup. split; [apply length_insert|].
    intros k a b Ha Hb. destruct (decide (k = i)) as [->|Hne].
    + rewrite list_lookup_insert_eq in Ha by (eapply lookup_lt_Some, Hi). congruence.
    + rewrite list_lookup_insert_ne in Ha by done. congruence.
Qed.

Lemma isclose_one_zero (q : Q) : (q == 1)%Q -> isclose q 0 = false.
Proof. intros H. apply isclose_zero_false_iff. rewrite H. discriminate. Qed.

(** Rows outside the index list are not touched by [t[idxs] = rows]. *)
Lemma index_put_lookup_notin (t t' : RTensor) (idxs : list nat) (rows : RTensor) (i : nat) :
  index_put t idxs rows = Ok t' -> i ∉ idxs -> t' !! i = t !! i.
Proof.
  revert t rows. induction idxs as [|i0 idxs IH]; intros t [|s rows]; cbn; try done.
  - intros [= <-]. done.
  - destruct (t !! i0) as [old|] eqn:Hi; [|done].
    destruct (Nat.eqb (length old) (length s)); [|done].
    intros H Hnot. apply not_elem_of_cons in Hnot as [Hne Hnot].
    rewrite (IH _ _ H Hnot). apply list_lookup_insert_ne. done.
Qed.

(** Rows at the index list are determined by [rows] alone. *)
Lemma index_put_lookup_in (t1 t2 t1' t2' : RTensor) (idxs : list nat) (rows : RTensor)
    (i : nat) :
  index_put t1 idxs rows = Ok t1' -> index_put t2 idxs rows = Ok t2' ->
  i ∈ idxs -> t1' !! i = t2' !! i.
Proof.
  revert t1 t2 rows. induction idxs as [|i0 idxs IH]; intros t1 t2 [|s rows]; cbn; try done.
  - intros _ _ Hin. inversion Hin.
  - destruct (t1 !! i0) as [old1|] eqn:H1; [|done].
    destruct (Nat.eqb (length old1) (length s)); [|done].
    destruct (t2 !! i0) as [old2|] eqn:H2; [|done].
    destruct (Nat.eqb (length old2) (length s)); [|done].
    intros Hp1 Hp2 Hin.
    destruct (decide (i ∈ idxs)) as [Hin'|Hnot]; [eapply IH; eassumption|].
    apply elem_of_cons in Hin as [->|Hin]; [|done].
    rewrite (index_put_lookup_notin _ _ _ _ _ Hp1 Hnot).
    rewrite (index_put_lookup_notin _ _ _ _ _ Hp2 Hnot).
    rewrite !list_lookup_insert_eq by (eapply lookup_lt_Some; eassumption). done.
Qed.

(** After [t[idxs] = x[idxs]] the rows at the index list are those of [x]. *)
Lemma index_put_select (t t' x : RTensor) (idxs : list nat) (rows : RTensor) (i : nat) :
  tensor_select x idxs = Ok rows -> index_put t idxs rows = Ok t' ->
  i ∈ idxs -> t' !! i = x !! i.
Proof.
  revert t rows. induction idxs as [|i0 idxs IH]; intros t rows; cbn.
  - intros _ _ Hin. inversion Hin.
  - destruct (x !! i0) as [s|] eqn:Hx; [|done].
    destruct (tensor_select x idxs) as [rest|] eqn:Hsel; [|done].
    intros [= <-]. cbn.
    destruct (t !! i0) as [old|] eqn:Ht; [|done].
    destruct (Nat.eqb (length old) (length s)); [|done].
    intros Hp Hin.
    destruct (decide (i ∈ idxs)) as [Hin'|Hnot]; [eapply IH; eauto|].
    apply elem_of_cons in Hin as [->|Hin]; [|done].
    rewrite (index_put_lookup_notin _ _ _ _ _ Hp Hnot).
    rewrite list_lookup_insert_eq by (eapply lookup_lt_Some; eassumption). done.
Qed.

Lemma isclose_of_one (q : Q) : (q == 1)%Q -> negb (isclose q 0) = true.
Proof. intros H. rewrite (isclose_one_zero _ H). done. Qed.

(** At fidelity 1 both outputs are their adjusted branch. *)
Lemma attn_fidelity_output_one (style_fidelity : Q) (uc_idx_mask : list nat)
    (n_uc n_self_uc : RTensor) :
  (style_fidelity == 1)%Q ->
  attn_fidelity_output style_fidelity uc_idx_mask n_uc n_self_uc
  = attn_adjusted_branch style_fidelity uc_idx_mask n_uc n_self_uc.
Proof.
  intros Hq. unfold attn_fidelity_output, attn_adjusted_branch, mix_or_raise.
  destruct (_ && _).
  - destruct (index_put n_uc uc_idx_mask n_self_uc) as [t_c|e] eqn:Hput; [|done].
    apply index_put_same_shape in Hput.
    rewrite (fidelity_mix_one _ _ _ Hq Hput). done.
  - rewrite (fidelity_mix_one _ _ _ Hq (same_shape_refl n_uc)). done.
Qed.

Lemma adain_fidelity_output_one (style_fidelity : Q) (uc_idx_mask : list nat)
    (y_uc x : RTensor) :
  (style_fidelity == 1)%Q ->
  adain_fidelity_output style_fidelity uc_idx_mask y_uc x
  = adain_adjusted_branch style_fidelity uc_idx_mask y_uc x.
Proof.
  intros Hq. unfold adain_fidelity_output, adain_adjusted_branch, mix_or_raise.
  destruct (_ && _).
  - destruct (tensor_select x uc_idx_mask) as [rows|e]; [|done].
    destruct (index_put y_uc uc_idx_mask rows) as [t_c|e] eqn:Hput; [|done].
    apply index_put_same_shape in Hput.
    rewrite (fidelity_mix_one _ _ _ Hq Hput). done.
  - rewrite (fidelity_mix_one _ _ _ Hq (same_shape_refl y_uc)). done.
Qed.

(** At fidelity 0 both outputs are the blended branch, and the adjusted rows
    are not even computed. *)
Lemma attn_fidelity_output_zero (style_fidelity : Q) (uc_idx_mask : list nat)
    (n_uc n_self_uc : RTensor) :
  (style_fidelity == 0)%Q ->
  attn_fidelity_output style_fidelity uc_idx_mask n_uc n_self_uc = Ok n_uc.
Proof.
  intros Hq. assert (Hc : isclose style_fidelity 0 = true) by (apply isclose_zero_iff, Hq).
  unfold attn_fidelity_output, attn_adjusted_branch, mix_or_raise.
  rewrite Hc, andb_false_r.
  rewrite (fidelity_mix_zero _ _ _ Hq (same_shape_refl n_uc)). done.
Qed.

Lemma adain_fidelity_output_zero (style_fidelity : Q) (uc_idx_mask : list nat)
    (y_uc x : RTensor) :
  (style_fidelity == 0)%Q ->
  adain_fidelity_output style_fidelity uc_idx_mask y_uc x = Ok y_uc.
Proof.
  intros Hq. assert (Hc : isclose style_fidelity 0 = true) by (apply isclose_zero_iff, Hq).
  unfold adain_fidelity_output, adain_adjusted_branch, mix_or_raise.
  rewrite Hc, andb_false_r.
  rewrite (fidelity_mix_zero _ _ _ Hq (same_shape_refl y_uc)). done.
Qed.

(** C9.  The final output of both READ paths is
    [style_fidelity * adjusted + (1.0 - style_fidelity) * blended], the
    adjusted branch being a copy of the blended one whose rows at the
    unconditional indices are replaced.  When the consumed fidelity is 1.0
    the mix is its adjusted operand and both outputs are their adjusted
    branch: the rows at the unconditional indices do not depend on the
    bank-blended branch (for the normalization they are those of the block's
    own output), the other rows are those of the bank-blended branch.  When it
    is 0.0 the mix is its blended operand and both outputs are the blended
    branch, whatever the per-sample adjusted rows.  Tensor arithmetic is that
    of the real numbers. *)
Theorem fidelity_boundary (style_fidelity : Q) (uc_idx_mask : list nat) :
  ((style_fidelity == 1)%Q ->
   (forall t_c t_uc : RTensor,
      same_shape t_c t_uc -> fidelity_mix style_fidelity t_c t_uc = Some t_c) /\
   (forall n_uc n_self_uc : RTensor,
      attn_fidelity_output style_fidelity uc_idx_mask n_uc n_self_uc
      = attn_adjusted_branch style_fidelity uc_idx_mask n_uc n_self_uc) /\
   (forall y_uc x : RTensor,
      adain_fidelity_output style_fidelity uc_idx_mask y_uc x
      = adain_adjusted_branch style_fidelity uc_idx_mask y_uc x) /\
   (forall (n_uc n_uc' n_self_uc out out' : RTensor) (i : nat),
      attn_fidelity_output style_fidelity uc_idx_mask n_uc n_self_uc = Ok out ->
      attn_fidelity_output style_fidelity uc_idx_mask n_uc' n_self_uc = Ok out' ->
      i ∈ uc_idx_mask -> out !! i = out' !! i) /\
   (forall (y_uc x out : RTensor) (i : nat),
      adain_fidelity_output style_fidelity uc_idx_mask y_uc x = Ok out ->
      i ∈ uc_idx_mask -> out !! i = x !! i) /\
   (forall (n_uc n_self_uc out : RTensor) (i : nat),
      attn_fidelity_output style_fidelity uc_idx_mask n_uc n_self_uc = Ok out ->
      i ∉ uc_idx_mask -> out !! i = n_uc !! i) /\
   (forall (y_uc x out : RTensor) (i : nat),
      adain_fidelity_output style_fidelity uc_idx_mask y_uc x = Ok out ->
      i ∉ uc_idx_mask -> out !! i = y_uc !! i)) /\
  ((style_fidelity == 0)%Q ->
   (forall t_c t_uc : RTensor,
      same_shape t_c t_uc -> fidelity_mix style_fidelity t_c t_uc = Some t_uc) /\
   (forall n_uc n_self_uc : RTensor,
      attn_fidelity_output style_fidelity uc_idx_mask n_uc n_self_uc = Ok n_uc) /\
   (forall y_uc x : RTensor,
      adain_fidelity_output style_fidelity uc_idx_mask y_uc x = Ok y_uc)).
Proof.
  split; intros Hq.
  - pose proof (isclose_of_one _ Hq) as Hc.
    repeat apply conj.
    + intros t_c t_uc. apply fidelity_mix_one, Hq.
    + intros. apply attn_fidelity_output_one, Hq.
    + intros. apply adain_fidelity_output_one, Hq.
    + intros n_uc n_uc' n_self_uc out out' i.
      rewrite !attn_fidelity_output_one by done. unfold attn_adjusted_branch.
      intros H1 H2 Hin. rewrite Hc, andb_true_r in H1, H2.
      destruct uc_idx_mask as [|i0 idxs]; [inversion Hin|].
      cbn [length Nat.ltb Nat.leb] in H1, H2.
      eapply index_put_lookup_in; eassumption.
    + intros y_uc x out i. rewrite adain_fidelity_output_one by done.
      unfold adain_adjusted_branch. intros H Hin. rewrite Hc, andb_true_r in H.
      destruct uc_idx_mask as [|i0 idxs]; [inversion Hin|].
      cbn [length Nat.ltb Nat.leb] in H.
      destruct (tensor_select x (i0 :: idxs)) as [rows|] eqn:Hsel; [|done].
      eapply index_put_select; eassumption.
    + intros n_uc n_self_uc out i. rewrite attn_fidelity_output_one by done.
      unfold attn_adjusted_branch. intros H Hnot.
      destruct (_ && _); [|by injection H as <-].
      eapply index_put_lookup_notin; eassumption.
    + intros y_uc x out i. rewrite adain_fidelity_output_one by done.
      unfold adain_adjusted_branch. intros H Hnot.
      destruct (_ && _); [|by injection H as <-].
      destruct (tensor_select x uc_idx_mask) as [rows|]; [|done].
      eapply index_put_lookup_notin; eassumption.
  - repeat apply conj.
    + intros t_c t_uc. apply fidelity_mix_zero, Hq.
    + intros. apply attn_fidelity_output_zero, Hq.
    + intros. apply adain_fidelity_output_zero, Hq.
Qed.

(** *** The noising formula *)

Lemma expand_of_length {A : Type} (k : nat) (l : list A) : length l = k -> expand k l = l.
Proof. intros <-. apply expand_length_self. Qed.

Lemma expand_fmap {A B : Type} (f : A -> B) (k : nat) (l : list A) :
  map f (expand k l) = expand k (map f l).
Proof.
  destruct l as [|a [|b l]]; try done. cbn. apply fmap_replicate.
Qed.

(** Either the list already has the wanted size, or it is a singleton that
    gets repeated. *)
Lemma expand_cases {A : Type} (k : nat) (l : list A) :
  length (expand k l) = k ->
  length l = k \/ (exists a, l = [a] /\ expand k l = replicate k a /\ k <> 1%nat).
Proof.
  destruct l as [|a [|b l]]; cbn; intros H; try (left; done).
  destruct (decide (k = 1%nat)) as [->|Hne]; [left; done|].
  right. exists a. done.
Qed.

Lemma scale_per_sample_expand (coef : list R) (t : RTensor) :
  length (expand (length t) coef) = length t ->
  scale_per_sample coef t
  = Some (zip_with (fun c s => map (Rmult c) s) (expand (length t) coef) t).
Proof.
  intros H. unfold scale_per_sample.
  destruct (expand_cases _ _ H) as [Hlen|(c & -> & Hrep & Hne)].
  - rewrite Hlen, broadcast_size_same, !expand_of_length by done. done.
  - unfold broadcast_size. cbn [length].
    destruct (Nat.eqb_spec 1 (length t)) as [Heq|_]; [congruence|].
    cbn [Nat.eqb]. f_equal. f_equal. apply expand_of_length. done.
Qed.

Lemma tensor_add_same_shape (a b : RTensor) :
  same_shape a b -> tensor_add a b = Some (zip_with (zip_with Rplus) a b).
Proof.
  intros H. unfold tensor_add. pose proof (Forall2_length _ _ _ H) as Hlen.
  rewrite Hlen, broadcast_size_same, !expand_of_length by done.
  apply tensor_zip_same_shape, H.
Qed.

Lemma scaled_same_shape (c1 c2 : list R) (a b : RTensor) :
  length c1 = length a -> length c2 = length b -> same_shape a b ->
  same_shape (zip_with (fun c s => map (Rmult c) s) c1 a)
             (zip_with (fun c s => map (Rmult c) s) c2 b).
Proof.
  intros H1 H2 Hs. pose proof (Forall2_length _ _ _ Hs) as Hlen.
  apply Forall2_same_length_lookup. split.
  - rewrite !length_zip_with. lia.
  - intros i x y. rewrite !lookup_zip_with.
    destruct (c1 !! i), (a !! i) as [s|] eqn:Ha, (c2 !! i), (b !! i) as [s'|] eqn:Hb;
      cbn; try done.
    intros [= <-] [= <-]. rewrite !length_map.
    eapply Forall2_lookup_lr in Hs; eauto.
Qed.

Section RefNoiseFacts.
Variable randn_like : RTensor -> RTensor.

(** The closed form of [ref_noise_latents] on shape-matched arguments;
    [sigma] has one value per sample or a single value for all samples. *)
Lemma ref_noise_latents_closed_form (latents : RTensor) (sigma : list R)
    (noise : option RTensor) :
  let eps := match noise with None => randn_like latents | Some noise => noise end in
  let sigma_b := expand (length latents) sigma in
  length sigma_b = length latents ->
  same_shape latents eps ->
  ref_noise_latents randn_like latents sigma noise =
  Some (zip_with (zip_with Rplus)
          (zip_with (fun c s => map (Rmult c) s)
             (map sqrt (map (fun s => 1 / (s * s + 1)) sigma_b)) latents)
          (zip_with (fun c s => map (Rmult c) s)
             (map (fun a => sqrt (1 - a)) (map (fun s => 1 / (s * s + 1)) sigma_b)) eps)).
Proof.
  cbn zeta. intros Hlen Hs. pose proof (Forall2_length _ _ _ Hs) as Hlen'.
  unfold ref_noise_latents.
  rewrite !scale_per_sample_expand
    by (rewrite <- ?Hlen', <- !expand_fmap, !length_map; done).
  rewrite <- Hlen', <- !expand_fmap.
  apply tensor_add_same_shape, scaled_same_shape; [rewrite !length_map; lia..|done].
Qed.

Lemma Forall_expand {A : Type} (P : A -> Prop) (k : nat) (l : list A) :
  Forall P l -> Forall P (expand k l).
Proof.
  destruct l as [|a [|b l]]; try done. cbn. intros H. inversion H; subst.
  apply Forall_replicate. done.
Qed.

(** C7.  [sigma] holds one value per sample of [latents], or a single value
    that PyTorch broadcasts to all samples; [sigma_b] is the value for sample
    [b].  With a noise tensor of the shape of [latents] (the supplied one, or
    the draw of [randn_like]), [ref_noise_latents] returns a tensor of that
    shape whose element [i] of sample [b] is
    [sqrt(a) * latents + sqrt(1 - a) * noise] with [a = 1 / (sigma_b^2 + 1)];
    when every sigma is 0 the result is [latents] itself.  Arithmetic is that
    of the real numbers. *)
Theorem ref_noise_latents_formula (latents : RTensor) (sigma : list R)
    (noise : option RTensor) :
  let eps := match noise with None => randn_like latents | Some noise => noise end in
  let sigma_b := expand (length latents) sigma in
  length sigma_b = length latents ->
  same_shape latents eps ->
  exists out : RTensor,
    ref_noise_latents randn_like latents sigma noise = Some out /\
    same_shape latents out /\
    (forall (b i : nat) (s l e : R) (sample noise_sample : list R),
       sigma_b !! b = Some s ->
       latents !! b = Some sample -> sample !! i = Some l ->
       eps !! b = Some noise_sample -> noise_sample !! i = Some e ->
       exists row, out !! b = Some row /\
         row !! i = Some (sqrt (1 / (s * s + 1)) * l + sqrt (1 - 1 / (s * s + 1)) * e)) /\
    (Forall (fun s => s = 0) sigma -> out = latents).
Proof.
  cbn zeta. intros Hlen Hs. eexists. split; [|split; [|split]].
  - apply ref_noise_latents_closed_form; done.
  - revert Hs. generalize (match noise with
                           | Some noise0 => noise0
                           | None => randn_like latents
                           end).
    intros eps Hs. pose proof (Forall2_length _ _ _ Hs) as Hlen'.
    apply Forall2_same_length_lookup. split.
    + rewrite !length_zip_with, !length_map. lia.
    + intros b x y Hx. rewrite !lookup_zip_with, !list_lookup_fmap, Hx.
      destruct (expand (length latents) sigma !! b) as [s|]; cbn; [|done].
      destruct (eps !! b) as [e|] eqn:He; cbn; [|done].
      intros Hy. injection Hy as Hy. subst y.
      rewrite length_zip_with, !length_map.
      eapply Forall2_lookup_lr in Hs; eauto. lia.
  - intros b i s l e sample noise_sample Hsig Hb Hi Heb Hei.
    rewrite !lookup_zip_with, !list_lookup_fmap, Hsig, Hb, Heb. cbn.
    eexists. split; [reflexivity|].
    rewrite lookup_zip_with, !list_lookup_fmap, Hi, Hei. done.
  - intros Hzero. apply (Forall_expand _ (length latents)) in Hzero.
    revert Hzero Hlen Hs.
    generalize (expand (length latents) sigma).
    generalize (match noise with
                | Some noise0 => noise0
                | None => randn_like latents
                end).
    clear noise sigma. intros eps sigma Hzero. revert latents eps.
    induction Hzero as [|s sigma -> Hzero IH]; intros [|sample latents] eps Hlen Hs;
      cbn in *; try done.
    inversion Hs as [|? noise_sample ? eps' Hrow Hrest]; subst. cbn.
    f_equal.
    + replace (1 / (0 * 0 + 1)) with 1 by lra.
      replace (1 - 1) with 0 by lra. rewrite sqrt_1, sqrt_0.
      apply one_zero_mix_row, Hrow.
    + apply IH; [lia|done].
Qed.
End RefNoiseFacts.
End KernelFacts.

(** * The machine run on concrete inputs *)

Section ScenarioFacts.
Import Scenario.



(** C1, the strength call.  A bank entry of order 5 read by the unit of
    order 5 that has masks in effect: on tensors of 320 channels the entry is
    paired and blended; on tensors of 512 channels, and in a unit whose
    [latent_shape] is still [None], the pairing is found and the strength
    call raises. *)
Lemma read_of_masked_unit_raises_on_unknown_channel_count :
  attn_read_loop false (Sym "n") [u_masked] [5%Z] 0 0 [(Sym "a", None)]
  = Ok [(Sym "a", Some u_masked)] /\
  @attn_read_loop sym shape_512 false (Sym "n") [u_masked] [5%Z] 0 0 [(Sym "a", None)]
  = Raised (KeyError "512") /\
  attn_read_loop false (Sym "n") [u_masked_fresh] [5%Z] 0 0 [(Sym "a", None)]
  = Raised TypeError.
Proof. repeat split; vm_compute; reflexivity. Qed.

(** A write list of two different units, which the wrapper installs only
    when the ContextRef list holds two units: the second entry is stored with
    the order and fidelity of the first unit of the list, where the
    normalization WRITE stores each unit's own. *)
Lemma attn_write_stores_order_and_fidelity_of_first_unit :
  let b := InjectionBasicTransformerBlockHolder.bank_styles
             (snd (attn_layer attn_holder (Sym "n") [u3; u7] [])) in
  let g := InjectionTimestepEmbedSequentialHolder.bank_styles
             (snd (gn_layer gn_holder (Sym "x") [u3; u7] [])) in
  BankStylesBasicTransformerBlock.bank b = [Detach (Sym "n"); Detach (Sym "n")] /\
  BankStylesBasicTransformerBlock.cn_idx b = [3%Z; 3%Z] /\
  BankStylesBasicTransformerBlock.style_cfgs b = [1 # 4; 1 # 4]%Q /\
  BankStylesTimestepEmbedSequential.cn_idx g = [3%Z; 7%Z] /\
  BankStylesTimestepEmbedSequential.style_cfgs g = [1 # 4; 3 # 4]%Q.
Proof. repeat split; vm_compute; reflexivity. Qed.

(** C5, the failing input.  The ContextRef unit as [handle_context_ref_setup]
    builds it, in a call made while the ContextRef machine states are WRITE.
    The wrapper hands the unit to the layers in the attention write list of
    the real pass.  Its weight 1.0 exceeds the threshold, and the attention
    WRITE appends the detached tensor with the unit's fidelity 1.0 and order
    -1 to the own lists, not to the ContextRef lists: the routing goes by
    [is_context_ref], which the constructor sets to [False] and nothing sets
    afterwards.  A unit that carries the flag is routed to the ContextRef
    lists by the same call of the layer. *)
Lemma contextref_unit_of_setup_is_written_to_own_bank :
  let w := set_context_state v_step0 MachineState.WRITE in
  let banks (w : World.t sym) :=
    map InjectionBasicTransformerBlockHolder.bank_styles
      (ReferenceInjections.attn_modules (World.reference_injections w)) in
  (* the unit and the lists it is in *)
  fst setup = [cref_setup] /\
  get_control_list (World.transformer_options w) CONTEXTREF_CONTROL_LIST_ALL
  = Ok [cref_setup] /\
  get_control_list (World.transformer_options w) REF_CONTROL_LIST_ALL = Ok [] /\
  ReferenceAdvanced.is_context_ref cref_setup = false /\
  ReferenceAdvanced.should_run cref_setup = true /\
  (* the call is the [try] body followed by the [finally] clause *)
  forward unet (Sym "x1") w
  = finally_clause (Some []) (fst v_try) (fst (snd v_try)) (snd (snd v_try)) /\
  (* at the end of the [try] body: the write list, and what was written *)
  get_control_list (World.transformer_options (snd (snd v_try))) REF_WRITE_ATTN_CONTROL_LIST
  = Ok [cref_setup] /\
  banks (snd (snd v_try))
  = [BankStylesBasicTransformerBlock.mk
       [Detach (Hidden "n" (Sym "x1"))] [1%Q] [(-1)%Z] [] [] []] /\
  (* the layer call alone, without and with the flag *)
  InjectionBasicTransformerBlockHolder.bank_styles
    (snd (attn_layer attn_holder (Sym "n") [cref_setup] []))
  = BankStylesBasicTransformerBlock.mk [Detach (Sym "n")] [1%Q] [(-1)%Z] [] [] [] /\
  ReferenceAdvanced.is_context_ref cref_attn = true /\
  InjectionBasicTransformerBlockHolder.bank_styles
    (snd (attn_layer attn_holder (Sym "n") [cref_attn] []))
  = BankStylesBasicTransformerBlock.mk [] [] [] [Detach (Sym "n")] [1%Q] [(-1)%Z].
Proof. cbn zeta. repeat split; vm_compute; reflexivity. Qed.

(** C3, the failing input.  One adain-capable ContextRef unit, both machine
    states WRITE (then READ): the unit lands in the attention write (read)
    list and the adain lists stay empty. *)
Lemma contextref_adain_units_go_to_attn_lists :
  let after (state : string) :=
    World.transformer_options
      (snd (forward unet (Sym "x") (world (options [] [cref_adain] state state)))) in
  after MachineState.WRITE !! REF_WRITE_ADAIN_CONTROL_LIST = Some (PyControlList []) /\
  after MachineState.WRITE !! REF_WRITE_ATTN_CONTROL_LIST = Some (PyControlList [cref_adain]) /\
  after MachineState.READ !! REF_READ_ADAIN_CONTROL_LIST = Some (PyControlList []) /\
  after MachineState.READ !! REF_READ_ATTN_CONTROL_LIST = Some (PyControlList [cref_adain]).
Proof. repeat split; vm_compute; reflexivity. Qed.

(** C4, the failing input.  Only a ContextRef unit is adain-capable: the
    dispatch function is substituted, the call returns normally, and the
    instrumented function is still installed afterwards; a second call wraps
    it once more. *)
Lemma dispatch_not_restored_when_only_contextref_is_adain :
  let w := world (options [] [cref_adain] MachineState.OFF MachineState.OFF) in
  let w1 := snd (forward unet (Sym "x") w) in
  let w2 := snd (forward unet (Sym "x") w1) in
  World.forward_timestep_embed w = OrigDispatch /\
  is_ok (fst (forward unet (Sym "x") w)) = true /\
  World.forward_timestep_embed w1 = RefInject OrigDispatch /\
  World.forward_timestep_embed w2 = RefInject (RefInject OrigDispatch).
Proof. repeat split; vm_compute; reflexivity. Qed.

Lemma own_banks_empty_after_forward_witness :
  let w := world (options [u3; u7] [cref_attn] MachineState.WRITE MachineState.WRITE) in
  fst (forward unet_failing (Sym "x") w) = Raised ModelError /\
  own_banks_empty (World.reference_injections (snd (forward unet_failing (Sym "x") w))) /\
  same_modules (World.reference_injections w)
    (World.reference_injections (snd (forward unet_failing (Sym "x") w))).
Proof.
  cbn zeta. split; [vm_compute; reflexivity|].
  apply (own_banks_empty_after_forward Detach Attn1 Attn1Ref var_mean AdaIN batch_size
           unet_failing (Sym "x") _ _
           (fst (forward unet_failing (Sym "x")
                   (world (options [u3; u7] [cref_attn] MachineState.WRITE
                             MachineState.WRITE))))
           [u3; u7] [cref_attn]).
  - vm_compute; reflexivity.
  - vm_compute; reflexivity.
  - vm_compute; reflexivity.
  - apply surjective_pairing.
Defined.

Lemma should_run_iff_some_enabled_channel_nonzero_witness :
  ReferenceAdvanced.should_run u_zero = false /\
  (ReferenceAdvanced.should_run u3 = true <->
   (ReferenceType.is_attn ReferenceType.ATTN_ADAIN = true /\
    ~ (1 == 0)%Q /\ ~ (1 == 0)%Q) \/
   (ReferenceType.is_adain ReferenceType.ATTN_ADAIN = true /\
    ~ (1 == 0)%Q /\ ~ (1 == 0)%Q)) /\
  length (World.forward_calls
            (snd (forward unet (Sym "x")
                    (world (options [u_zero; u3] [] MachineState.OFF MachineState.OFF)))))
  = 2%nat.
Proof.
  pose proof (should_run_iff_some_enabled_channel_nonzero Detach Attn1 Attn1Ref var_mean
                AdaIN batch_size unet) as (_ & _ & Hiff & Hzero & Hcount).
  split; [|split].
  - apply Hzero; cbn.
    + intros _. left. reflexivity.
    + intros H. vm_compute in H. discriminate H.
  - apply (Hiff u3). reflexivity.
  - eapply (Hcount (Sym "x")
              (world (options [u_zero; u3] [] MachineState.OFF MachineState.OFF)) _ _
              [u_zero; u3]).
    + vm_compute; reflexivity.
    + vm_compute; reflexivity.
Defined.

(** C8, a weight of 1e-12.  [math.isclose(1e-12, 0.0)] is false although a
    value as far from 1.0 is close to it, so the unit runs and the call makes
    a reference pass for it: two forward passes, the first on its hint. *)
Lemma unit_with_weight_1e_12_runs_and_costs_a_pass :
  let w := world (options [u_tiny] [] MachineState.OFF MachineState.OFF) in
  ReferenceOptions.attn_ref_weight (ReferenceAdvanced.ref_opts u_tiny)
  = (1 # 1000000000000)%Q /\
  isclose (1 # 1000000000000) 0 = false /\
  isclose (1 + (1 # 1000000000000)) 1 = true /\
  ReferenceAdvanced.should_run u_tiny = true /\
  is_ok (fst (forward unet (Sym "x") w)) = true /\
  World.forward_calls (snd (forward unet (Sym "x") w))
  = [(Sym "hint5", false); (Sym "x", true)].
Proof. repeat split; vm_compute; reflexivity. Qed.

(** C6, the failing input.  The state sequence [WRITE, READ, READ, WRITE]
    with the ContextRef unit [handle_context_ref_setup] builds.  The call of
    step 1 has the unit in the attention write list of its real pass; the
    entry goes to the own set, because the unit does not carry
    [is_context_ref], and the [finally] clause clears the own set, so after
    step 1 every bank is as [__init__] left it.  The calls of steps 2 and 3
    have the unit in the attention read list and find nothing to read: their
    outputs are those of the unpatched attention.  With a unit that carries
    the flag the call of step 2 consumes the entry of step 1. *)
Lemma contextref_entry_of_setup_unit_is_gone_before_the_reads :
  (* the unit *)
  get_control_list (World.transformer_options v_step0) CONTEXTREF_CONTROL_LIST_ALL
  = Ok [cref_setup] /\
  ReferenceAdvanced.is_context_ref cref_setup = false /\
  (* step 1, WRITE *)
  get_control_list (World.transformer_options v_step1) REF_WRITE_ATTN_CONTROL_LIST
  = Ok [cref_setup] /\
  map InjectionBasicTransformerBlockHolder.bank_styles
    (ReferenceInjections.attn_modules (World.reference_injections (snd (snd v_try))))
  = [BankStylesBasicTransformerBlock.mk
       [Detach (Hidden "n" (Sym "x1"))] [1%Q] [(-1)%Z] [] [] []] /\
  step MachineState.WRITE (Sym "x1") v_step0
  = finally_clause (Some []) (fst v_try) (fst (snd v_try)) (snd (snd v_try)) /\
  fst (step MachineState.WRITE (Sym "x1") v_step0)
  = Ok [Hidden "h" (Sym "x1"); Attn1 (Hidden "n" (Sym "x1"))] /\
  World.reference_injections v_step1 = registry /\
  context_entries (World.reference_injections v_step1)
  = ([([], [], [])], [([], [], [], [])]) /\
  (* steps 2 and 3, READ *)
  get_control_list (World.transformer_options v_step2) REF_READ_ATTN_CONTROL_LIST
  = Ok [cref_setup] /\
  fst (step MachineState.READ (Sym "x2") v_step1)
  = Ok [Hidden "h" (Sym "x2"); Attn1 (Hidden "n" (Sym "x2"))] /\
  get_control_list (World.transformer_options v_step3) REF_READ_ATTN_CONTROL_LIST
  = Ok [cref_setup] /\
  fst (step MachineState.READ (Sym "x3") v_step2)
  = Ok [Hidden "h" (Sym "x3"); Attn1 (Hidden "n" (Sym "x3"))] /\
  World.reference_injections v_step3 = registry /\
  (* step 4, WRITE *)
  fst (step MachineState.WRITE (Sym "x4") v_step3)
  = Ok [Hidden "h" (Sym "x4"); Attn1 (Hidden "n" (Sym "x4"))] /\
  (* step 2 when the unit carries the flag *)
  ReferenceAdvanced.is_context_ref cref_attn = true /\
  fst (step MachineState.READ (Sym "x2") w_step1)
  = Ok [Hidden "h" (Sym "x2");
        Attn1Ref (Hidden "n" (Sym "x2")) 1
          [(Detach (Hidden "n" (Sym "x1")), Some cref_attn)] [1%Z]].
Proof. repeat split; vm_compute; reflexivity. Qed.

(** The same sequence for a unit that carries [is_context_ref], which code
    outside this module would have to set. *)
Lemma contextref_entries_persist_over_read_and_clear_on_write_witness :
  (* step 1, WRITE: the entry of this call is in the ContextRef bank *)
  context_entries (World.reference_injections w_step1)
  = ([([Detach (Hidden "n" (Sym "x1"))], [1%Q], [(-1)%Z])], [([], [], [], [])]) /\
  (* steps 2 and 3, READ: it is consumed and stays *)
  fst (step MachineState.READ (Sym "x2") w_step1)
  = Ok [Hidden "h" (Sym "x2");
        Attn1Ref (Hidden "n" (Sym "x2")) 1
          [(Detach (Hidden "n" (Sym "x1")), Some cref_attn)] [1%Z]] /\
  context_entries (World.reference_injections w_step2)
  = context_entries (World.reference_injections w_step1) /\
  fst (step MachineState.READ (Sym "x3") w_step2)
  = Ok [Hidden "h" (Sym "x3");
        Attn1Ref (Hidden "n" (Sym "x3")) 1
          [(Detach (Hidden "n" (Sym "x1")), Some cref_attn)] [1%Z]] /\
  context_entries (World.reference_injections w_step3)
  = context_entries (World.reference_injections w_step2) /\
  (* step 4, WRITE: the real pass starts from empty ContextRef banks and
     leaves the entry of this call alone *)
  (exists w_real w_end : World.t sym,
     context_banks_empty (World.reference_injections w_real) /\
     diffusion_model_orig_forward Detach Attn1 Attn1Ref var_mean AdaIN unet
       (Sym "x4") true w_real
     = (Ok [Hidden "h" (Sym "x4"); Attn1 (Hidden "n" (Sym "x4"))], w_end) /\
     World.reference_injections w_step4
     = ReferenceInjections.clean_ref_module_mem (World.reference_injections w_end)) /\
  context_entries (World.reference_injections w_step4)
  = ([([Detach (Hidden "n" (Sym "x4"))], [1%Q], [(-1)%Z])], [([], [], [], [])]).
Proof.
  pose proof (contextref_entries_persist_over_read_and_clear_on_write
                Detach Attn1 Attn1Ref var_mean AdaIN batch_size unet)
    as (Hread & _ & Hwrite).
  split; [vm_compute; reflexivity|].
  split; [vm_compute; reflexivity|].
  split.
  { apply (Hread (Sym "x2") (set_context_state w_step1 MachineState.READ) _
             (fst (step MachineState.READ (Sym "x2") w_step1)) [] [cref_attn]).
    - vm_compute; reflexivity.
    - vm_compute; reflexivity.
    - vm_compute; reflexivity.
    - constructor.
    - vm_compute; reflexivity.
    - vm_compute; discriminate.
    - apply surjective_pairing. }
  split; [vm_compute; reflexivity|].
  split.
  { apply (Hread (Sym "x3") (set_context_state w_step2 MachineState.READ) _
             (fst (step MachineState.READ (Sym "x3") w_step2)) [] [cref_attn]).
    - vm_compute; reflexivity.
    - vm_compute; reflexivity.
    - vm_compute; reflexivity.
    - constructor.
    - vm_compute; reflexivity.
    - vm_compute; discriminate.
    - apply surjective_pairing. }
  split; [|vm_compute; reflexivity].
  apply (Hwrite (Sym "x4") (set_context_state w_step3 MachineState.WRITE) w_step4
           [Hidden "h" (Sym "x4"); Attn1 (Hidden "n" (Sym "x4"))] [] [cref_attn]
           MachineState.WRITE).
  - vm_compute; reflexivity.
  - vm_compute; reflexivity.
  - vm_compute; reflexivity.
  - vm_compute; reflexivity.
  - left. reflexivity.
  - vm_compute; reflexivity.
Defined.

Lemma ref_noise_latents_formula_witness :
  ref_noise_latents (fun t => t) [[2; 3]; [5; 7]]%R [0]%R None
  = Some [[2; 3]; [5; 7]]%R.
Proof.
  destruct (ref_noise_latents_formula (fun t => t) [[2; 3]; [5; 7]]%R [0]%R None)
    as (out & -> & _ & _ & Hzero).
  - reflexivity.
  - repeat constructor.
  - f_equal. apply Hzero. repeat constructor.
Defined.

Lemma fidelity_boundary_witness :
  attn_fidelity_output 1 [1%nat] [[2; 3]; [5; 7]]%R [[11; 13]]%R
  = attn_adjusted_branch 1 [1%nat] [[2; 3]; [5; 7]]%R [[11; 13]]%R /\
  adain_fidelity_output 0 [1%nat] [[2; 3]; [5; 7]]%R [[1; 1]; [11; 13]]%R
  = Ok [[2; 3]; [5; 7]]%R.
Proof.
  split.
  - apply (proj1 (fidelity_boundary 1 [1%nat])). reflexivity.
  - apply (proj2 (fidelity_boundary 0 [1%nat])). reflexivity.
Defined.

(** C9, fidelity 1.0.  Two attention READs (and two normalization READs)
    that differ in the bank-blended branch only: the outputs differ, in the
    row outside the unconditional indices. *)
Lemma output_at_fidelity_one_depends_on_blended_branch :
  attn_fidelity_output 1 [1%nat] [[2; 3]; [5; 7]]%R [[11; 13]]%R
  = Ok [[2; 3]; [11; 13]]%R /\
  attn_fidelity_output 1 [1%nat] [[4; 6]; [5; 7]]%R [[11; 13]]%R
  = Ok [[4; 6]; [11; 13]]%R /\
  adain_fidelity_output 1 [1%nat] [[2; 3]; [5; 7]]%R [[1; 1]; [11; 13]]%R
  = Ok [[2; 3]; [11; 13]]%R /\
  adain_fidelity_output 1 [1%nat] [[4; 6]; [5; 7]]%R [[1; 1]; [11; 13]]%R
  = Ok [[4; 6]; [11; 13]]%R /\
  [[2; 3]; [11; 13]]%R <> [[4; 6]; [11; 13]]%R.
Proof.
  repeat split.
  - rewrite attn_fidelity_output_one by reflexivity. reflexivity.
  - rewrite attn_fidelity_output_one by reflexivity. reflexivity.
  - rewrite adain_fidelity_output_one by reflexivity. reflexivity.
  - rewrite adain_fidelity_output_one by reflexivity. reflexivity.
  - intros [= H _]. lra.
Qed.
End ScenarioFacts.

(** * Further properties *)

(** ** The layers *)

Section LayerMoreFacts.
Context {Tensor : Type} `{!TensorShape Tensor}.
Variable detach_clone : Tensor -> Tensor.
Variable attn1 : Tensor -> Tensor.
Variable attn1_reference :
  Tensor -> Q -> list (Tensor * option (ReferenceAdvanced.t Tensor)) -> list Z -> Tensor.
Variable var_mean : Tensor -> Tensor * Tensor.
Variable adain_reference :
  Tensor -> Q -> list (Tensor * Tensor * option (ReferenceAdvanced.t Tensor)) -> nat ->
  list Z -> Tensor.

Local Abbreviation Unit := (ReferenceAdvanced.t Tensor).
Local Abbreviation attn_layer' :=
  (_forward_inject_BasicTransformerBlock detach_clone attn1 attn1_reference).
Local Abbreviation gn_layer' :=
  (forward_timestep_embed_ref_inject var_mean adain_reference).

(** *** Well-formed banks stay well-formed *)

Lemma attn_write_wf (attn_weight : Q) (n : Tensor) (wl : list Unit)
    (b : BankStylesBasicTransformerBlock.t Tensor) :
  attn_lists_wf b -> attn_lists_wf (fst (attn_write detach_clone attn_weight n wl b)).
Proof.
  intros (H1 & H2 & H3 & H4). destruct wl as [|first rest]; [done|].
  rewrite attn_write_appends. unfold attn_lists_wf. cbn.
  rewrite !length_app, !length_map. lia.
Qed.

Lemma attn_read_wf (is_middle : bool) (rl : list Unit) (ign : bool) (uc : list Z) (n : Tensor)
    (b b' : BankStylesBasicTransformerBlock.t Tensor) (r : outcome Tensor) :
  attn_read attn1_reference is_middle rl ign uc n b = (r, b') ->
  attn_lists_wf b -> attn_lists_wf b'.
Proof.
  unfold attn_read.
  destruct (BankStylesBasicTransformerBlock.get_avg_style_fidelity b ign);
    [|intros [= <- <-]; done].
  destruct (attn_read_loop _ _ _ _ _ _ _); intros [= <- <-]; [|done].
  intros (H1 & H2 & H3 & H4). repeat split; done.
Qed.

Lemma attn_layer_wf (self self' : InjectionBasicTransformerBlockHolder.t Tensor)
    (n : Tensor) (o : gmap string (pyval Tensor)) (r : outcome Tensor) :
  attn_layer' self n o = (r, self') -> attn_bank_wf self -> attn_bank_wf self'.
Proof.
  unfold _forward_inject_BasicTransformerBlock, attn_bank_wf.
  destruct (get_int_list o REF_UNCOND_IDXS) as [uc|]; [|intros [= <- <-]; done].
  destruct (get_control_list o REF_WRITE_ATTN_CONTROL_LIST) as [wl|];
    [|intros [= <- <-]; done].
  destruct (get_control_list o REF_READ_ATTN_CONTROL_LIST) as [rl|];
    [|intros [= <- <-]; done].
  intros H Hwf.
  pose proof (attn_write_wf (InjectionBasicTransformerBlockHolder.attn_weight self) n wl _ Hwf)
    as Hw.
  destruct (attn_write _ _ _ _ _) as [b ign]. cbn [fst] in Hw.
  destruct (_ && _).
  - destruct (attn_read _ _ _ _ _ _ _) as [r1 b1] eqn:Hr.
    injection H as <- <-. cbn. eapply attn_read_wf; eassumption.
  - injection H as <- <-. done.
Qed.

Lemma adain_write_wf (gn_weight : Q) (x : Tensor) (wl : list Unit)
    (b : BankStylesTimestepEmbedSequential.t Tensor) :
  gn_lists_wf b -> gn_lists_wf (fst (adain_write var_mean gn_weight x wl b)).
Proof.
  intros (H1 & H2 & H3 & H4 & H5 & H6).
  rewrite adain_write_appends. unfold gn_lists_wf. cbn.
  rewrite !length_app, !length_map. lia.
Qed.

Lemma adain_read_wf (rl : list Unit) (ign : bool) (uc : list Z) (x : Tensor)
    (b b' : BankStylesTimestepEmbedSequential.t Tensor) (r : outcome Tensor) :
  adain_read adain_reference rl ign uc x b = (r, b') ->
  gn_lists_wf b -> gn_lists_wf b'.
Proof.
  unfold adain_read. intros H (H1 & H2 & H3 & H4 & H5 & H6).
  assert (Hc : gn_lists_wf (BankStylesTimestepEmbedSequential.clean_ref b))
    by (repeat split; done).
  destruct (0 <? _)%nat; [|injection H as <- <-; done].
  destruct (adain_read_loop _ _ _ _ _ _ _ _ _) as [[[sf|] consumed]|];
    injection H as <- <-; first [done | repeat split; done].
Qed.

Lemma gn_layer_wf (self self' : InjectionTimestepEmbedSequentialHolder.t Tensor)
    (x : Tensor) (o : gmap string (pyval Tensor)) (r : outcome Tensor) :
  gn_layer' self x o = (r, self') -> gn_bank_wf self -> gn_bank_wf self'.
Proof.
  unfold forward_timestep_embed_ref_inject, gn_bank_wf.
  destruct (get_int_list o REF_UNCOND_IDXS) as [uc|]; [|intros [= <- <-]; done].
  destruct (get_control_list o REF_WRITE_ADAIN_CONTROL_LIST) as [wl|];
    [|intros [= <- <-]; done].
  destruct (get_control_list o REF_READ_ADAIN_CONTROL_LIST) as [rl|];
    [|intros [= <- <-]; done].
  intros H Hwf.
  pose proof (adain_write_wf (InjectionTimestepEmbedSequentialHolder.gn_weight self) x wl _ Hwf)
    as Hw.
  destruct (adain_write _ _ _ _ _) as [b ign]. cbn [fst] in Hw.
  destruct (0 <? _)%nat.
  - destruct (adain_read _ _ _ _ _ _) as [r1 b1] eqn:Hr.
    injection H as <- <-. cbn. eapply adain_read_wf; eassumption.
  - injection H as <- <-. done.
Qed.

Lemma call_forward_timestep_embed_wf (d : dispatch) (ts : option nat) (x : Tensor)
    (o : gmap string (pyval Tensor))
    (l l' : list (InjectionTimestepEmbedSequentialHolder.t Tensor)) (r : outcome Tensor) :
  Forall gn_bank_wf l ->
  call_forward_timestep_embed var_mean adain_reference d ts x o l = (r, l') ->
  Forall gn_bank_wf l'.
Proof.
  intros Hwf. revert x l' r. induction d as [|d IH]; intros x l' r; cbn.
  - intros [= <- <-]. done.
  - destruct ts as [j|]; [|apply IH].
    destruct (call_forward_timestep_embed _ _ d _ _ _ _) as [[x1|e] l1] eqn:Hc;
      apply IH in Hc.
    + destruct (l1 !! j) as [self|] eqn:Hj; [|intros [= <- <-]; done].
      destruct (forward_timestep_embed_ref_inject _ _ _ _ _) as [r1 self'] eqn:Hf.
      intros [= <- <-].
      apply Forall_insert; [done|].
      eapply gn_layer_wf; [eassumption|].
      eapply Forall_lookup_1; eassumption.
    + intros [= <- <-]. done.
Qed.


(** *** The weight threshold *)

Lemma attn_write_below_threshold (attn_weight : Q) (n : Tensor) (wl : list Unit)
    (b : BankStylesBasicTransformerBlock.t Tensor) :
  Forall (fun u => (ReferenceOptions.attn_ref_weight (ReferenceAdvanced.ref_opts u)
                    <= attn_weight)%Q) wl ->
  attn_write detach_clone attn_weight n wl b = (b, false).
Proof.
  intros Hall. destruct wl as [|first rest]; [done|].
  rewrite attn_write_appends.
  assert (Hq : List.filter (fun u : Unit => Qgt_bool (ReferenceOptions.attn_ref_weight
                 (ReferenceAdvanced.ref_opts u)) attn_weight) (first :: rest) = []).
  { induction Hall as [|u l Hu Hl IH]; [done|]. cbn. unfold Qgt_bool at 1.
    apply Qle_bool_iff in Hu. rewrite Hu. cbn. apply IH. }
  rewrite Hq. cbn. rewrite !app_nil_r. destruct b; done.
Qed.

Lemma adain_write_below_threshold (gn_weight : Q) (x : Tensor) (wl : list Unit)
    (b : BankStylesTimestepEmbedSequential.t Tensor) :
  Forall (fun u => (ReferenceOptions.adain_ref_weight (ReferenceAdvanced.ref_opts u)
                    <= gn_weight)%Q) wl ->
  adain_write var_mean gn_weight x wl b = (b, false).
Proof.
  intros Hall. rewrite adain_write_appends.
  assert (Hq : List.filter (fun u : Unit => Qgt_bool (ReferenceOptions.adain_ref_weight
                 (ReferenceAdvanced.ref_opts u)) gn_weight) wl = []).
  { induction Hall as [|u l Hu Hl IH]; [done|]. cbn. unfold Qgt_bool at 1.
    apply Qle_bool_iff in Hu. rewrite Hu. cbn. apply IH. }
  rewrite Hq. cbn. rewrite !app_nil_r. destruct b; done.
Qed.

(** X1.  The weight threshold of a layer is strict.  A call with nothing to
    read, whose write list holds only units whose ref_weight does not exceed
    the layer's threshold, returns the ordinary layer output (for the
    normalization, the block output [x] unchanged) and leaves the holder as
    it was.  A holder fresh from [__init__] has threshold 1.0, so units with
    weights up to 1.0 store nothing in it. *)
Theorem write_needs_weight_above_threshold
    (o : gmap string (pyval Tensor)) (uc : list Z) (wl : list Unit) :
  get_int_list o REF_UNCOND_IDXS = Ok uc ->
  (forall (self : InjectionBasicTransformerBlockHolder.t Tensor) (n : Tensor),
     get_control_list o REF_WRITE_ATTN_CONTROL_LIST = Ok wl ->
     get_control_list o REF_READ_ATTN_CONTROL_LIST = Ok [] ->
     Forall (fun u => (ReferenceOptions.attn_ref_weight (ReferenceAdvanced.ref_opts u)
                       <= InjectionBasicTransformerBlockHolder.attn_weight self)%Q) wl ->
     _forward_inject_BasicTransformerBlock detach_clone attn1 attn1_reference self n o
     = (Ok (attn1 n), self)) /\
  (forall (self : InjectionTimestepEmbedSequentialHolder.t Tensor) (x : Tensor),
     get_control_list o REF_WRITE_ADAIN_CONTROL_LIST = Ok wl ->
     get_control_list o REF_READ_ADAIN_CONTROL_LIST = Ok [] ->
     Forall (fun u => (ReferenceOptions.adain_ref_weight (ReferenceAdvanced.ref_opts u)
                       <= InjectionTimestepEmbedSequentialHolder.gn_weight self)%Q) wl ->
     forward_timestep_embed_ref_inject var_mean adain_reference self x o = (Ok x, self)) /\
  (forall (idx : option Z) (n : Tensor),
     get_control_list o REF_WRITE_ATTN_CONTROL_LIST = Ok wl ->
     get_control_list o REF_READ_ATTN_CONTROL_LIST = Ok [] ->
     Forall (fun u => (ReferenceOptions.attn_ref_weight (ReferenceAdvanced.ref_opts u)
                       <= 1)%Q) wl ->
     _forward_inject_BasicTransformerBlock detach_clone attn1 attn1_reference
       (InjectionBasicTransformerBlockHolder.init idx) n o
     = (Ok (attn1 n), InjectionBasicTransformerBlockHolder.init idx)).
Proof.
  intros Huc.
  assert (Hattn : forall (self : InjectionBasicTransformerBlockHolder.t Tensor) (n : Tensor),
     get_control_list o REF_WRITE_ATTN_CONTROL_LIST = Ok wl ->
     get_control_list o REF_READ_ATTN_CONTROL_LIST = Ok [] ->
     Forall (fun u => (ReferenceOptions.attn_ref_weight (ReferenceAdvanced.ref_opts u)
                       <= InjectionBasicTransformerBlockHolder.attn_weight self)%Q) wl ->
     _forward_inject_BasicTransformerBlock detach_clone attn1 attn1_reference self n o
     = (Ok (attn1 n), self)).
  { intros self n Hwl Hrl Hall. unfold _forward_inject_BasicTransformerBlock.
    rewrite Huc, Hwl, Hrl, (attn_write_below_threshold _ _ _ _ Hall).
    cbn. destruct self; done. }
  split; [exact Hattn|]. split.
  - intros self x Hwl Hrl Hall. unfold forward_timestep_embed_ref_inject.
    rewrite Huc, Hwl, Hrl, (adain_write_below_threshold _ _ _ _ Hall).
    cbn. destruct self; done.
  - intros idx n Hwl Hrl Hall. apply Hattn; done.
Qed.

(** *** A ContextRef write and the READ of the same call *)

Lemma attn_write_context_flag (attn_weight : Q) (n : Tensor) (wl : list Unit)
    (b : BankStylesBasicTransformerBlock.t Tensor) (u : Unit) :
  u ∈ wl -> ReferenceAdvanced.is_context_ref u = true ->
  Qgt_bool (ReferenceOptions.attn_ref_weight (ReferenceAdvanced.ref_opts u)) attn_weight = true ->
  snd (attn_write detach_clone attn_weight n wl b) = true /\
  length (BankStylesBasicTransformerBlock.c_bank b)
  < length (BankStylesBasicTransformerBlock.c_bank
              (fst (attn_write detach_clone attn_weight n wl b))).
Proof.
  intros Hin Hflag Hq. destruct wl as [|first rest]; [inversion Hin|].
  rewrite attn_write_appends. cbn [fst snd BankStylesBasicTransformerBlock.c_bank].
  assert (Hc : u ∈ List.filter ReferenceAdvanced.is_context_ref
                 (List.filter (fun u : Unit => Qgt_bool (ReferenceOptions.attn_ref_weight
                    (ReferenceAdvanced.ref_opts u)) attn_weight) (first :: rest))).
  { apply list_elem_of_In, filter_In. split; [|done].
    apply filter_In. split; [apply list_elem_of_In|]; done. }
  destruct (List.filter ReferenceAdvanced.is_context_ref _) as [|c0 cl];
    [inversion Hc|].
  split; [done|]. rewrite length_app. cbn. lia.
Qed.

Lemma adain_write_context_flag (gn_weight : Q) (x : Tensor) (wl : list Unit)
    (b : BankStylesTimestepEmbedSequential.t Tensor) (u : Unit) :
  u ∈ wl -> ReferenceAdvanced.is_context_ref u = true ->
  Qgt_bool (ReferenceOptions.adain_ref_weight (ReferenceAdvanced.ref_opts u)) gn_weight = true ->
  snd (adain_write var_mean gn_weight x wl b) = true /\
  length (BankStylesTimestepEmbedSequential.c_var_bank b)
  < length (BankStylesTimestepEmbedSequential.c_var_bank
              (fst (adain_write var_mean gn_weight x wl b))).
Proof.
  intros Hin Hflag Hq.
  rewrite adain_write_appends. cbn [fst snd BankStylesTimestepEmbedSequential.c_var_bank].
  assert (Hc : u ∈ List.filter ReferenceAdvanced.is_context_ref
                 (List.filter (fun u : Unit => Qgt_bool (ReferenceOptions.adain_ref_weight
                    (ReferenceAdvanced.ref_opts u)) gn_weight) wl)).
  { apply list_elem_of_In, filter_In. split; [|done].
    apply filter_In. split; [apply list_elem_of_In|]; done. }
  destruct (List.filter ReferenceAdvanced.is_context_ref _) as [|c0 cl];
    [inversion Hc|].
  split; [done|]. rewrite length_app. cbn. lia.
Qed.

(** X2.  "If writing to bank, should NOT be read in the same execution": in
    a layer call in which a ContextRef unit of the write list stores an entry
    (its weight exceeds the threshold), the READ of that call leaves the
    whole ContextRef set out.  The ContextRef lists after the call are those
    the WRITE produced, one entry longer at least, and the output is either
    the ordinary layer output or the reference output computed from own
    entries only. *)
Theorem contextref_entries_are_not_read_by_the_call_that_writes_them
    (o : gmap string (pyval Tensor)) (uc : list Z) (wl rl : list Unit) (u : Unit) :
  get_int_list o REF_UNCOND_IDXS = Ok uc ->
  u ∈ wl -> ReferenceAdvanced.is_context_ref u = true ->
  (forall (self self' : InjectionBasicTransformerBlockHolder.t Tensor) (n out : Tensor),
     get_control_list o REF_WRITE_ATTN_CONTROL_LIST = Ok wl ->
     get_control_list o REF_READ_ATTN_CONTROL_LIST = Ok rl ->
     Qgt_bool (ReferenceOptions.attn_ref_weight (ReferenceAdvanced.ref_opts u))
              (InjectionBasicTransformerBlockHolder.attn_weight self) = true ->
     _forward_inject_BasicTransformerBlock detach_clone attn1 attn1_reference self n o
       = (Ok out, self') ->
     let b := InjectionBasicTransformerBlockHolder.bank_styles self in
     let b' := fst (attn_write detach_clone
                      (InjectionBasicTransformerBlockHolder.attn_weight self) n wl b) in
     attn_context_entries self'
     = (BankStylesBasicTransformerBlock.c_bank b',
        BankStylesBasicTransformerBlock.c_style_cfgs b',
        BankStylesBasicTransformerBlock.c_cn_idx b') /\
     length (BankStylesBasicTransformerBlock.c_bank b)
     < length (BankStylesBasicTransformerBlock.c_bank b') /\
     (out = attn1 n \/
      exists style_fidelity real_bank,
        out = attn1_reference n style_fidelity real_bank uc /\
        map fst real_bank = BankStylesBasicTransformerBlock.bank b')) /\
  (forall (self self' : InjectionTimestepEmbedSequentialHolder.t Tensor) (x out : Tensor),
     get_control_list o REF_WRITE_ADAIN_CONTROL_LIST = Ok wl ->
     get_control_list o REF_READ_ADAIN_CONTROL_LIST = Ok rl ->
     Qgt_bool (ReferenceOptions.adain_ref_weight (ReferenceAdvanced.ref_opts u))
              (InjectionTimestepEmbedSequentialHolder.gn_weight self) = true ->
     forward_timestep_embed_ref_inject var_mean adain_reference self x o = (Ok out, self') ->
     let b := InjectionTimestepEmbedSequentialHolder.bank_styles self in
     let b' := fst (adain_write var_mean
                      (InjectionTimestepEmbedSequentialHolder.gn_weight self) x wl b) in
     gn_context_entries self'
     = (BankStylesTimestepEmbedSequential.c_var_bank b',
        BankStylesTimestepEmbedSequential.c_mean_bank b',
        BankStylesTimestepEmbedSequential.c_style_cfgs b',
        BankStylesTimestepEmbedSequential.c_cn_idx b') /\
     length (BankStylesTimestepEmbedSequential.c_var_bank b)
     < length (BankStylesTimestepEmbedSequential.c_var_bank b') /\
     (out = x \/
      exists style_fidelity consumed count,
        out = adain_reference x style_fidelity consumed count uc /\
        forall j var mean su, consumed !! j = Some (var, mean, su) ->
          BankStylesTimestepEmbedSequential.var_bank b' !! j = Some var /\
          BankStylesTimestepEmbedSequential.mean_bank b' !! j = Some mean)).
Proof.
  intros Huc Hin Hflag. split.
  - intros self self' n out Hwl Hrl Hq. cbn zeta.
    unfold _forward_inject_BasicTransformerBlock. rewrite Huc, Hwl, Hrl.
    destruct (attn_write_context_flag
                (InjectionBasicTransformerBlockHolder.attn_weight self) n wl
                (InjectionBasicTransformerBlockHolder.bank_styles self) u Hin Hflag Hq)
      as [Hign Hlen].
    destruct (attn_write _ _ _ _ _) as [b' ign]. cbn [fst snd] in *. subst ign.
    destruct (_ && _).
    + unfold attn_read.
      destruct (BankStylesBasicTransformerBlock.get_avg_style_fidelity b' true) as [sf|];
        [|done].
      destruct (attn_read_loop _ _ _ _ _ _ _) as [real_bank|] eqn:Hloop; [|done].
      intros [= <- <-]. split; [done|]. split; [done|]. right.
      exists sf, real_bank. split; [done|].
      apply attn_read_loop_entries in Hloop. done.
    + intros [= <- <-]. split; [done|]. split; [done|]. by left.
  - intros self self' x out Hwl Hrl Hq. cbn zeta.
    unfold forward_timestep_embed_ref_inject. rewrite Huc, Hwl, Hrl.
    destruct (adain_write_context_flag
                (InjectionTimestepEmbedSequentialHolder.gn_weight self) x wl
                (InjectionTimestepEmbedSequentialHolder.bank_styles self) u Hin Hflag Hq)
      as [Hign Hlen].
    destruct (adain_write _ _ _ _ _) as [b' ign]. cbn [fst snd] in *. subst ign.
    destruct (0 <? length rl)%nat.
    + unfold adain_read.
      destruct (0 <? length _)%nat.
      * destruct (adain_read_loop _ _ _ _ _ _ _ _ _) as [[[sf|] consumed]|] eqn:Hloop;
          [| done | done].
        intros [= <- <-]. split; [done|]. split; [done|]. right.
        exists sf, consumed, (length (BankStylesTimestepEmbedSequential.cn_idx b')).
        split; [done|].
        apply adain_read_loop_sound in Hloop as (_ & new & -> & _ & Hpt).
        intros j var mean su Hj. cbn in Hj. apply Hpt in Hj as (Hv & Hm & _).
        cbn in Hv, Hm. done.
      * intros [= <- <-]. split; [done|]. split; [done|]. by left.
    + intros [= <- <-]. split; [done|]. split; [done|]. by left.
Qed.


(** *** The fidelity a READ uses *)

Lemma adain_read_loop_last (rl : list Unit) (cfgs : list Q) (vars means : list Tensor)
    (orders : list Z) (idx cn_idx : nat) (sf sf' : option Q)
    (consumed consumed' : list (Tensor * Tensor * option Unit)) :
  adain_read_loop rl cfgs vars means orders idx cn_idx sf consumed = Ok (sf', consumed') ->
  sf' = match orders with
        | [] => sf
        | _ => cfgs !! (idx + length orders - 1)%nat
        end.
Proof.
  revert idx cn_idx sf consumed.
  induction orders as [|order rest IH]; intros idx cn_idx sf consumed; cbn.
  - intros [= <- _]. done.
  - destruct (rl !! _) as [u|]; [|done].
    destruct (negb _); [done|].
    destruct (cfgs !! idx) as [fidelity|] eqn:Hc; [|done].
    destruct (vars !! idx) as [var_acc|]; [|done].
    destruct (means !! idx) as [mean_acc|]; [|done].
    intros H. apply IH in H. rewrite H.
    destruct rest as [|o' rest']; cbn.
    + replace (idx + 1 - 1)%nat with idx by lia. done.
    + f_equal. lia.
Qed.

(** X3.  The two READ paths take their fidelity differently.  The attention
    READ blends with the arithmetic mean of the fidelities of all entries it
    consumes (own entries followed by ContextRef entries).  The
    normalization READ blends with the fidelity of the last entry alone, the
    value its loop variable is left with, and it divides the accumulated
    output by the number of own entries, not by the number of entries it
    consumed. *)
Theorem attention_read_takes_mean_fidelity_normalization_read_the_last
    (o : gmap string (pyval Tensor)) (uc : list Z) (rl : list Unit) :
  get_int_list o REF_UNCOND_IDXS = Ok uc ->
  rl <> [] ->
  (forall (self self' : InjectionBasicTransformerBlockHolder.t Tensor) (n out : Tensor),
     get_control_list o REF_WRITE_ATTN_CONTROL_LIST = Ok [] ->
     get_control_list o REF_READ_ATTN_CONTROL_LIST = Ok rl ->
     let b := InjectionBasicTransformerBlockHolder.bank_styles self in
     let cfgs := BankStylesBasicTransformerBlock.style_cfgs b
                 ++ BankStylesBasicTransformerBlock.c_style_cfgs b in
     BankStylesBasicTransformerBlock.bank b ++ BankStylesBasicTransformerBlock.c_bank b <> [] ->
     _forward_inject_BasicTransformerBlock detach_clone attn1 attn1_reference self n o
       = (Ok out, self') ->
     exists real_bank,
       out = attn1_reference n (py_sum cfgs / inject_Z (Z.of_nat (length cfgs)))%Q
               real_bank uc /\
       map fst real_bank
       = BankStylesBasicTransformerBlock.bank b ++ BankStylesBasicTransformerBlock.c_bank b) /\
  (forall (self self' : InjectionTimestepEmbedSequentialHolder.t Tensor) (x out : Tensor),
     get_control_list o REF_WRITE_ADAIN_CONTROL_LIST = Ok [] ->
     get_control_list o REF_READ_ADAIN_CONTROL_LIST = Ok rl ->
     let b := InjectionTimestepEmbedSequentialHolder.bank_styles self in
     BankStylesTimestepEmbedSequential.var_bank b
       ++ BankStylesTimestepEmbedSequential.c_var_bank b <> [] ->
     gn_bank_wf self ->
     forward_timestep_embed_ref_inject var_mean adain_reference self x o = (Ok out, self') ->
     exists style_fidelity consumed,
       out = adain_reference x style_fidelity consumed
               (length (BankStylesTimestepEmbedSequential.cn_idx b)) uc /\
       last (BankStylesTimestepEmbedSequential.style_cfgs b
             ++ BankStylesTimestepEmbedSequential.c_style_cfgs b) = Some style_fidelity /\
       length consumed
       = length (BankStylesTimestepEmbedSequential.cn_idx b
                 ++ BankStylesTimestepEmbedSequential.c_cn_idx b)).
Proof.
  intros Huc Hne. destruct rl as [|u0 rl0] eqn:Hrl0; [done|]. rewrite <- Hrl0 in *.
  assert (Hpos : (0 <? length rl)%nat = true) by (rewrite Hrl0; done).
  split.
  - intros self self' n out Hwl Hrl b cfgs Hbank.
    unfold _forward_inject_BasicTransformerBlock. rewrite Huc, Hwl, Hrl. cbn [attn_write].
    unfold BankStylesBasicTransformerBlock.get_bank at 1. fold b. rewrite Hpos.
    destruct (BankStylesBasicTransformerBlock.bank b ++ BankStylesBasicTransformerBlock.c_bank b)
      as [|t0 ts] eqn:Hb; [done|].
    cbn [length Nat.ltb Nat.leb andb]. unfold attn_read.
    unfold BankStylesBasicTransformerBlock.get_avg_style_fidelity. fold b. fold cfgs.
    destruct cfgs as [|f fs] eqn:Hcfgs; [done|]. rewrite <- Hcfgs.
    destruct (attn_read_loop _ _ _ _ _ _ _) as [real_bank|] eqn:Hloop; [|done].
    intros [= <- <-]. exists real_bank. split; [done|].
    apply attn_read_loop_entries in Hloop. rewrite Hloop.
    unfold BankStylesBasicTransformerBlock.get_bank. fold b. done.
  - intros self self' x out Hwl Hrl b Hbank (Hw1 & Hw2 & Hw3 & Hw4 & Hw5 & Hw6).
    fold b in Hw1, Hw2, Hw3, Hw4, Hw5, Hw6.
    unfold forward_timestep_embed_ref_inject. rewrite Huc, Hwl, Hrl.
    cbn [adain_write fold_left]. rewrite Hpos. unfold adain_read.
    unfold BankStylesTimestepEmbedSequential.get_var_bank,
      BankStylesTimestepEmbedSequential.get_mean_bank,
      BankStylesTimestepEmbedSequential.get_style_cfgs,
      BankStylesTimestepEmbedSequential.get_cn_idx. fold b.
    destruct (BankStylesTimestepEmbedSequential.var_bank b
              ++ BankStylesTimestepEmbedSequential.c_var_bank b) as [|v0 vs] eqn:Hb; [done|].
    cbn [length Nat.ltb Nat.leb]. rewrite <- Hb.
    destruct (adain_read_loop _ _ _ _ _ _ _ _ _) as [[[sf|] consumed]|] eqn:Hloop;
      [| done | done].
    intros [= <- <-]. exists sf, consumed. split; [done|].
    pose proof (adain_read_loop_last _ _ _ _ _ _ _ _ _ _ _ Hloop) as Hlast.
    apply adain_read_loop_sound in Hloop as (_ & new & -> & Hlen & _).
    split; [|done].
    assert (Hl : length (BankStylesTimestepEmbedSequential.cn_idx b
                         ++ BankStylesTimestepEmbedSequential.c_cn_idx b)
                 = length (BankStylesTimestepEmbedSequential.style_cfgs b
                           ++ BankStylesTimestepEmbedSequential.c_style_cfgs b)).
    { rewrite !length_app. lia. }
    assert (Hpos' : 0 < length (BankStylesTimestepEmbedSequential.cn_idx b
                                ++ BankStylesTimestepEmbedSequential.c_cn_idx b)).
    { rewrite Hl, !length_app, Hw2, Hw5, <- length_app, Hb. cbn. lia. }
    destruct (BankStylesTimestepEmbedSequential.cn_idx b
              ++ BankStylesTimestepEmbedSequential.c_cn_idx b) as [|o0 os] eqn:Ho;
      [cbn in Hpos'; lia|].
    rewrite last_lookup, <- Hl, Hlast. f_equal. cbn. lia.
Qed.

Lemma py_sum_bounds (lo hi : Q) (l : list Q) (a : Q) :
  Forall (fun f => (lo <= f /\ f <= hi)%Q) l ->
  (a + lo * inject_Z (Z.of_nat (length l)) <= fold_left Qplus l a /\
   fold_left Qplus l a <= a + hi * inject_Z (Z.of_nat (length l)))%Q.
Proof.
  intros Hall. revert a. induction Hall as [|f l [Hlo Hhi] Hl IH]; intros a.
  - cbn. split; ring_simplify; apply Qle_refl.
  - cbn [fold_left length]. rewrite Nat2Z.inj_succ, <- Z.add_1_r, inject_Z_plus.
    destruct (IH (a + f)%Q) as [H1 H2].
    change (inject_Z 1) with 1%Q. split; lra.
Qed.

(** X4.  The fidelity average of a bank can only be taken of a non-empty
    list: it is a division by zero exactly when no fidelity is stored, and a
    value otherwise.  With one fidelity stored the average is that fidelity,
    and fidelities that are all 0.0 (all 1.0) average to 0.0 (1.0); these
    cases are exact in floating point as well.  Other averages are the exact
    mean here and its rounding in Python, and nothing is stated of them. *)
Theorem average_fidelity_needs_a_stored_fidelity
    (b : BankStylesBasicTransformerBlock.t Tensor) (ignore_contextref : bool) :
  let cfgs :=
    if ignore_contextref then BankStylesBasicTransformerBlock.style_cfgs b
    else BankStylesBasicTransformerBlock.style_cfgs b
         ++ BankStylesBasicTransformerBlock.c_style_cfgs b in
  let avg := BankStylesBasicTransformerBlock.get_avg_style_fidelity b ignore_contextref in
  (avg = Raised ZeroDivisionError <-> cfgs = []) /\
  (is_ok avg = true <-> cfgs <> []) /\
  (forall f, cfgs = [f] ->
     exists style_fidelity, avg = Ok style_fidelity /\ (style_fidelity == f)%Q) /\
  (forall c, c = 0%Q \/ c = 1%Q -> cfgs <> [] -> Forall (fun f => f = c) cfgs ->
     exists style_fidelity, avg = Ok style_fidelity /\ (style_fidelity == c)%Q).
Proof.
  cbn zeta. unfold BankStylesBasicTransformerBlock.get_avg_style_fidelity.
  generalize (if ignore_contextref
              then BankStylesBasicTransformerBlock.style_cfgs b
              else BankStylesBasicTransformerBlock.style_cfgs b
                   ++ BankStylesBasicTransformerBlock.c_style_cfgs b).
  intros cfgs. repeat apply conj.
  - destruct cfgs; done.
  - destruct cfgs; done.
  - destruct cfgs; done.
  - destruct cfgs; done.
  - intros f ->. eexists. split; [reflexivity|]. unfold py_sum. cbn. field.
  - intros c Hc Hne Hall. destruct cfgs as [|f fs] eqn:Hcfgs; [done|]. rewrite <- Hcfgs in *.
    eexists. split; [reflexivity|].
    assert (Hn : (0 < inject_Z (Z.of_nat (length cfgs)))%Q).
    { rewrite Hcfgs. cbn [length]. rewrite Nat2Z.inj_succ, <- Z.add_1_r, inject_Z_plus.
      assert (0 <= inject_Z (Z.of_nat (length fs)))%Q
        by (change 0%Q with (inject_Z 0); rewrite <- Zle_Qle; lia).
      change (inject_Z 1) with 1%Q. lra. }
    assert (Hsum : (py_sum cfgs == c * inject_Z (Z.of_nat (length cfgs)))%Q).
    { destruct (py_sum_bounds c c cfgs 0) as [H1 H2].
      - eapply Forall_impl; [exact Hall|]. intros x ->. split; apply Qle_refl.
      - fold (py_sum cfgs) in H1, H2. apply Qle_antisym; lra. }
    rewrite Hsum. field. lra.
Qed.

(** *** Nested wrappers *)

Lemma concat_replicate_snoc {A : Type} (k : nat) (l : list A) :
  concat (replicate k l) ++ l = concat (replicate (S k) l).
Proof.
  induction k as [|k IH]; cbn; [rewrite app_nil_r; done|].
  rewrite <- app_assoc, IH. done.
Qed.

(** X5.  A call of the global dispatch function that goes through [k] nested
    instrumented wrappers runs the normalization injection [k] times on the
    same module: with nothing to read, every unit of the write list whose
    weight exceeds the threshold leaves [k] entries in the bank instead of
    one.  The block output comes back unchanged, and a module that carries no
    holder is not touched at all. *)
Theorem nested_wrappers_repeat_the_normalization_write
    (o : gmap string (pyval Tensor)) (uc : list Z) (wl : list Unit) (d : dispatch)
    (x : Tensor) (l : list (InjectionTimestepEmbedSequentialHolder.t Tensor)) :
  get_int_list o REF_UNCOND_IDXS = Ok uc ->
  get_control_list o REF_WRITE_ADAIN_CONTROL_LIST = Ok wl ->
  get_control_list o REF_READ_ADAIN_CONTROL_LIST = Ok [] ->
  call_forward_timestep_embed var_mean adain_reference d None x o l = (Ok x, l) /\
  forall (j : nat) (self : InjectionTimestepEmbedSequentialHolder.t Tensor),
    l !! j = Some self ->
    let b := InjectionTimestepEmbedSequentialHolder.bank_styles self in
    let qualifying :=
      List.filter (fun u => Qgt_bool (ReferenceOptions.adain_ref_weight
                                        (ReferenceAdvanced.ref_opts u))
                     (InjectionTimestepEmbedSequentialHolder.gn_weight self)) wl in
    let own := List.filter (fun u => negb (ReferenceAdvanced.is_context_ref u)) qualifying in
    let context := List.filter ReferenceAdvanced.is_context_ref qualifying in
    exists self',
      call_forward_timestep_embed var_mean adain_reference d (Some j) x o l
      = (Ok x, <[j := self']> l) /\
      let b' := InjectionTimestepEmbedSequentialHolder.bank_styles self' in
      BankStylesTimestepEmbedSequential.cn_idx b'
      = BankStylesTimestepEmbedSequential.cn_idx b
        ++ concat (replicate (dispatch_depth d) (map ReferenceAdvanced.order own)) /\
      BankStylesTimestepEmbedSequential.c_cn_idx b'
      = BankStylesTimestepEmbedSequential.c_cn_idx b
        ++ concat (replicate (dispatch_depth d) (map ReferenceAdvanced.order context)) /\
      length (BankStylesTimestepEmbedSequential.var_bank b')
      = (length (BankStylesTimestepEmbedSequential.var_bank b)
         + dispatch_depth d * length own)%nat /\
      length (BankStylesTimestepEmbedSequential.c_var_bank b')
      = (length (BankStylesTimestepEmbedSequential.c_var_bank b)
         + dispatch_depth d * length context)%nat.
Proof.
  intros Huc Hwl Hrl. split.
  { induction d as [|d IH]; cbn; done. }
  intros j self Hj. cbn zeta.
  enough (Hgen : exists self',
    call_forward_timestep_embed var_mean adain_reference d (Some j) x o l
    = (Ok x, <[j := self']> l) /\
    InjectionTimestepEmbedSequentialHolder.gn_weight self'
    = InjectionTimestepEmbedSequentialHolder.gn_weight self /\
    BankStylesTimestepEmbedSequential.cn_idx
      (InjectionTimestepEmbedSequentialHolder.bank_styles self')
    = BankStylesTimestepEmbedSequential.cn_idx
        (InjectionTimestepEmbedSequentialHolder.bank_styles self)
      ++ concat (replicate (dispatch_depth d)
           (map ReferenceAdvanced.order
              (List.filter (fun u => negb (ReferenceAdvanced.is_context_ref u))
                 (List.filter (fun u => Qgt_bool (ReferenceOptions.adain_ref_weight
                                                    (ReferenceAdvanced.ref_opts u))
                    (InjectionTimestepEmbedSequentialHolder.gn_weight self)) wl)))) /\
    BankStylesTimestepEmbedSequential.c_cn_idx
      (InjectionTimestepEmbedSequentialHolder.bank_styles self')
    = BankStylesTimestepEmbedSequential.c_cn_idx
        (InjectionTimestepEmbedSequentialHolder.bank_styles self)
      ++ concat (replicate (dispatch_depth d)
           (map ReferenceAdvanced.order
              (List.filter ReferenceAdvanced.is_context_ref
                 (List.filter (fun u => Qgt_bool (ReferenceOptions.adain_ref_weight
                                                    (ReferenceAdvanced.ref_opts u))
                    (InjectionTimestepEmbedSequentialHolder.gn_weight self)) wl)))) /\
    length (BankStylesTimestepEmbedSequential.var_bank
              (InjectionTimestepEmbedSequentialHolder.bank_styles self'))
    = (length (BankStylesTimestepEmbedSequential.var_bank
                 (InjectionTimestepEmbedSequentialHolder.bank_styles self))
       + dispatch_depth d
         * length (List.filter (fun u => negb (ReferenceAdvanced.is_context_ref u))
                     (List.filter (fun u => Qgt_bool (ReferenceOptions.adain_ref_weight
                                                        (ReferenceAdvanced.ref_opts u))
                        (InjectionTimestepEmbedSequentialHolder.gn_weight self)) wl)))%nat /\
    length (BankStylesTimestepEmbedSequential.c_var_bank
              (InjectionTimestepEmbedSequentialHolder.bank_styles self'))
    = (length (BankStylesTimestepEmbedSequential.c_var_bank
                 (InjectionTimestepEmbedSequentialHolder.bank_styles self))
       + dispatch_depth d
         * length (List.filter ReferenceAdvanced.is_context_ref
                     (List.filter (fun u => Qgt_bool (ReferenceOptions.adain_ref_weight
                                                        (ReferenceAdvanced.ref_opts u))
                        (InjectionTimestepEmbedSequentialHolder.gn_weight self)) wl)))%nat).
  { destruct Hgen as (self' & H1 & _ & H2). exists self'. split; done. }
  induction d as [|d IH]; cbn [call_forward_timestep_embed dispatch_depth replicate concat].
  - exists self. rewrite list_insert_id by done. rewrite !app_nil_r. repeat split; lia.
  - destruct IH as (self1 & -> & Hgw & Hcn & Hccn & Hvar & Hcvar).
    rewrite list_lookup_insert_eq by (eapply lookup_lt_Some, Hj).
    unfold forward_timestep_embed_ref_inject at 1. rewrite Huc, Hwl, Hrl.
    rewrite adain_write_appends, Hgw. cbn [length Nat.ltb Nat.leb].
    eexists. split; [rewrite list_insert_insert_eq; reflexivity|].
    destruct self1 as [idx1 gw1 im1 ii1 io1 b1]. cbn in *.
    rewrite Hcn, Hccn, <- !app_assoc.
    change (?l ++ concat (replicate ?k ?l)) with (concat (replicate (S k) l)).
    rewrite !concat_replicate_snoc.
    rewrite !length_app, !length_map, Hvar, Hcvar.
    repeat split; try done; lia.
Qed.

End LayerMoreFacts.

(** ** The wrapper *)

Section InterceptorMoreFacts.
Context {Tensor : Type} `{!TensorShape Tensor}.
Variable detach_clone : Tensor -> Tensor.
Variable attn1 : Tensor -> Tensor.
Variable attn1_reference :
  Tensor -> Q -> list (Tensor * option (ReferenceAdvanced.t Tensor)) -> list Z -> Tensor.
Variable var_mean : Tensor -> Tensor * Tensor.
Variable adain_reference :
  Tensor -> Q -> list (Tensor * Tensor * option (ReferenceAdvanced.t Tensor)) -> nat ->
  list Z -> Tensor.
Variable batch_size : Tensor -> Z.
Variable unet : Tensor -> bool -> list (net_step Tensor).

Local Abbreviation Unit := (ReferenceAdvanced.t Tensor).
Local Abbreviation W := (World.t Tensor).
Local Abbreviation run_step' :=
  (run_step detach_clone attn1 attn1_reference var_mean adain_reference).
Local Abbreviation run_steps' :=
  (run_steps detach_clone attn1 attn1_reference var_mean adain_reference).
Local Abbreviation orig_forward :=
  (diffusion_model_orig_forward detach_clone attn1 attn1_reference var_mean adain_reference
     unet).
Local Abbreviation reference_pass' :=
  (reference_pass detach_clone attn1 attn1_reference var_mean adain_reference unet).
Local Abbreviation reference_passes' :=
  (reference_passes detach_clone attn1 attn1_reference var_mean adain_reference unet).
Local Abbreviation try_body' :=
  (try_body detach_clone attn1 attn1_reference var_mean adain_reference unet).
Local Abbreviation forward :=
  (forward_inject_UNetModel detach_clone attn1 attn1_reference var_mean adain_reference
     batch_size unet).

(** *** The passes a call makes *)

Lemma omap_cons_eq {A B : Type} (f : A -> option B) (a : A) (l : list A) :
  omap f (a :: l) = match f a with Some b => b :: omap f l | None => omap f l end.
Proof. done. Qed.


Lemma reference_passes_calls (l : list Unit) (w w' : W) (r : outcome unit) :
  reference_passes' l w = (r, w') ->
  exists made,
    World.forward_calls w' = World.forward_calls w ++ made /\
    made `prefix_of` omap reference_pass_call l /\
    (is_ok r = true ->
     made = omap reference_pass_call l /\
     Forall (fun u => is_Some (ReferenceAdvanced.cond_hint u)) l).
Proof.
  revert w. induction l as [|control rest IH]; intros w; cbn [reference_passes].
  - intros [= <- <-]. exists []. rewrite app_nil_r. done.
  - unfold reference_pass.
    match goal with
    | |- context [apply_lists ?ra ?wa ?rd ?wd w] =>
        pose proof (apply_lists_frame ra wa rd wd w) as (Hc0 & _ & _);
        set (w0 := apply_lists ra wa rd wd w) in *
    end.
    clearbody w0.
    assert (Hcall : reference_pass_call control =
                    match ReferenceAdvanced.cond_hint control with
                    | Some h => Some (h, ReferenceOptions.ref_with_other_cns
                                           (ReferenceAdvanced.ref_opts control))
                    | None => None
                    end) by done.
    rewrite omap_cons_eq, Hcall. clear Hcall.
    destruct (ReferenceAdvanced.cond_hint control) as [hint|] eqn:Hh.
    + destruct (diffusion_model_orig_forward _ _ _ _ _ _ _ _ _) as [[outs|e] w1] eqn:Hf;
        apply orig_forward_frame in Hf as (Hc1 & _ & _).
      * intros H. apply IH in H as (made & Hc & Hp & Hok).
        exists ((hint, ReferenceOptions.ref_with_other_cns
                         (ReferenceAdvanced.ref_opts control)) :: made).
        split; [rewrite Hc, Hc1, Hc0, <- app_assoc; done|].
        split; [apply prefix_cons, Hp|].
        intros Hr. destruct (Hok Hr) as [-> Hall]. split; [done|].
        constructor; [rewrite Hh; eauto|done].
      * intros [= <- <-]. eexists [_]. split; [rewrite Hc1, Hc0; done|].
        split; [apply prefix_cons, prefix_nil|done].
    + intros [= <- <-]. exists []. rewrite app_nil_r. split; [done|].
      split; [apply prefix_nil|done].
Qed.


Lemma try_body_calls_plan (x : Tensor) (rc cc : list Unit) (w w' : W)
    (o : option dispatch) (r : outcome (list Tensor)) :
  try_body' x rc cc w = (o, (r, w')) ->
  exists made,
    World.forward_calls w' = World.forward_calls w ++ made /\
    made `prefix_of` planned_calls x rc /\
    (is_ok r = true ->
     made = planned_calls x rc /\
     Forall (fun u => is_Some (ReferenceAdvanced.cond_hint u)) rc).
Proof.
  unfold try_body. intros [= _ H]. revert H.
  match goal with
  | |- context [reference_passes _ _ _ _ _ _ _ ?ww] => set (w0 := ww)
  end.
  assert (Hw0 : World.forward_calls w0 = World.forward_calls w).
  { subst w0. destruct (_ || _); done. }
  rewrite <- Hw0. clearbody w0. unfold planned_calls.
  destruct (reference_passes _ _ _ _ _ _ _ _) as [[u1|e] w3] eqn:Hp;
    apply reference_passes_calls in Hp as (made & Hc & Hpre & Hok).
  - destruct (Hok eq_refl) as [-> Hall].
    destruct (prepare_real_pass _ _ _ _ _ _) as [[u'|e] w4] eqn:Hq;
      apply prepare_real_pass_frame in Hq as (Hc4 & _).
    + intros H. apply orig_forward_frame in H as (Hc5 & _).
      exists (omap reference_pass_call rc ++ [(x, true)]).
      split; [rewrite Hc5, Hc4, Hc, <- app_assoc; done|]. done.
    + intros [= <- <-]. exists (omap reference_pass_call rc).
      split; [congruence|]. split; [apply prefix_app_r; done|done].
  - intros [= <- <-]. exists made. split; [done|].
    split; [apply prefix_app_r; done|done].
Qed.

(** X6.  The forward passes of one wrapper call, in the order they are made,
    are the reference passes of the running RefCN units in list order, each
    on the unit's noised hint and with the [control] keyword passed on only
    when [ref_with_other_cns] is set, followed by the real pass on [x].  A
    call that raises has made a prefix of this sequence; a call that returns
    has made all of it, so every running RefCN unit had a hint. *)
Theorem forward_makes_reference_passes_in_order_then_real_pass
    (x : Tensor) (w w' : W) (r : outcome (list Tensor)) (ref_all : list Unit) :
  get_control_list (World.transformer_options w) REF_CONTROL_LIST_ALL = Ok ref_all ->
  forward x w = (r, w') ->
  let running := List.filter ReferenceAdvanced.should_run ref_all in
  exists made,
    World.forward_calls w' = World.forward_calls w ++ made /\
    made `prefix_of` planned_calls x running /\
    (is_ok r = true ->
     made = planned_calls x running /\
     Forall (fun u => is_Some (ReferenceAdvanced.cond_hint u)) running).
Proof.
  intros Href. unfold forward_inject_UNetModel. rewrite Href. cbn zeta.
  destruct (get_control_list _ CONTEXTREF_CONTROL_LIST_ALL) as [context_all|].
  2:{ intros [= <- <-]. exists []. rewrite app_nil_r.
      split; [done|]. split; [apply prefix_nil|done]. }
  destruct (Nat.eqb (length (List.filter _ ref_all)) 0
            && Nat.eqb (length (List.filter _ context_all)) 0) eqn:Hz.
  - apply andb_true_iff in Hz as [Hz _]. apply Nat.eqb_eq in Hz.
    destruct (List.filter _ ref_all); [|done].
    intros H. apply orig_forward_frame in H as (-> & _).
    exists [(x, true)]. done.
  - destruct (assign_cond_idxs batch_size x w) as [[u|e] w1] eqn:Ha;
      apply assign_cond_idxs_frame in Ha as (Hc1 & _ & _).
    + destruct (try_body _ _ _ _ _ _ _ _ _ _) as [o [r2 w2]] eqn:Hb.
      apply try_body_calls_plan in Hb as (made & Hc & Hpre & Hok).
      intros Hf. apply finally_clause_calls in Hf as (Hc3 & Hr).
      exists made. split; [congruence|]. split; [done|].
      intros Hr'. specialize (Hr Hr'). subst r2. auto.
    + intros Hf. apply finally_clause_calls in Hf as (Hc3 & Hr).
      exists []. rewrite app_nil_r. split; [congruence|].
      split; [apply prefix_nil|]. intros Hr'. specialize (Hr Hr'). subst r. done.
Qed.

(** *** Failure before the partition *)

(** X7.  When a unit runs and [cond_or_uncond] is missing from
    [transformer_options] (a [KeyError] in the [try] body) or is the empty
    list (a [ZeroDivisionError]), the [finally] clause reads the local
    [adain_controlnets] before it was bound: the caller gets an
    [UnboundLocalError] in place of the original exception.  No forward pass
    was made, and the world is the one from before the call except that the
    RefCN-origin banks were cleared. *)
Theorem failing_cond_or_uncond_surfaces_as_unbound_local
    (x : Tensor) (w : W) (ref_all context_all : list Unit) :
  get_control_list (World.transformer_options w) REF_CONTROL_LIST_ALL = Ok ref_all ->
  get_control_list (World.transformer_options w) CONTEXTREF_CONTROL_LIST_ALL
    = Ok context_all ->
  existsb ReferenceAdvanced.should_run (ref_all ++ context_all) = true ->
  World.transformer_options w !! COND_OR_UNCOND = None \/
  World.transformer_options w !! COND_OR_UNCOND = Some (PyIntList []) ->
  is_ok (fst (assign_cond_idxs batch_size x w)) = false /\
  forward x w =
  (Raised (UnboundLocalError "adain_controlnets"),
   World.set_reference_injections w
     (ReferenceInjections.clean_ref_module_mem (World.reference_injections w))).
Proof.
  intros Href Hctx Hrun Hkey. unfold forward_inject_UNetModel.
  rewrite Href, Hctx, (existsb_filter_nonempty _ _ Hrun).
  unfold assign_cond_idxs. destruct Hkey as [-> | ->]; cbn; done.
Qed.

(** *** What the wrapper leaves alone *)

Lemma prepare_real_pass_other_keys (a d c ca cd : list Unit) (w w' : W) (r : outcome unit)
    (key : string) :
  key <> REF_READ_ATTN_CONTROL_LIST -> key <> REF_WRITE_ATTN_CONTROL_LIST ->
  key <> REF_READ_ADAIN_CONTROL_LIST -> key <> REF_WRITE_ADAIN_CONTROL_LIST ->
  prepare_real_pass a d c ca cd w = (r, w') ->
  World.transformer_options w' !! key = World.transformer_options w !! key.
Proof.
  intros H1 H2 H3 H4. unfold prepare_real_pass.
  destruct (0 <? length c)%nat;
    [|intros [= <- <-]; apply apply_lists_other_keys; done].
  destruct (World.transformer_options w !! CONTEXTREF_ATTN_MACHINE_STATE) as [attn_state|];
    [|intros [= <- <-]; done].
  destruct (py_eq_str attn_state MachineState.WRITE),
           (py_eq_str attn_state MachineState.OFF),
           (py_eq_str attn_state MachineState.READ); cbn;
    (destruct (World.transformer_options w !! CONTEXTREF_ADAIN_MACHINE_STATE) as [adain_state|];
     [|intros [= <- <-]; done]);
    destruct (py_eq_str adain_state MachineState.WRITE),
             (py_eq_str adain_state MachineState.READ);
    intros [= <- <-]; rewrite apply_lists_other_keys by done; done.
Qed.

Lemma finally_clause_options {A : Type} (a : option (list Unit)) (o : option dispatch)
    (r r' : outcome A) (w w' : W) :
  finally_clause a o r w = (r', w') ->
  World.transformer_options w' = World.transformer_options w.
Proof.
  unfold finally_clause.
  destruct a as [l|]; [|intros [= <- <-]; done].
  destruct (0 <? length l)%nat; [|intros [= <- <-]; done].
  destruct o; intros [= <- <-]; done.
Qed.

(** X8.  However a wrapper call ends, every entry of [transformer_options]
    under a key other than the two index-list keys and the four read/write
    list keys is what it was before the call: the machine states and the
    control lists the caller installed are never changed.  The registry keeps
    its modules, and the global dispatch function is back at its value from
    before the call whenever a running RefCN unit is adain-capable or no
    running ContextRef unit is. *)
Theorem forward_writes_only_its_own_keys
    (x : Tensor) (w w' : W) (r : outcome (list Tensor)) (ref_all context_all : list Unit) :
  get_control_list (World.transformer_options w) REF_CONTROL_LIST_ALL = Ok ref_all ->
  get_control_list (World.transformer_options w) CONTEXTREF_CONTROL_LIST_ALL
    = Ok context_all ->
  forward x w = (r, w') ->
  (forall key, key ∉ wrapper_keys ->
     World.transformer_options w' !! key = World.transformer_options w !! key) /\
  same_modules (World.reference_injections w) (World.reference_injections w') /\
  (adain_capable (List.filter ReferenceAdvanced.should_run ref_all) <> [] \/
   adain_capable (List.filter ReferenceAdvanced.should_run context_all) = [] ->
   World.forward_timestep_embed w' = World.forward_timestep_embed w).
Proof.
  intros Href Hctx Hf. split; [|split].
  - intros key Hkey. unfold wrapper_keys in Hkey.
    apply not_elem_of_cons in Hkey as [K1 Hkey].
    apply not_elem_of_cons in Hkey as [K2 Hkey].
    apply not_elem_of_cons in Hkey as [K3 Hkey].
    apply not_elem_of_cons in Hkey as [K4 Hkey].
    apply not_elem_of_cons in Hkey as [K5 Hkey].
    apply not_elem_of_cons in Hkey as [K6 _].
    revert Hf. unfold forward_inject_UNetModel. rewrite Href, Hctx.
    destruct (_ && _).
    { intros H. apply orig_forward_frame in H as (_ & -> & _). done. }
    destruct (assign_cond_idxs batch_size x w) as [[u|e] w1] eqn:Ha;
      apply (assign_cond_idxs_other_keys _ _ _ _ _ key K1 K2) in Ha.
    + destruct (try_body _ _ _ _ _ _ _ _ _ _) as [o [r2 w2]] eqn:Hb.
      intros Hf. apply finally_clause_options in Hf. rewrite Hf, <- Ha. clear Hf Ha.
      unfold try_body in Hb. injection Hb as _ Hb. revert Hb.
      match goal with
      | |- context [reference_passes _ _ _ _ _ _ _ ?ww] => set (w0 := ww)
      end.
      assert (Ho0 : World.transformer_options w0 = World.transformer_options w1).
      { subst w0. destruct (_ || _); done. }
      rewrite <- Ho0. clearbody w0.
      destruct (reference_passes _ _ _ _ _ _ _ _) as [[u1|e] w3] eqn:Hp;
        apply (reference_passes_other_keys _ _ _ _ _ _ _ _ _ _ key K3 K4 K5 K6) in Hp;
        [|intros [= <- <-]; done].
      destruct (prepare_real_pass _ _ _ _ _ _) as [[u'|e] w4] eqn:Hq;
        apply (prepare_real_pass_other_keys _ _ _ _ _ _ _ _ key K3 K4 K5 K6) in Hq.
      * intros H. apply orig_forward_frame in H as (_ & -> & _). congruence.
      * intros [= <- <-]. congruence.
    + intros Hf. apply finally_clause_options in Hf. congruence.
  - revert Hf. unfold forward_inject_UNetModel. rewrite Href, Hctx.
    destruct (_ && _).
    { intros H. eapply orig_forward_modules, H. }
    destruct (assign_cond_idxs batch_size x w) as [[u|e] w1] eqn:Ha;
      apply assign_cond_idxs_frame in Ha as (_ & _ & Hreg).
    + destruct (try_body _ _ _ _ _ _ _ _ _ _) as [o [r2 w2]] eqn:Hb.
      apply try_body_modules in Hb. rewrite Hreg in Hb.
      intros Hf. apply finally_clause_registry in Hf. rewrite Hf.
      eapply same_modules_trans; [eassumption|apply clean_ref_modules].
    + intros Hf. apply finally_clause_registry in Hf. rewrite Hf, Hreg.
      apply clean_ref_modules.
  - intros Hcase. eapply forward_restores_dispatch; eassumption.
Qed.


(** *** Well-formed banks across a call *)

Lemma run_step_wf (s : net_step Tensor) (w w' : W) (r : outcome Tensor) :
  banks_wf (World.reference_injections w) ->
  run_step' s w = (r, w') ->
  banks_wf (World.reference_injections w').
Proof.
  intros [Ha Hg]. destruct s as [i n|ts x|e]; cbn.
  - destruct (_ !! i) as [self|] eqn:Hi; [|intros [= <- <-]; done].
    destruct (_forward_inject_BasicTransformerBlock _ _ _ _ _ _) as [r1 self'] eqn:Hf.
    intros [= <- <-]. split; cbn; [|done].
    apply Forall_insert; [done|].
    eapply attn_layer_wf; [eassumption|]. eapply Forall_lookup_1; eassumption.
  - destruct (call_forward_timestep_embed _ _ _ _ _ _ _) as [r1 l1] eqn:Hc.
    apply call_forward_timestep_embed_wf in Hc; [|done].
    intros [= <- <-]. split; done.
  - intros [= <- <-]; done.
Qed.

Lemma run_steps_wf (steps : list (net_step Tensor)) (outs : list Tensor) (w w' : W)
    (r : outcome (list Tensor)) :
  banks_wf (World.reference_injections w) ->
  run_steps' steps outs w = (r, w') ->
  banks_wf (World.reference_injections w').
Proof.
  revert outs w. induction steps as [|s rest IH]; intros outs w Hwf; cbn.
  - intros [= <- <-]; done.
  - destruct (run_step' s w) as [[y|e] w1] eqn:Hs; apply run_step_wf in Hs; try done.
    + apply IH. done.
    + intros [= <- <-]; done.
Qed.

Lemma orig_forward_wf (x : Tensor) (control : bool) (w w' : W) (r : outcome (list Tensor)) :
  banks_wf (World.reference_injections w) ->
  orig_forward x control w = (r, w') ->
  banks_wf (World.reference_injections w').
Proof. unfold diffusion_model_orig_forward. intros Hwf. apply run_steps_wf. done. Qed.

Lemma reference_passes_wf (l : list Unit) (w w' : W) (r : outcome unit) :
  banks_wf (World.reference_injections w) ->
  reference_passes' l w = (r, w') ->
  banks_wf (World.reference_injections w').
Proof.
  revert w. induction l as [|control rest IH]; intros w Hwf; cbn.
  - intros [= <- <-]. done.
  - unfold reference_pass.
    destruct (ReferenceAdvanced.cond_hint control) as [hint|]; [|intros [= <- <-]; done].
    destruct (diffusion_model_orig_forward _ _ _ _ _ _ _ _ _) as [[outs|e] w1] eqn:Hf;
      apply orig_forward_wf in Hf; try done.
    + apply IH. done.
    + intros [= <- <-]. done.
Qed.

Lemma clean_contextref_wf (r : ReferenceInjections.t Tensor) :
  banks_wf r -> banks_wf (ReferenceInjections.clean_contextref_module_mem r).
Proof.
  intros [Ha Hg]. split; cbn; apply Forall_fmap; eapply Forall_impl; try eassumption.
  - intros h (H1 & H2 & H3 & H4). repeat split; done.
  - intros h (H1 & H2 & H3 & H4 & H5 & H6). repeat split; done.
Qed.

Lemma clean_ref_wf (r : ReferenceInjections.t Tensor) :
  banks_wf r -> banks_wf (ReferenceInjections.clean_ref_module_mem r).
Proof.
  intros [Ha Hg]. split; cbn; apply Forall_fmap; eapply Forall_impl; try eassumption.
  - intros h (H1 & H2 & H3 & H4). repeat split; done.
  - intros h (H1 & H2 & H3 & H4 & H5 & H6). repeat split; done.
Qed.

Lemma prepare_real_pass_registry (a d c ca cd : list Unit) (w w' : W) (r : outcome unit) :
  prepare_real_pass a d c ca cd w = (r, w') ->
  World.reference_injections w' = World.reference_injections w \/
  World.reference_injections w'
  = ReferenceInjections.clean_contextref_module_mem (World.reference_injections w).
Proof.
  unfold prepare_real_pass.
  destruct (0 <? length c)%nat; [|intros [= <- <-]; by left].
  destruct (World.transformer_options w !! CONTEXTREF_ATTN_MACHINE_STATE) as [attn_state|];
    [|intros [= <- <-]; by left].
  destruct (py_eq_str attn_state MachineState.WRITE),
           (py_eq_str attn_state MachineState.OFF),
           (py_eq_str attn_state MachineState.READ); cbn;
    (destruct (World.transformer_options w !! CONTEXTREF_ADAIN_MACHINE_STATE) as [adain_state|];
     [|intros [= <- <-]; first [by left | by right]]);
    destruct (py_eq_str adain_state MachineState.WRITE),
             (py_eq_str adain_state MachineState.READ);
    intros [= <- <-]; first [by left | by right].
Qed.

Lemma try_body_wf (x : Tensor) (rc cc : list Unit) (w w' : W)
    (o : option dispatch) (r : outcome (list Tensor)) :
  banks_wf (World.reference_injections w) ->
  try_body' x rc cc w = (o, (r, w')) ->
  banks_wf (World.reference_injections w').
Proof.
  intros Hwf. unfold try_body. intros [= _ H]. revert H.
  match goal with
  | |- context [reference_passes _ _ _ _ _ _ _ ?ww] => set (w0 := ww)
  end.
  assert (Hw0 : World.reference_injections w0 = World.reference_injections w).
  { subst w0. destruct (_ || _); done. }
  rewrite <- Hw0 in Hwf. clearbody w0.
  destruct (reference_passes _ _ _ _ _ _ _ _) as [[u|e] w1] eqn:Hp;
    apply reference_passes_wf in Hp; try done; [|intros [= <- <-]; done].
  destruct (prepare_real_pass _ _ _ _ _ _) as [[u'|e] w2] eqn:Hq;
    apply prepare_real_pass_registry in Hq;
    (assert (Hwf2 : banks_wf (World.reference_injections w2))
      by (destruct Hq as [-> | ->]; [done|apply clean_contextref_wf; done])).
  - apply orig_forward_wf. done.
  - intros [= <- <-]. done.
Qed.

(** X9.  The bank invariant: in every bank the parallel lists of the own set
    have one common length, and so have those of the ContextRef set.  Each
    call of the attention injection and of the normalization injection keeps
    it, whatever the lists in [transformer_options] and however the call
    ends; so does a whole wrapper call, on normal return and on every
    exception. *)
Theorem parallel_bank_lists_keep_equal_length :
  (forall (self self' : InjectionBasicTransformerBlockHolder.t Tensor) (n : Tensor)
          (o : gmap string (pyval Tensor)) (r : outcome Tensor),
     attn_bank_wf self ->
     _forward_inject_BasicTransformerBlock detach_clone attn1 attn1_reference self n o
       = (r, self') ->
     attn_bank_wf self') /\
  (forall (self self' : InjectionTimestepEmbedSequentialHolder.t Tensor) (x : Tensor)
          (o : gmap string (pyval Tensor)) (r : outcome Tensor),
     gn_bank_wf self ->
     forward_timestep_embed_ref_inject var_mean adain_reference self x o = (r, self') ->
     gn_bank_wf self') /\
  (forall (x : Tensor) (w w' : W) (r : outcome (list Tensor)),
     banks_wf (World.reference_injections w) ->
     forward x w = (r, w') ->
     banks_wf (World.reference_injections w')).
Proof.
  split; [|split].
  - intros self self' n o r Hwf H. eapply attn_layer_wf; eassumption.
  - intros self self' x o r Hwf H. eapply gn_layer_wf; eassumption.
  - intros x w w' r Hwf. unfold forward_inject_UNetModel.
    destruct (get_control_list _ REF_CONTROL_LIST_ALL) as [ref_all|];
      [|intros [= <- <-]; done].
    destruct (get_control_list _ CONTEXTREF_CONTROL_LIST_ALL) as [context_all|];
      [|intros [= <- <-]; done].
    destruct (_ && _); [apply orig_forward_wf; done|].
    destruct (assign_cond_idxs batch_size x w) as [[u|e] w1] eqn:Ha;
      apply assign_cond_idxs_frame in Ha as (_ & _ & Hreg); rewrite <- Hreg in Hwf.
    + destruct (try_body _ _ _ _ _ _ _ _ _ _) as [o [r2 w2]] eqn:Hb.
      apply try_body_wf in Hb; [|done].
      intros Hf. apply finally_clause_registry in Hf. rewrite Hf.
      apply clean_ref_wf. done.
    + intros Hf. apply finally_clause_registry in Hf. rewrite Hf.
      apply clean_ref_wf. done.
Qed.


(** *** ContextRef units that do not carry the flag *)

Lemma prepare_real_pass_flags (a d c ca cd : list Unit) (w w' : W) (r : outcome unit) :
  Forall (fun u => ReferenceAdvanced.is_context_ref u = false) ca ->
  Forall (fun u => ReferenceAdvanced.is_context_ref u = false) cd ->
  prepare_real_pass a d c ca cd w = (r, w') ->
  is_ok r = true -> no_context_writer (World.transformer_options w').
Proof.
  intros Hca Hcd. unfold prepare_real_pass.
  destruct (0 <? length c)%nat;
    [|intros [= <- <-] _; apply apply_lists_no_context_writer; constructor].
  destruct (World.transformer_options w !! CONTEXTREF_ATTN_MACHINE_STATE) as [attn_state|];
    [|intros [= <- <-]; done].
  destruct (py_eq_str attn_state MachineState.WRITE),
           (py_eq_str attn_state MachineState.OFF),
           (py_eq_str attn_state MachineState.READ); cbn;
    (destruct (World.transformer_options w !! CONTEXTREF_ADAIN_MACHINE_STATE) as [adain_state|];
     [|intros [= <- <-]; done]);
    destruct (py_eq_str adain_state MachineState.WRITE),
             (py_eq_str adain_state MachineState.READ);
    intros [= <- <-] _; apply apply_lists_no_context_writer;
    rewrite ?app_nil_l; try apply Forall_app; try split; try done; constructor.
Qed.

Lemma capable_flags (f : Unit -> bool) (l : list Unit) :
  Forall (fun u => ReferenceAdvanced.is_context_ref u = false) l ->
  Forall (fun u => ReferenceAdvanced.is_context_ref u = false) (List.filter f l).
Proof.
  rewrite !List.Forall_forall. intros H u Hin. apply filter_In in Hin as [Hin _]. auto.
Qed.

Lemma context_entries_empty (r r' : ReferenceInjections.t Tensor) :
  context_entries r' = context_entries r ->
  context_banks_empty r -> context_banks_empty r'.
Proof.
  unfold context_entries. intros [= Ha Hg] [Hea Heg]. split.
  - apply Forall_forall. intros h' Hin.
    apply list_elem_of_lookup in Hin as (i & Hi).
    assert (Hl : map attn_context_entries (ReferenceInjections.attn_modules r') !! i
                 = Some (attn_context_entries h')) by (rewrite list_lookup_fmap, Hi; done).
    rewrite Ha, list_lookup_fmap in Hl.
    destruct (ReferenceInjections.attn_modules r !! i) as [h|] eqn:Hh; [|done].
    cbn in Hl.
    pose proof (Forall_lookup_1 _ _ _ _ Hea Hh) as (H1 & H2 & H3).
    unfold attn_context_entries in Hl. cbn zeta in Hl, H1, H2, H3.
    rewrite H1, H2, H3 in Hl. injection Hl as Hl1 Hl2 Hl3. done.
  - apply Forall_forall. intros h' Hin.
    apply list_elem_of_lookup in Hin as (i & Hi).
    assert (Hl : map gn_context_entries (ReferenceInjections.gn_modules r') !! i
                 = Some (gn_context_entries h')) by (rewrite list_lookup_fmap, Hi; done).
    rewrite Hg, list_lookup_fmap in Hl.
    destruct (ReferenceInjections.gn_modules r !! i) as [h|] eqn:Hh; [|done].
    cbn in Hl.
    pose proof (Forall_lookup_1 _ _ _ _ Heg Hh) as (H1 & H2 & H3 & H4).
    unfold gn_context_entries in Hl. cbn zeta in Hl, H1, H2, H3, H4.
    rewrite H1, H2, H3, H4 in Hl. injection Hl as Hl1 Hl2 Hl3 Hl4. done.
Qed.

(** X10.  A ContextRef unit writes to the ContextRef set of a bank only if it
    carries [is_context_ref]; the constructor leaves the flag off, and so does
    [handle_context_ref_setup].  When no unit of either list carries it, a
    call that is made while the ContextRef attention machine state is WRITE
    or OFF, with a ContextRef unit running, and that returns, ends with every
    bank empty, own set and ContextRef set alike: what the ContextRef unit
    wrote went to the own set and was cleared with it, so a later READ call
    finds nothing of it. *)
Theorem contextref_without_flag_leaves_nothing_behind
    (x : Tensor) (w w' : W) (outs : list Tensor) (ref_all context_all : list Unit)
    (attn_state : string) :
  get_control_list (World.transformer_options w) REF_CONTROL_LIST_ALL = Ok ref_all ->
  get_control_list (World.transformer_options w) CONTEXTREF_CONTROL_LIST_ALL
    = Ok context_all ->
  existsb ReferenceAdvanced.should_run context_all = true ->
  Forall (fun u => ReferenceAdvanced.is_context_ref u = false) (ref_all ++ context_all) ->
  World.transformer_options w !! CONTEXTREF_ATTN_MACHINE_STATE = Some (PyStr attn_state) ->
  attn_state = MachineState.WRITE \/ attn_state = MachineState.OFF ->
  forward x w = (Ok outs, w') ->
  own_banks_empty (World.reference_injections w') /\
  context_banks_empty (World.reference_injections w').
Proof.
  intros Href Hctx Hrun Hflags Hattn Hstate. apply Forall_app in Hflags as [Hfr Hfc].
  unfold forward_inject_UNetModel. rewrite Href, Hctx.
  assert (Hrun' : existsb ReferenceAdvanced.should_run (ref_all ++ context_all) = true).
  { rewrite existsb_app, Hrun. apply orb_true_r. }
  rewrite (existsb_filter_nonempty _ _ Hrun').
  assert (Hne : List.filter ReferenceAdvanced.should_run context_all <> []).
  { apply existsb_exists in Hrun as (u & Hin & Hu). intros Hnil.
    assert (Hf : In u (List.filter ReferenceAdvanced.should_run context_all))
      by (apply filter_In; done).
    rewrite Hnil in Hf. destruct Hf. }
  destruct (assign_cond_idxs batch_size x w) as [[u|e] w1] eqn:Ha; [|done].
  pose proof (assign_cond_idxs_other_keys _ _ _ _ _ CONTEXTREF_ATTN_MACHINE_STATE
                ltac:(done) ltac:(done) Ha) as Hk1.
  destruct (try_body _ _ _ _ _ _ _ _ _ _) as [o [r2 w2]] eqn:Hb.
  intros Hf. pose proof (finally_clause_registry _ _ _ _ _ _ Hf) as Hreg.
  apply finally_clause_calls in Hf as (_ & Hr). specialize (Hr eq_refl). subst r2.
  rewrite Hreg. split; [apply clean_ref_module_mem_own_empty|].
  eapply context_entries_empty; [apply clean_ref_keeps_context|].
  unfold try_body in Hb. injection Hb as _ Hb. revert Hb.
  match goal with
  | |- context [reference_passes _ _ _ _ _ _ _ ?ww] => set (w0 := ww)
  end.
  assert (Ho0 : World.transformer_options w0 = World.transformer_options w1).
  { subst w0. destruct (_ || _); done. }
  rewrite <- Ho0 in Hk1. clearbody w0.
  destruct (reference_passes _ _ _ _ _ _ _ _) as [[u1|e] w3] eqn:Hp; [|done].
  apply (reference_passes_other_keys _ _ _ _ _ _ _ _ _ _ CONTEXTREF_ATTN_MACHINE_STATE)
    in Hp; [|done..].
  destruct (prepare_real_pass _ _ _ _ _ _) as [[u'|e] w4] eqn:Hq; [|done].
  pose proof (prepare_real_pass_flags _ _ _ _ _ _ _ _
                (capable_flags _ _ (filter_should_run_no_context _ Hfc))
                (capable_flags _ _ (filter_should_run_no_context _ Hfc)) Hq eq_refl) as Hno.
  apply (prepare_real_pass_clears _ _ _ _ _ _ _ _ attn_state) in Hq;
    [|done|congruence|done].
  intros H. apply orig_forward_keeps_context in H; [|done].
  eapply context_entries_empty; eassumption.
Qed.

End InterceptorMoreFacts.

(** ** The order matching never fails for RefCN units *)

Section FollowsFacts.
Context {Tensor : Type} `{!TensorShape Tensor}.
Local Abbreviation Unit := (ReferenceAdvanced.t Tensor).






End FollowsFacts.

Section LayerInvariant.
Context {Tensor : Type} `{!TensorShape Tensor}.
Variable detach_clone : Tensor -> Tensor.
Variable attn1 : Tensor -> Tensor.
Variable attn1_reference :
  Tensor -> Q -> list (Tensor * option (ReferenceAdvanced.t Tensor)) -> list Z -> Tensor.
Variable var_mean : Tensor -> Tensor * Tensor.
Variable adain_reference :
  Tensor -> Q -> list (Tensor * Tensor * option (ReferenceAdvanced.t Tensor)) -> nat ->
  list Z -> Tensor.

Local Abbreviation Unit := (ReferenceAdvanced.t Tensor).



End LayerInvariant.

Section WrapperInvariant.
Context {Tensor : Type} `{!TensorShape Tensor}.
Variable detach_clone : Tensor -> Tensor.
Variable attn1 : Tensor -> Tensor.
Variable attn1_reference :
  Tensor -> Q -> list (Tensor * option (ReferenceAdvanced.t Tensor)) -> list Z -> Tensor.
Variable var_mean : Tensor -> Tensor * Tensor.
Variable adain_reference :
  Tensor -> Q -> list (Tensor * Tensor * option (ReferenceAdvanced.t Tensor)) -> nat ->
  list Z -> Tensor.
Variable batch_size : Tensor -> Z.
Variable unet : Tensor -> bool -> list (net_step Tensor).

Local Abbreviation Unit := (ReferenceAdvanced.t Tensor).
Local Abbreviation W := (World.t Tensor).
Local Abbreviation run_step' :=
  (run_step detach_clone attn1 attn1_reference var_mean adain_reference).
Local Abbreviation run_steps' :=
  (run_steps detach_clone attn1 attn1_reference var_mean adain_reference).
Local Abbreviation orig_forward :=
  (diffusion_model_orig_forward detach_clone attn1 attn1_reference var_mean adain_reference
     unet).
Local Abbreviation reference_passes' :=
  (reference_passes detach_clone attn1 attn1_reference var_mean adain_reference unet).
Local Abbreviation try_body' :=
  (try_body detach_clone attn1 attn1_reference var_mean adain_reference unet).
Local Abbreviation forward :=
  (forward_inject_UNetModel detach_clone attn1 attn1_reference var_mean adain_reference
     batch_size unet).













End WrapperInvariant.

(** ** The index lists *)

Section IndexLists.
Context {Tensor : Type} `{!TensorShape Tensor}.
Variable batch_size : Tensor -> Z.

Lemma lookup_repeat {A : Type} (c : A) (k n : nat) :
  repeat c k !! n = if decide (n < k) then Some c else None.
Proof.
  revert n. induction k as [|k IH]; intros [|n]; cbn; try done.
  rewrite IH. destruct (decide (n < k)), (decide (S n < S k)); try done; lia.
Qed.

Lemma length_repeat' {A : Type} (c : A) (k : nat) : length (repeat c k) = k.
Proof. induction k; cbn; congruence. Qed.

(** [indiv_conds]: block [j] of [per_batch] slots carries [cond_or_uncond[j]]. *)
Lemma lookup_indiv_conds (l : list Z) (k n : nat) :
  flat_map (fun cond_type => repeat cond_type k) l !! n =
  if decide (n < k * length l) then l !! (n / k)%nat else None.
Proof.
  revert n. induction l as [|c l IH]; intros n; cbn [flat_map length].
  - rewrite Nat.mul_0_r. destruct (decide (n < 0)); [lia|done].
  - destruct (decide (n < k)) as [Hlt|Hge].
    + rewrite lookup_app_l by (rewrite length_repeat'; done).
      rewrite lookup_repeat. destruct (decide (n < k)); [|done].
      destruct (decide (n < k * S (length l))); [|lia].
      rewrite Nat.div_small by done. done.
    + rewrite lookup_app_r by (rewrite length_repeat'; lia).
      rewrite length_repeat', IH.
      destruct (decide (n - k < k * length l)), (decide (n < k * S (length l)));
        try done; try lia.
      assert (Hk : k <> 0%nat) by lia.
      replace n with ((n - k) + 1 * k)%nat at 2 by lia.
      rewrite Nat.div_add by done. rewrite Nat.add_1_r. done.
Qed.

Lemma elem_of_indices_equal (v : Z) (l : list Z) (z : Z) :
  z ∈ indices_equal v l <-> exists i : nat, z = Z.of_nat i /\ l !! i = Some v.
Proof.
  unfold indices_equal. rewrite list_elem_of_fmap. split.
  - intros ([i c] & -> & Hin). apply list_elem_of_In, filter_In in Hin as [Hin Hc].
    cbn in Hc. apply Z.eqb_eq in Hc. subst c.
    apply list_elem_of_In, list_elem_of_lookup in Hin as (k & Hk).
    apply lookup_zip_with_Some in Hk as (i' & c' & [= <- <-] & Hs & Hl).
    apply lookup_seq in Hs as [-> _]. exists k. done.
  - intros (i & -> & Hi). exists (i, v). split; [done|].
    apply list_elem_of_In, filter_In. split; [|cbn; apply Z.eqb_refl].
    apply list_elem_of_In, list_elem_of_lookup. exists i.
    apply lookup_zip_with_Some. exists i, v. split; [done|]. split; [|done].
    apply lookup_seq. split; [done|]. eapply lookup_lt_Some, Hi.
Qed.

(** X12.  The index lists the wrapper installs.  With [cond_or_uncond] a
    non-empty list and [per_batch = x.shape[0] // len(cond_or_uncond)], the
    call succeeds and block [j] of [per_batch] consecutive batch positions
    goes to [REF_UNCOND_IDXS] when [cond_or_uncond[j]] is 1 and to
    [REF_COND_IDXS] when it is 0.  No position is in both lists, a position
    of a block with any other marker is in neither, and so is every position
    from [per_batch * len(cond_or_uncond)] on: the remainder of a batch that
    [len(cond_or_uncond)] does not divide. *)
Theorem cond_and_uncond_idxs_are_the_blocks_of_their_marker
    (x : Tensor) (w : World.t Tensor) (cond_or_uncond : list Z) :
  World.transformer_options w !! COND_OR_UNCOND = Some (PyIntList cond_or_uncond) ->
  cond_or_uncond <> [] ->
  let per_batch := Z.to_nat (batch_size x / Z.of_nat (length cond_or_uncond)) in
  let in_block (marker : Z) (z : Z) :=
    exists i : nat, z = Z.of_nat i /\ i < per_batch * length cond_or_uncond /\
                    cond_or_uncond !! (i / per_batch)%nat = Some marker in
  exists (w' : World.t Tensor) (uncond cond : list Z),
    assign_cond_idxs batch_size x w = (Ok tt, w') /\
    World.transformer_options w' !! REF_UNCOND_IDXS = Some (PyIntList uncond) /\
    World.transformer_options w' !! REF_COND_IDXS = Some (PyIntList cond) /\
    (forall z, z ∈ uncond <-> in_block 1%Z z) /\
    (forall z, z ∈ cond <-> in_block 0%Z z) /\
    (forall z, z ∈ uncond -> z ∉ cond).
Proof.
  intros Hkey Hne. cbn zeta. unfold assign_cond_idxs. rewrite Hkey.
  destruct (Z.eqb_spec (Z.of_nat (length cond_or_uncond)) 0) as [Hz|_].
  { destruct cond_or_uncond; [done|]. cbn in Hz. lia. }
  eexists _, _, _. split; [reflexivity|].
  unfold World.set_item. cbn.
  split; [rewrite lookup_insert_ne by done; apply lookup_insert_eq|].
  split; [apply lookup_insert_eq|].
  assert (Hchar : forall v z,
    z ∈ indices_equal v
          (flat_map (fun cond_type => repeat cond_type
             (Z.to_nat (batch_size x / Z.of_nat (length cond_or_uncond)))) cond_or_uncond) <->
    exists i : nat, z = Z.of_nat i /\
      i < Z.to_nat (batch_size x / Z.of_nat (length cond_or_uncond)) * length cond_or_uncond /\
      cond_or_uncond !! (i / Z.to_nat (batch_size x / Z.of_nat (length cond_or_uncond)))%nat
      = Some v).
  { intros v z. rewrite elem_of_indices_equal. split.
    - intros (i & -> & Hi). rewrite lookup_indiv_conds in Hi.
      destruct (decide _) as [Hlt|]; [|done]. exists i. done.
    - intros (i & -> & Hlt & Hi). exists i. split; [done|].
      rewrite lookup_indiv_conds. destruct (decide _); done. }
  split; [apply Hchar|]. split; [apply Hchar|].
  intros z H1 H0. apply Hchar in H1 as (i & -> & _ & H1).
  apply Hchar in H0 as (i' & Heq & _ & H0).
  apply Nat2Z.inj in Heq. subst i'. congruence.
Qed.
End IndexLists.

(** ** Options *)

Lemma cube_between (f : Q) : (0 <= f)%Q -> (f <= 1)%Q -> (0 <= f * f * f /\ f * f * f <= f)%Q.
Proof. intros H0 H1. split; nra. Qed.

Lemma cube_fixed (f : Q) :
  (0 <= f)%Q -> (f <= 1)%Q -> (f * f * f == f)%Q -> (f == 0)%Q \/ (f == 1)%Q.
Proof.
  intros H0 H1 Hc.
  assert (H : (f * ((f - 1) * (f + 1)) == 0)%Q) by (ring_simplify; lra).
  apply Qmult_integral in H as [H|H]; [by left|].
  apply Qmult_integral in H as [H|H]; [right; lra|lra].
Qed.

(** X13.  The current style fidelities are always recomputed from the
    originals: [pre_run_advanced] overwrites them with the original value, or
    with its cube for a model of type [SDXL], and never touches the originals
    or any other field, so running it again, for the same or for another
    model, does not compound; [clone] starts the copy from the originals and
    forgets the adjustment.  For an original fidelity in [0, 1] the SDXL
    value lies between 0 and the original, and equals it only at 0 and at
    1. *)
Theorem current_fidelities_are_recomputed_from_the_originals :
  (forall (m1 m2 : string) (o : ReferenceOptions.t),
     pre_run_advanced m2 (pre_run_advanced m1 o) = pre_run_advanced m2 o) /\
  (forall (m : string) (o : ReferenceOptions.t),
     ReferenceOptions.clone (pre_run_advanced m o) = ReferenceOptions.clone o /\
     ReferenceOptions.attn_style_fidelity (ReferenceOptions.clone (pre_run_advanced m o))
     = ReferenceOptions.original_attn_style_fidelity o /\
     ReferenceOptions.adain_style_fidelity (ReferenceOptions.clone (pre_run_advanced m o))
     = ReferenceOptions.original_adain_style_fidelity o) /\
  (forall (m : string) (o : ReferenceOptions.t),
     m <> "SDXL" -> pre_run_advanced m (ReferenceOptions.clone o) = ReferenceOptions.clone o) /\
  (forall o : ReferenceOptions.t,
     let f := ReferenceOptions.original_attn_style_fidelity o in
     let g := ReferenceOptions.original_adain_style_fidelity o in
     let o' := pre_run_advanced "SDXL" o in
     ((0 <= f)%Q -> (f <= 1)%Q ->
      (0 <= ReferenceOptions.attn_style_fidelity o')%Q /\
      (ReferenceOptions.attn_style_fidelity o' <= f)%Q /\
      ((ReferenceOptions.attn_style_fidelity o' == f)%Q -> (f == 0)%Q \/ (f == 1)%Q)) /\
     ((0 <= g)%Q -> (g <= 1)%Q ->
      (0 <= ReferenceOptions.adain_style_fidelity o')%Q /\
      (ReferenceOptions.adain_style_fidelity o' <= g)%Q /\
      ((ReferenceOptions.adain_style_fidelity o' == g)%Q -> (g == 0)%Q \/ (g == 1)%Q))).
Proof.
  split; [|split; [|split]].
  - intros m1 m2 o. unfold pre_run_advanced.
    destruct (bool_decide (m1 = "SDXL")), (bool_decide (m2 = "SDXL")); reflexivity.
  - intros m o. unfold pre_run_advanced.
    destruct (bool_decide (m = "SDXL")); repeat split.
  - intros m o Hm. unfold pre_run_advanced.
    rewrite bool_decide_eq_false_2 by done. reflexivity.
  - intros o. cbn zeta. unfold pre_run_advanced.
    rewrite bool_decide_eq_true_2 by done. cbn.
    split; intros H0 H1.
    + destruct (cube_between _ H0 H1). repeat split; try done. apply cube_fixed; done.
    + destruct (cube_between _ H0 H1). repeat split; try done. apply cube_fixed; done.
Qed.

(** ** Effective strength *)

Section StrengthFacts.
Context {Tensor : Type} `{!TensorShape Tensor}.

(** X14.  While no mask is in effect the effective attention strength is the
    float [strength * keyframe strength * attn_strength] (without the
    keyframe factor when no keyframe is current), whatever the block.  With a
    mask in effect the mask of a middle block is built at 1/8 of the latent
    size; for any other block the divisor is looked up under the channel
    count, so a block whose channel count is not 320, 640 or 1280 raises
    [KeyError], whatever the latent shape.  For a latent shape [b, c, h, w]
    and a known divisor the mask is returned in the shape [b, (h // div) *
    (w // div), 1]. *)
Theorem attention_mask_needs_a_known_channel_count
    (self : ReferenceAdvanced.t Tensor) (channels : Z) (is_mid : bool) :
  let base := ReferenceAdvanced.base self in
  let latent_shape := ReferenceAdvanced.latent_shape self in
  let attn_strength := ReferenceOptions.attn_strength (ReferenceAdvanced.ref_opts self) in
  let r := get_effective_attn_mask_or_float self channels is_mid in
  (ReferenceAdvanced.should_apply_effective_masks self = false ->
   r = Ok (Strength (get_effective_strength self * attn_strength)%Q)) /\
  (ReferenceAdvanced.should_apply_effective_masks self = true ->
   (is_mid = false -> channels <> 320%Z -> channels <> 640%Z -> channels <> 1280%Z ->
    r = Raised (KeyError (pretty channels))) /\
   (forall b c h w : Z,
      (0 <= b)%Z -> (0 <= h)%Z -> (0 <= w)%Z ->
      latent_shape = Some [b; c; h; w] ->
      (is_mid = true ->
       r = Ok (Mask [b; (h / 8) * (w / 8); 1]%Z
                 (AdvancedControlBase.strength base * attn_strength)%Q)) /\
      (is_mid = false ->
       forall div, (channels, div) ∈ [(320, 1); (640, 2); (1280, 4)]%Z ->
         r = Ok (Mask [b; (h / div) * (w / div); 1]%Z
                   (AdvancedControlBase.strength base * attn_strength)%Q)))).
Proof.
  cbn zeta. unfold get_effective_attn_mask_or_float. split.
  - intros ->. done.
  - intros ->. cbn [negb]. split.
    + intros -> H1 H2 H3. unfold CHANNEL_TO_MULT.
      rewrite !lookup_insert_ne by done. rewrite lookup_empty. done.
    + intros b c h w _ _ _ ->. split.
      * intros ->. done.
      * intros -> div Hin.
        repeat (apply elem_of_cons in Hin as [[= -> ->]|Hin]; [vm_compute CHANNEL_TO_MULT; done|]).
        inversion Hin.
Qed.
End StrengthFacts.

(** [math.isclose] against one *)

Lemma isclose_one_bounds (a : Q) :
  isclose a 1 = true ->
  ((999999999 # 1000000000) <= a)%Q /\ (a * (999999999 # 1000000000) <= 1)%Q.
Proof.
  unfold isclose, rel_tol, abs_tol. rewrite Qle_bool_iff.
  pose proof (Qle_Qabs (a - 1)) as HA1.
  pose proof (Qle_Qabs (- (a - 1))) as HA2. rewrite Qabs_opp in HA2.
  assert (HB : (0 <= a /\ Qabs a == a)%Q \/ (a <= 0 /\ Qabs a == - a)%Q).
  { destruct (Qlt_le_dec a 0) as [Hlt|Hge].
    - right. assert (Hle : (a <= 0)%Q) by lra. split; [done|]. apply Qabs_neg, Hle.
    - left. split; [done|]. apply Qabs_pos, Hge. }
  assert (H1 : (Qabs 1 == 1)%Q) by reflexivity.
  generalize dependent (Qabs (a - 1)). intros A HA1 HA2.
  generalize dependent (Qabs a). intros B HB.
  generalize dependent (Qabs 1). intros C HC.
  destruct (Q.max_spec B C) as [[_ Hm]|[_ Hm]];
    destruct (Q.max_spec ((1 # 1000000000) * Qmax B C) 0) as [[Hc Hk]|[Hc Hk]];
    rewrite Hk; clear Hk; rewrite Hm in *; clear Hm; intros H;
    destruct HB as [[HB1 HB2]|[HB1 HB2]]; split; lra.
Qed.

Lemma isclose_refl_one (a : Q) : (a == 1)%Q -> isclose a 1 = true.
Proof.
  intros Ha. unfold isclose. apply Qle_bool_iff.
  assert (H0 : (Qabs (a - 1) == 0)%Q).
  { assert (Hd : (a - 1 == 0)%Q) by lra. rewrite Hd. reflexivity. }
  rewrite H0. apply Q.max_le_iff. right. unfold abs_tol. apply Qle_refl.
Qed.

Lemma product_of_three_near_one (a b c : Q) :
  ((999999999 # 1000000000) <= a)%Q -> (a * (999999999 # 1000000000) <= 1)%Q ->
  ((999999999 # 1000000000) <= b)%Q -> (b * (999999999 # 1000000000) <= 1)%Q ->
  ((999999999 # 1000000000) <= c)%Q -> (c * (999999999 # 1000000000) <= 1)%Q ->
  (1 - (4 # 1000000000) <= a * b * c)%Q /\ (a * b * c <= 1 + (4 # 1000000000))%Q.
Proof.
  assert (Hn1 : (1 - (4 # 1000000000)
                 <= (999999999 # 1000000000) * (999999999 # 1000000000)
                    * (999999999 # 1000000000))%Q) by (vm_compute; discriminate).
  assert (Hn2 : (1 <= (1 + (4 # 1000000000))
                      * ((999999999 # 1000000000) * (999999999 # 1000000000)
                         * (999999999 # 1000000000)))%Q) by (vm_compute; discriminate).
  assert (Hk : (0 < (999999999 # 1000000000))%Q) by reflexivity.
  revert Hn1 Hn2 Hk. generalize (999999999 # 1000000000)%Q. intros k Hn1 Hn2 Hk.
  intros Ha1 Ha2 Hb1 Hb2 Hc1 Hc2.
  assert (Hab1 : (k * k <= a * b)%Q) by nra.
  assert (H1 : (0 <= a * k)%Q) by nra.
  assert (H2 : (0 <= b * k)%Q) by nra.
  assert (H3 : (0 <= c * k)%Q) by nra.
  assert (Hab2 : ((a * k) * (b * k) <= 1)%Q) by nra.
  assert (H4 : (0 <= (a * k) * (b * k))%Q) by nra.
  assert (Habc2 : (((a * k) * (b * k)) * (c * k) <= 1)%Q) by nra.
  assert (Hkk : (0 <= k * k)%Q) by nra.
  assert (Habc1 : ((k * k) * k <= (a * b) * c)%Q) by nra.
  assert (Hk3 : (0 < k * k * k)%Q) by nra.
  split; [lra|].
  destruct (Qlt_le_dec (1 + (4 # 1000000000)) (a * b * c)) as [Hgt|Hle]; [|done].
  exfalso.
  assert (Hlt : ((1 + (4 # 1000000000)) * (k * k * k) < (a * b * c) * (k * k * k))%Q)
    by (apply Qmult_lt_compat_r; done).
  assert (Heq : ((a * b * c) * (k * k * k) == ((a * k) * (b * k)) * (c * k))%Q) by ring.
  lra.
Qed.

Section FlagFacts.
Context {Tensor : Type} `{!TensorShape Tensor}.

Lemma should_apply_effective_strength_false (self : ReferenceAdvanced.t Tensor)
    (channel_strength : Q) :
  let base := ReferenceAdvanced.base self in
  should_apply_effective_strength self channel_strength = Ok false <->
  isclose (AdvancedControlBase.strength base) 1 = true /\
  (exists keyframe,
     AdvancedControlBase._current_timestep_keyframe base = Some keyframe /\
     isclose (TimestepKeyframe.strength keyframe) 1 = true) /\
  isclose channel_strength 1 = true.
Proof.
  cbn zeta. unfold should_apply_effective_strength.
  destruct (isclose (AdvancedControlBase.strength _) 1).
  - destruct (AdvancedControlBase._current_timestep_keyframe _) as [kf|].
    + destruct (isclose (TimestepKeyframe.strength kf) 1) eqn:Hk,
        (isclose channel_strength 1) eqn:Hc; cbn; split; try done.
      * intros _. split; [done|]. split; [|done]. exists kf. done.
      * intros (_ & _ & [=]).
      * intros (_ & (kf' & [= <-] & Hk') & _). congruence.
      * intros (_ & _ & [=]).
    + split; [done|]. intros (_ & (kf & [=] & _) & _).
  - split; [done|]. intros ([=] & _).
Qed.

(** X15.  The READ loops blend a bank entry with the effective strength only
    when [any_attn_strength_to_apply] (resp. the adain one) holds.  After
    [get_control_advanced] has set the flags, the blend of a channel is
    skipped exactly when no mask is in effect and [self.strength], the
    current keyframe's strength and the channel's strength are each close to
    1.0 in the sense of [math.isclose]; the factor the blend would have used
    then differs from 1 by at most 4e-9.  Setting the flags raises
    [AttributeError] exactly when [self.strength] is close to 1.0 and no
    keyframe is current; otherwise it returns, leaving the options and the
    base-class state as they were and [latent_shape] at the shape of
    [x_noisy]. *)
Theorem strength_blend_is_skipped_only_near_one (self : ReferenceAdvanced.t Tensor)
    (x_noisy_shape : list Z) :
  let base := ReferenceAdvanced.base self in
  let attn_strength := ReferenceOptions.attn_strength (ReferenceAdvanced.ref_opts self) in
  let adain_strength := ReferenceOptions.adain_strength (ReferenceAdvanced.ref_opts self) in
  let masks := AdvancedControlBase.latent_keyframes base
               || AdvancedControlBase.mask_cond_hint base
               || AdvancedControlBase.tk_mask_cond_hint base in
  let near_one (channel_strength : Q) :=
    isclose (AdvancedControlBase.strength base) 1 = true /\
    (exists keyframe,
       AdvancedControlBase._current_timestep_keyframe base = Some keyframe /\
       isclose (TimestepKeyframe.strength keyframe) 1 = true) /\
    isclose channel_strength 1 = true in
  (* when setting the flags raises *)
  (get_control_advanced_flags self x_noisy_shape = Raised AttributeError <->
   isclose (AdvancedControlBase.strength base) 1 = true /\
   AdvancedControlBase._current_timestep_keyframe base = None) /\
  (is_ok (get_control_advanced_flags self x_noisy_shape) = false ->
   get_control_advanced_flags self x_noisy_shape = Raised AttributeError) /\
  (* what the flags are when it returns *)
  (forall self', get_control_advanced_flags self x_noisy_shape = Ok self' ->
     ReferenceAdvanced.ref_opts self' = ReferenceAdvanced.ref_opts self /\
     ReferenceAdvanced.base self' = base /\
     ReferenceAdvanced.latent_shape self' = Some x_noisy_shape /\
     (ReferenceAdvanced.any_attn_strength_to_apply self' = false <->
      masks = false /\ near_one attn_strength) /\
     (ReferenceAdvanced.any_adain_strength_to_apply self' = false <->
      masks = false /\ near_one adain_strength) /\
     (ReferenceAdvanced.any_attn_strength_to_apply self' = false ->
      forall channels is_mid,
      exists s, get_effective_attn_mask_or_float self' channels is_mid = Ok (Strength s) /\
                (1 - (4 # 1000000000) <= s)%Q /\ (s <= 1 + (4 # 1000000000))%Q) /\
     (ReferenceAdvanced.any_adain_strength_to_apply self' = false ->
      forall x_shape,
      exists s, get_effective_adain_mask_or_float self' x_shape = Strength s /\
                (1 - (4 # 1000000000) <= s)%Q /\ (s <= 1 + (4 # 1000000000))%Q)).
Proof.
  cbn zeta.
  pose proof (should_apply_effective_strength_false self
                (ReferenceOptions.attn_strength (ReferenceAdvanced.ref_opts self))) as Hattn.
  pose proof (should_apply_effective_strength_false self
                (ReferenceOptions.adain_strength (ReferenceAdvanced.ref_opts self))) as Hadain.
  cbn zeta in Hattn, Hadain.
  unfold get_control_advanced_flags.
  unfold should_apply_effective_strength in *.
  destruct (isclose (AdvancedControlBase.strength (ReferenceAdvanced.base self)) 1) eqn:Hs.
  - destruct (AdvancedControlBase._current_timestep_keyframe (ReferenceAdvanced.base self))
      as [kf|] eqn:Hkf.
    + split; [split; [done|intros [_ [=]]]|]. split; [done|].
      intros self' [= <-]. cbn [ReferenceAdvanced.ref_opts ReferenceAdvanced.base
        ReferenceAdvanced.latent_shape].
      split; [done|]. split; [done|]. split; [done|].
      unfold ReferenceAdvanced.any_attn_strength_to_apply,
        ReferenceAdvanced.any_adain_strength_to_apply.
      cbn [ReferenceAdvanced.should_apply_attn_effective_strength
           ReferenceAdvanced.should_apply_adain_effective_strength
           ReferenceAdvanced.should_apply_effective_masks].
      assert (Hiff : forall c,
                negb (isclose (TimestepKeyframe.strength kf) 1 && isclose c 1)
                || (AdvancedControlBase.latent_keyframes (ReferenceAdvanced.base self)
                    || AdvancedControlBase.mask_cond_hint (ReferenceAdvanced.base self)
                    || AdvancedControlBase.tk_mask_cond_hint (ReferenceAdvanced.base self))
                = false <->
                AdvancedControlBase.latent_keyframes (ReferenceAdvanced.base self)
                || AdvancedControlBase.mask_cond_hint (ReferenceAdvanced.base self)
                || AdvancedControlBase.tk_mask_cond_hint (ReferenceAdvanced.base self)
                = false /\
                (true = true /\
                 (exists keyframe, Some kf = Some keyframe /\
                    isclose (TimestepKeyframe.strength keyframe) 1 = true) /\
                 isclose c 1 = true)).
      { intros c. rewrite orb_false_iff, negb_false_iff, andb_true_iff. split.
        - intros [[Hk Hc] Hm]. split; [done|]. split; [done|]. split; [|done].
          exists kf. done.
        - intros [Hm (_ & (kf' & [= <-] & Hk) & Hc)]. done. }
      split; [apply Hiff|]. split; [apply Hiff|].
      apply isclose_one_bounds in Hs as [Hs1 Hs2].
      split; intros Hflag; apply orb_false_iff in Hflag as [Hf Hm];
        apply negb_false_iff, andb_true_iff in Hf as [Hk Hc];
        apply isclose_one_bounds in Hk as [Hk1 Hk2];
        apply isclose_one_bounds in Hc as [Hc1 Hc2].
      * intros channels is_mid. eexists. split.
        { unfold get_effective_attn_mask_or_float. cbn. rewrite Hm. cbn. reflexivity. }
        unfold get_effective_strength. cbn. rewrite Hkf.
        apply product_of_three_near_one; done.
      * intros x_shape. eexists. split.
        { unfold get_effective_adain_mask_or_float. cbn. rewrite Hm. cbn. reflexivity. }
        unfold get_effective_strength. cbn. rewrite Hkf.
        apply product_of_three_near_one; done.
    + split; [done|]. split; [done|]. intros self' [=].
  - split; [split; [done|intros [[=] _]]|]. split; [done|].
    intros self' [= <-]. cbn [ReferenceAdvanced.ref_opts ReferenceAdvanced.base
      ReferenceAdvanced.latent_shape].
    split; [done|]. split; [done|]. split; [done|].
    unfold ReferenceAdvanced.any_attn_strength_to_apply,
      ReferenceAdvanced.any_adain_strength_to_apply. cbn.
    repeat split; try done; intros [_ ([=] & _)].
Qed.
End FlagFacts.

(** ** Arithmetic *)

Section MoreKernelFacts.
Local Open Scope R_scope.

(** *** [ref_noise_latents] as a rescaled [latents + sigma * noise] *)

Lemma ref_noise_coefficients (s : R) :
  let a := 1 / (s * s + 1) in
  sqrt a = 1 / sqrt (s * s + 1) /\
  sqrt (1 - a) = Rabs s / sqrt (s * s + 1) /\
  sqrt a * sqrt a + sqrt (1 - a) * sqrt (1 - a) = 1 /\
  0 < sqrt a <= 1.
Proof.
  cbn zeta.
  assert (Hpos : 0 < s * s + 1) by nra.
  assert (Hsq : 0 < sqrt (s * s + 1)) by (apply sqrt_lt_R0; done).
  assert (Ha : 0 < 1 / (s * s + 1)) by (apply Rdiv_lt_0_compat; lra).
  assert (Ha1 : 1 / (s * s + 1) <= 1).
  { apply (Rmult_le_reg_r (s * s + 1)); [done|]. field_simplify; [nra|lra]. }
  assert (H1 : sqrt (1 / (s * s + 1)) = 1 / sqrt (s * s + 1)).
  { rewrite sqrt_div_alt by done. rewrite sqrt_1. done. }
  assert (H2 : 1 - 1 / (s * s + 1) = (s * s) / (s * s + 1)) by (field; lra).
  repeat split.
  - done.
  - rewrite H2, sqrt_div_alt by done. f_equal.
    replace (s * s) with (Rsqr s) by (unfold Rsqr; done). apply sqrt_Rsqr_abs.
  - rewrite !sqrt_sqrt by lra. lra.
  - apply sqrt_lt_R0. done.
  - pose proof (sqrt_le_1_alt _ _ Ha1) as Hle. rewrite sqrt_1 in Hle. done.
Qed.

Section RefNoiseMoreFacts.
Variable randn_like : RTensor -> RTensor.

(** X16.  [ref_noise_latents] is the plain noising [latents + |sigma| * noise]
    divided by [sqrt(sigma^2 + 1)]: element [i] of sample [b] of the result
    is [(latents + |sigma_b| * noise) / sqrt(sigma_b^2 + 1)].  The two
    coefficients of the mix therefore have squares that add up to 1, the
    first one lying in (0, 1]: the mix of unit-variance latents with
    independent unit-variance noise has unit variance again. *)
Theorem ref_noise_latents_is_rescaled_additive_noise (latents : RTensor) (sigma : list R)
    (noise : option RTensor) :
  let eps := match noise with None => randn_like latents | Some noise => noise end in
  let sigma_b := expand (length latents) sigma in
  length sigma_b = length latents ->
  same_shape latents eps ->
  exists out : RTensor,
    ref_noise_latents randn_like latents sigma noise = Some out /\
    forall (b i : nat) (s l e : R) (sample noise_sample : list R),
      sigma_b !! b = Some s ->
      latents !! b = Some sample -> sample !! i = Some l ->
      eps !! b = Some noise_sample -> noise_sample !! i = Some e ->
      exists (row : list R) (c_latents c_noise : R),
        out !! b = Some row /\
        row !! i = Some (c_latents * l + c_noise * e) /\
        c_latents * l + c_noise * e = (l + Rabs s * e) / sqrt (s * s + 1) /\
        c_latents * c_latents + c_noise * c_noise = 1 /\
        0 < c_latents <= 1 /\ c_noise = Rabs s * c_latents.
Proof.
  cbn zeta. intros Hlen Hs. eexists. split.
  - apply ref_noise_latents_closed_form; done.
  - intros b i s l e sample noise_sample Hsig Hb Hi Heb Hei.
    rewrite !lookup_zip_with, !list_lookup_fmap, Hsig, Hb, Heb. cbn.
    destruct (ref_noise_coefficients s) as (H1 & H2 & H3 & H4). cbn zeta in *.
    eexists _, (sqrt (1 / (s * s + 1))), (sqrt (1 - 1 / (s * s + 1))).
    split; [reflexivity|].
    split; [rewrite lookup_zip_with, !list_lookup_fmap, Hi, Hei; done|].
    split; [|split; [done|split; [done|]]].
    + rewrite H1, H2. field. apply Rgt_not_eq, sqrt_lt_R0. nra.
    + rewrite H1, H2. field. apply Rgt_not_eq, sqrt_lt_R0. nra.
Qed.
End RefNoiseMoreFacts.
End MoreKernelFacts.

Section AdaINFacts.
Local Open Scope R_scope.

Lemma Rsum_affine (a b : R) (l : list R) :
  Rsum (map (fun v => a * v + b) l) = a * Rsum l + INR (length l) * b.
Proof.
  induction l as [|v l IH]; [cbn; lra|].
  cbn [map Rsum fold_right length]. fold (Rsum (map (fun v => a * v + b) l)). fold (Rsum l).
  rewrite IH, S_INR. lra.
Qed.

Lemma Rsum_scale (a : R) (l : list R) (f : R -> R) :
  Rsum (map (fun v => a * f v) l) = a * Rsum (map f l).
Proof.
  induction l as [|v l IH]; [cbn; lra|].
  cbn [map Rsum fold_right]. fold (Rsum (map (fun v => a * f v) l)). fold (Rsum (map f l)).
  rewrite IH. lra.
Qed.

Lemma INR_length_pos {A : Type} (l : list A) : l <> [] -> 0 < INR (length l).
Proof. destruct l; [done|]. intros _. apply lt_0_INR. cbn. lia. Qed.

Lemma plane_mean_affine (a b : R) (l : list R) :
  l <> [] -> plane_mean (map (fun v => a * v + b) l) = a * plane_mean l + b.
Proof.
  intros Hne. unfold plane_mean. rewrite Rsum_affine, length_map.
  pose proof (INR_length_pos l Hne). field. lra.
Qed.

Lemma plane_var_affine (a b : R) (l : list R) :
  l <> [] -> plane_var (map (fun v => a * v + b) l) = a * a * plane_var l.
Proof.
  intros Hne. unfold plane_var. rewrite plane_mean_affine by done.
  rewrite map_map, length_map.
  rewrite (map_ext _ (fun v => (a * a) * ((v - plane_mean l) * (v - plane_mean l)))).
  2:{ intros v. ring. }
  rewrite (Rsum_scale (a * a) l (fun v => (v - plane_mean l) * (v - plane_mean l))).
  pose proof (INR_length_pos l Hne). field. lra.
Qed.

Lemma plane_var_nonneg (l : list R) : 0 <= plane_var l.
Proof.
  unfold plane_var.
  assert (Hs : 0 <= Rsum (map (fun v => (v - plane_mean l) * (v - plane_mean l)) l)).
  { generalize (plane_mean l). intros m. unfold Rsum.
    induction l as [|v l IH]; cbn; [lra|].
    pose proof (Rle_0_sqr (v - m)) as Hsq. unfold Rsqr in Hsq. lra. }
  destruct l as [|v l]; [cbn; lra|].
  apply Rmult_le_pos; [done|]. left. apply Rinv_0_lt_compat, INR_length_pos. done.
Qed.

(** The renormalized plane: the values of [plane] standardized with its own
    statistics, then scaled and shifted to the statistics [var_acc],
    [mean_acc]. *)
Lemma renormalized_plane_stats (plane : list R) (var_acc mean_acc : R) :
  plane <> [] ->
  let y := map (fun e => (e - plane_mean plane) / sqrt (Rmax (plane_var plane) eps)
                         * sqrt (Rmax var_acc eps) + mean_acc) plane in
  plane_mean y = mean_acc /\
  (eps <= plane_var plane -> plane_var y = Rmax var_acc eps) /\
  (var_acc = plane_var plane -> mean_acc = plane_mean plane -> eps <= plane_var plane ->
   y = plane).
Proof.
  intros Hne. cbn zeta.
  assert (Heps : 0 < eps) by (unfold eps; lra).
  assert (Hm : 0 < Rmax (plane_var plane) eps).
  { eapply Rlt_le_trans; [exact Heps|apply Rmax_r]. }
  assert (Hma : 0 < Rmax var_acc eps).
  { eapply Rlt_le_trans; [exact Heps|apply Rmax_r]. }
  assert (Hsd : 0 < sqrt (Rmax (plane_var plane) eps)) by (apply sqrt_lt_R0; done).
  set (sd := sqrt (Rmax (plane_var plane) eps)) in *.
  set (sa := sqrt (Rmax var_acc eps)) in *.
  set (m := plane_mean plane) in *.
  assert (Hext : forall e, (e - m) / sd * sa + mean_acc
                           = (sa / sd) * e + (mean_acc - m * sa / sd)).
  { intros e. field. lra. }
  rewrite (map_ext _ _ Hext).
  split; [|split].
  - rewrite plane_mean_affine by done. fold m. field. lra.
  - intros Hv. rewrite plane_var_affine by done.
    assert (Hmax : Rmax (plane_var plane) eps = plane_var plane)
      by (apply Rmax_left; done).
    assert (Hsd2 : sd * sd = plane_var plane).
    { subst sd. rewrite sqrt_sqrt by lra. done. }
    assert (Hsa2 : sa * sa = Rmax var_acc eps).
    { subst sa. rewrite sqrt_sqrt by lra. done. }
    rewrite <- Hsa2, <- Hsd2 at 1. field. lra.
  - intros -> -> Hv. fold m. 
    assert (Hsame : sa = sd) by done. rewrite Hsame.
    rewrite <- (map_id plane) at 2. apply map_ext. intros e. field. lra.
Qed.

(** *** From planes to tensors *)

Local Abbreviation pm f := (fun (plane : list R) (v : R) => map (fun e : R => f e v) plane).
Local Abbreviation sm f :=
  (fun (sample : list (list R)) (row : list R) => zip_with (pm f) sample row).

Lemma broadcast_to_same {A : Type} (k : nat) (l : list A) :
  length l = k -> broadcast_to k l = Some l.
Proof. intros <-. unfold broadcast_to. rewrite Nat.eqb_refl. done. Qed.

Lemma samples_with_stats_closed (f : R -> R -> R) (x : list (list (list R)))
    (stats : list (list R)) :
  stats_shape x stats -> samples_with_stats f x stats = Some (zip_with (sm f) x stats).
Proof.
  unfold stats_shape. induction 1 as [|sample row x stats Hrow Hrest IH]; cbn; [done|].
  unfold sample_with_stats. rewrite (broadcast_to_same _ _ Hrow), IH. done.
Qed.

Lemma with_stats_closed (f : R -> R -> R) (x : list (list (list R))) (stats : list (list R)) :
  stats_shape x stats -> with_stats f x stats = Some (zip_with (sm f) x stats).
Proof.
  intros Hs. unfold with_stats.
  rewrite broadcast_to_same by (symmetry; eapply Forall2_length, Hs).
  apply samples_with_stats_closed, Hs.
Qed.

Lemma closed_shape (f : R -> R -> R) (x : list (list (list R))) (s s' : list (list R)) :
  stats_shape x s -> stats_shape x s' -> stats_shape (zip_with (sm f) x s) s'.
Proof.
  unfold stats_shape. intros Hs. revert s'.
  induction Hs as [|sample row x s Hrow Hrest IH]; intros s' Hs'; inversion Hs'; subst;
    cbn; constructor; [|auto].
  rewrite length_zip_with. lia.
Qed.

Lemma stats_shape_own (g : list R -> R) (x : list (list (list R))) :
  stats_shape x (map (map g) x).
Proof.
  unfold stats_shape. induction x as [|sample x IH]; cbn; constructor; [|done].
  apply length_map.
Qed.

Lemma stats_shape_map (g : R -> R) (x : list (list (list R))) (s : list (list R)) :
  stats_shape x s -> stats_shape x (map (map g) s).
Proof.
  unfold stats_shape. induction 1; cbn; constructor; [|done]. rewrite length_map. done.
Qed.

(** The closed form of [sub_y_uc] on statistics of the shape of [x]'s own. *)
Lemma adain_sub_y_uc_closed (x : list (list (list R))) (var_acc mean_acc : list (list R)) :
  stats_shape x var_acc -> stats_shape x mean_acc ->
  adain_sub_y_uc x var_acc mean_acc =
  Some (zip_with (sm Rplus)
          (zip_with (sm Rmult)
             (zip_with (sm Rdiv)
                (zip_with (sm Rminus) x (map (map plane_mean) x))
                (std_of (map (map plane_var) x)))
             (std_of var_acc))
          mean_acc).
Proof.
  intros Hv Hm. unfold adain_sub_y_uc, var_mean_R.
  pose proof (stats_shape_own plane_mean x) as H1.
  pose proof (stats_shape_map (fun v => sqrt (Rmax v eps)) _ _ (stats_shape_own plane_var x))
    as H2.
  pose proof (stats_shape_map (fun v => sqrt (Rmax v eps)) _ _ Hv) as H3.
  fold (std_of (map (map plane_var) x)) in H2. fold (std_of var_acc) in H3.
  rewrite (with_stats_closed _ _ _ H1).
  pose proof (closed_shape Rminus _ _ _ H1 H2) as K2.
  pose proof (closed_shape Rminus _ _ _ H1 H3) as K3.
  pose proof (closed_shape Rminus _ _ _ H1 Hm) as K4.
  rewrite (with_stats_closed _ _ _ K2).
  pose proof (closed_shape Rdiv _ _ _ K2 K3) as L3.
  pose proof (closed_shape Rdiv _ _ _ K2 K4) as L4.
  rewrite (with_stats_closed _ _ _ L3).
  apply with_stats_closed.
  apply (closed_shape Rmult _ _ _ L3 L4).
Qed.

Lemma zero_plus_map (g : R -> R) (l : list R) :
  zip_with Rplus (map (fun _ => 0) l) (map g l) = map g l.
Proof. induction l as [|e l IH]; cbn; [done|]. f_equal; [lra|done]. Qed.

Lemma sample_level_stats (sample : list (list R)) (vrow mrow : list R) :
  length vrow = length sample -> length mrow = length sample ->
  Forall (fun plane => plane <> []) sample ->
  let ys :=
    zip_with (pm Rplus)
      (zip_with (pm Rmult)
         (zip_with (pm Rdiv)
            (zip_with (pm Rminus) sample (map plane_mean sample))
            (map (fun v => sqrt (Rmax v eps)) (map plane_var sample)))
         (map (fun v => sqrt (Rmax v eps)) vrow))
      mrow in
  map plane_mean ys = mrow /\
  (Forall (fun plane => eps <= plane_var plane) sample ->
   map plane_var ys = map (fun v => Rmax v eps) vrow) /\
  (Forall (fun plane => eps <= plane_var plane) sample ->
   vrow = map plane_var sample -> mrow = map plane_mean sample -> ys = sample) /\
  planes_zip Rplus (map (map (fun _ => 0)) sample) ys = Some ys.
Proof.
  cbn zeta. revert vrow mrow.
  induction sample as [|plane sample IH]; intros [|v vrow] [|m mrow] Hv Hm Hne;
    cbn [length] in *; try done.
  inversion Hne as [|? ? Hp Hrest]; subst.
  destruct (IH vrow mrow ltac:(lia) ltac:(lia) Hrest) as (IH1 & IH2 & IH3 & IH4).
  cbn [map zip_with]. rewrite !map_map. rewrite !map_map in IH1, IH2, IH3, IH4.
  destruct (renormalized_plane_stats plane v m Hp) as (P1 & P2 & P3). cbn zeta in P1, P2, P3.
  split; [|split; [|split]].
  - f_equal; done.
  - intros Hall. inversion Hall; subst. f_equal; auto.
  - intros Hall [= -> ->] [= -> ->]. inversion Hall; subst. f_equal; auto.
  - cbn [planes_zip]. rewrite IH4.
    unfold sample_zip. rewrite !length_map, Nat.eqb_refl. do 2 f_equal.
    apply zero_plus_map.
Qed.

(** X17.  The heart of the normalization READ: [((x - mean) / std) * std_acc
    + mean_acc], plane by plane.  For bank statistics with one value per
    sample and channel of [x], and planes that are not empty, the result has
    exactly the mean the bank entry holds; where the variance of [x] is at
    least [eps] it also has the variance the entry holds (raised to [eps] when
    smaller).  With a single consumed entry and no strength to apply this
    result is [y_uc].  An entry that holds [x]'s own statistics gives back
    [x].  Variance is the population variance, arithmetic that of the real
    numbers. *)
Theorem renormalized_output_has_the_statistics_of_the_bank_entry
    (x : list (list (list R))) (var_acc mean_acc : list (list R)) :
  stats_shape x var_acc -> stats_shape x mean_acc ->
  Forall (Forall (fun plane => plane <> [])) x ->
  exists y,
    adain_sub_y_uc x var_acc mean_acc = Some y /\
    adain_y_uc x [(var_acc, mean_acc, None)] 1 = Some y /\
    snd (var_mean_R y) = mean_acc /\
    (Forall (Forall (fun plane => eps <= plane_var plane)) x ->
     fst (var_mean_R y) = map (map (fun v => Rmax v eps)) var_acc /\
     (var_acc = fst (var_mean_R x) -> mean_acc = snd (var_mean_R x) -> y = x)).
Proof.
  intros Hv Hm Hne. eexists. split; [apply adain_sub_y_uc_closed; done|].
  unfold adain_y_uc. cbn [adain_accumulate Nat.ltb Nat.leb].
  rewrite (adain_sub_y_uc_closed _ _ _ Hv Hm).
  unfold stats_shape, var_mean_R, std_of in *. cbn [fst snd].
  revert mean_acc Hm Hne.
  induction Hv as [|sample vrow x var_acc Hrow Hrest IH]; intros mean_acc Hm Hne;
    inversion Hm as [|? mrow ? mean_acc' Hmrow Hmrest]; subst; [cbn; done|].
  inversion Hne as [|? ? Hsample Hx]; subst.
  destruct (IH mean_acc' Hmrest Hx) as (T1 & T2 & T3).
  destruct (sample_level_stats sample vrow mrow Hrow Hmrow Hsample) as (S1 & S2 & S3 & S4).
  cbn zeta in S1, S2, S3, S4.
  cbn [map zip_with samples_zip]. rewrite S4.
  destruct (samples_zip Rplus _ _) as [rest|] eqn:Hz; [|done].
  injection T1 as T1. rewrite T1.
  split; [done|]. split; [f_equal; done|].
  intros Hall. inversion Hall as [|? ? Hs1 Hs2]; subst.
  destruct (T3 Hs2) as [T4 T5]. split; [f_equal; auto|].
  intros [= -> ->] [= -> ->]. f_equal; auto.
Qed.
End AdaINFacts.

(** ** Instances of the further properties on the scenario *)

Section MoreScenarioFacts.
Import Scenario.

Lemma write_needs_weight_above_threshold_witness :
  let o := <[REF_UNCOND_IDXS := PyIntList [0%Z]]> (layer_options [u_zero] []) in
  _forward_inject_BasicTransformerBlock Detach Attn1 Attn1Ref attn_holder (Sym "n") o
  = (Ok (Attn1 (Sym "n")), attn_holder) /\
  forward_timestep_embed_ref_inject var_mean AdaIN gn_holder (Sym "x") o
  = (Ok (Sym "x"), gn_holder).
Proof.
  cbn zeta.
  assert (Huc : get_int_list
                  (<[REF_UNCOND_IDXS := PyIntList [0%Z]]> (layer_options [u_zero] []))
                  REF_UNCOND_IDXS = Ok [0%Z]) by (vm_compute; reflexivity).
  pose proof (write_needs_weight_above_threshold Detach Attn1 Attn1Ref var_mean AdaIN
                _ [0%Z] [u_zero] Huc) as (Hattn & Hgn & _).
  split.
  - apply Hattn; [vm_compute; reflexivity | vm_compute; reflexivity |].
    apply Forall_cons_2; [vm_compute; discriminate|apply Forall_nil_2].
  - apply Hgn; [vm_compute; reflexivity | vm_compute; reflexivity |].
    apply Forall_cons_2; [vm_compute; discriminate|apply Forall_nil_2].
Defined.

Lemma contextref_entries_are_not_read_by_the_call_that_writes_them_witness :
  let o := <[REF_UNCOND_IDXS := PyIntList [0%Z]]> (layer_options [cref_attn] [cref_attn]) in
  let r := _forward_inject_BasicTransformerBlock Detach Attn1 Attn1Ref attn_holder
             (Sym "n") o in
  fst r = Ok (Attn1 (Sym "n")) /\
  attn_context_entries (snd r) = ([Detach (Sym "n")], [1%Q], [(-1)%Z]).
Proof.
  cbn zeta. split; [vm_compute; reflexivity|].
  assert (Huc : get_int_list
                  (<[REF_UNCOND_IDXS := PyIntList [0%Z]]>
                     (layer_options [cref_attn] [cref_attn]))
                  REF_UNCOND_IDXS = Ok [0%Z]) by (vm_compute; reflexivity).
  assert (Hin : cref_attn ∈ [cref_attn]) by apply list_elem_of_here.
  pose proof (contextref_entries_are_not_read_by_the_call_that_writes_them
                Detach Attn1 Attn1Ref var_mean AdaIN _ [0%Z] [cref_attn] [cref_attn]
                cref_attn Huc Hin eq_refl) as (Hattn & _).
  destruct (Hattn attn_holder
              (snd (_forward_inject_BasicTransformerBlock Detach Attn1 Attn1Ref attn_holder
                      (Sym "n")
                      (<[REF_UNCOND_IDXS := PyIntList [0%Z]]>
                         (layer_options [cref_attn] [cref_attn]))))
              (Sym "n") (Attn1 (Sym "n"))) as (Hent & _);
    [vm_compute; reflexivity | vm_compute; reflexivity | vm_compute; reflexivity
    | vm_compute; reflexivity |].
  rewrite Hent. vm_compute; reflexivity.
Defined.

Lemma attention_read_takes_mean_fidelity_normalization_read_the_last_witness :
  let h := snd (attn_layer (snd (attn_layer attn_holder (Sym "n3") [u3] []))
                  (Sym "n7") [u7] []) in
  let g := snd (gn_layer (snd (gn_layer gn_holder (Sym "x3") [u3] []))
                  (Sym "x7") [u7] []) in
  let o := <[REF_UNCOND_IDXS := PyIntList [0%Z]]> (layer_options [] [u3; u7]) in
  (exists real_bank,
     fst (_forward_inject_BasicTransformerBlock Detach Attn1 Attn1Ref h (Sym "n") o)
     = Ok (Attn1Ref (Sym "n") ((0 + (1 # 4) + (3 # 4)) / inject_Z 2)%Q real_bank [0%Z]) /\
     map fst real_bank = [Detach (Sym "n3"); Detach (Sym "n7")]) /\
  (exists consumed,
     fst (forward_timestep_embed_ref_inject var_mean AdaIN g (Sym "x") o)
     = Ok (AdaIN (Sym "x") (3 # 4)%Q consumed 2 [0%Z]) /\
     length consumed = 2%nat).
Proof.
  cbn zeta.
  assert (Huc : get_int_list
                  (<[REF_UNCOND_IDXS := PyIntList [0%Z]]> (layer_options [] [u3; u7]))
                  REF_UNCOND_IDXS = Ok [0%Z]) by (vm_compute; reflexivity).
  assert (Hne : [u3; u7] <> []) by discriminate.
  pose proof (attention_read_takes_mean_fidelity_normalization_read_the_last
                Detach Attn1 Attn1Ref var_mean AdaIN _ [0%Z] [u3; u7] Huc Hne)
    as (Hattn & Hgn).
  split.
  - set (h := snd (attn_layer (snd (attn_layer attn_holder (Sym "n3") [u3] []))
                     (Sym "n7") [u7] [])).
    set (r := _forward_inject_BasicTransformerBlock Detach Attn1 Attn1Ref h (Sym "n") _).
    destruct (Hattn h (snd r) (Sym "n")
                (match fst r with Ok out => out | Raised _ => Sym "n" end))
      as (real_bank & Hout & Hbank);
      [vm_compute; reflexivity | vm_compute; reflexivity | vm_compute; discriminate
      | vm_compute; reflexivity |].
    exists real_bank. split.
    + transitivity (Ok (match fst r with Ok out => out | Raised _ => Sym "n" end));
        [vm_compute; reflexivity|].
      rewrite Hout. vm_compute; reflexivity.
    + rewrite Hbank. vm_compute; reflexivity.
  - set (g := snd (gn_layer (snd (gn_layer gn_holder (Sym "x3") [u3] []))
                     (Sym "x7") [u7] [])).
    set (r := forward_timestep_embed_ref_inject var_mean AdaIN g (Sym "x") _).
    destruct (Hgn g (snd r) (Sym "x")
                (match fst r with Ok out => out | Raised _ => Sym "x" end))
      as (style_fidelity & consumed & Hout & Hlast & Hlen);
      [vm_compute; reflexivity | vm_compute; reflexivity | vm_compute; discriminate
      | vm_compute; repeat split | vm_compute; reflexivity |].
    vm_compute in Hlast. injection Hlast as <-.
    exists consumed. split.
    + transitivity (Ok (match fst r with Ok out => out | Raised _ => Sym "x" end));
        [vm_compute; reflexivity|].
      rewrite Hout. vm_compute; reflexivity.
    + rewrite Hlen. vm_compute; reflexivity.
Defined.

Lemma nested_wrappers_repeat_the_normalization_write_witness :
  let o := <[REF_UNCOND_IDXS := PyIntList [0%Z]]> (layer_options [u3] []) in
  let d := RefInject (RefInject OrigDispatch) in
  call_forward_timestep_embed var_mean AdaIN d None (Sym "x") o [gn_holder]
  = (Ok (Sym "x"), [gn_holder]) /\
  exists self',
    call_forward_timestep_embed var_mean AdaIN d (Some 0%nat) (Sym "x") o [gn_holder]
    = (Ok (Sym "x"), [self']) /\
    BankStylesTimestepEmbedSequential.cn_idx
      (InjectionTimestepEmbedSequentialHolder.bank_styles self') = [3%Z; 3%Z].
Proof.
  cbn zeta.
  destruct (nested_wrappers_repeat_the_normalization_write var_mean AdaIN
              (<[REF_UNCOND_IDXS := PyIntList [0%Z]]> (layer_options [u3] []))
              [0%Z] [u3] (RefInject (RefInject OrigDispatch)) (Sym "x") [gn_holder])
    as (Hnone & Hsome);
    [vm_compute; reflexivity | vm_compute; reflexivity | vm_compute; reflexivity |].
  split; [exact Hnone|].
  destruct (Hsome 0%nat gn_holder eq_refl) as (self' & Hcall & Hidx & _).
  exists self'. split; [exact Hcall|].
  rewrite Hidx. vm_compute; reflexivity.
Defined.

Lemma forward_makes_reference_passes_in_order_then_real_pass_witness :
  let w := world (options [u3; u7] [] MachineState.OFF MachineState.OFF) in
  World.forward_calls (snd (forward unet (Sym "x") w))
  = [(Sym "hint3", false); (Sym "hint7", false); (Sym "x", true)].
Proof.
  cbn zeta.
  destruct (forward_makes_reference_passes_in_order_then_real_pass Detach Attn1 Attn1Ref
              var_mean AdaIN batch_size unet (Sym "x")
              (world (options [u3; u7] [] MachineState.OFF MachineState.OFF))
              _ _ [u3; u7] ltac:(vm_compute; reflexivity) (surjective_pairing _))
    as (made & Hcalls & _ & Hok).
  destruct Hok as (Hmade & _); [vm_compute; reflexivity|].
  unfold forward. rewrite Hcalls, Hmade. vm_compute; reflexivity.
Defined.

Lemma failing_cond_or_uncond_surfaces_as_unbound_local_witness :
  let o : gmap string (pyval sym) :=
    <[REF_CONTROL_LIST_ALL := PyControlList [u3]]>
      (<[CONTEXTREF_CONTROL_LIST_ALL := PyControlList []]> ∅) in
  fst (forward unet (Sym "x") (world o)) = Raised (UnboundLocalError "adain_controlnets") /\
  World.forward_calls (snd (forward unet (Sym "x") (world o))) = [].
Proof.
  cbn zeta.
  destruct (failing_cond_or_uncond_surfaces_as_unbound_local Detach Attn1 Attn1Ref
              var_mean AdaIN batch_size unet (Sym "x")
              (world (<[REF_CONTROL_LIST_ALL := PyControlList [u3]]>
                        (<[CONTEXTREF_CONTROL_LIST_ALL := PyControlList []]> ∅)))
              [u3] [])
    as (_ & Hcall);
    [vm_compute; reflexivity | vm_compute; reflexivity | vm_compute; reflexivity
    | left; vm_compute; reflexivity |].
  unfold forward. rewrite Hcall. split; reflexivity.
Defined.

Lemma forward_writes_only_its_own_keys_witness :
  let w := world (options [u3; u7] [cref_attn] MachineState.WRITE MachineState.WRITE) in
  let w' := snd (forward unet_failing (Sym "x") w) in
  fst (forward unet_failing (Sym "x") w) = Raised ModelError /\
  World.transformer_options w' !! CONTEXTREF_ATTN_MACHINE_STATE
  = Some (PyStr MachineState.WRITE) /\
  World.transformer_options w' !! REF_CONTROL_LIST_ALL = Some (PyControlList [u3; u7]) /\
  World.forward_timestep_embed w' = OrigDispatch.
Proof.
  cbn zeta. split; [vm_compute; reflexivity|].
  destruct (forward_writes_only_its_own_keys Detach Attn1 Attn1Ref var_mean AdaIN
              batch_size unet_failing (Sym "x")
              (world (options [u3; u7] [cref_attn] MachineState.WRITE MachineState.WRITE))
              _ _ [u3; u7] [cref_attn]
              ltac:(vm_compute; reflexivity) ltac:(vm_compute; reflexivity)
              (surjective_pairing _))
    as (Hkeys & _ & Hdispatch).
  unfold forward. split; [|split].
  - rewrite Hkeys; [vm_compute; reflexivity|].
    refine (bool_decide_unpack _ _). vm_compute. exact I.
  - rewrite Hkeys; [vm_compute; reflexivity|].
    refine (bool_decide_unpack _ _). vm_compute. exact I.
  - rewrite Hdispatch; [reflexivity|]. left. vm_compute. discriminate.
Defined.

Lemma contextref_without_flag_leaves_nothing_behind_witness :
  let setup := handle_context_ref_setup true base_default
                 (<[COND_OR_UNCOND := PyIntList [0%Z; 1%Z]]> ∅) in
  let o := <[REF_CONTROL_LIST_ALL := PyControlList []]>
             (<[CONTEXTREF_ATTN_MACHINE_STATE := PyStr MachineState.WRITE]> (snd setup)) in
  let w' := snd (forward unet (Sym "x") (world o)) in
  is_ok (fst (forward unet (Sym "x") (world o))) = true /\
  own_banks_empty (World.reference_injections w') /\
  context_banks_empty (World.reference_injections w').
Proof.
  cbn zeta. split; [vm_compute; reflexivity|].
  set (w := world _).
  eapply (contextref_without_flag_leaves_nothing_behind Detach Attn1 Attn1Ref var_mean
            AdaIN batch_size unet (Sym "x") w _
            (match fst (forward unet (Sym "x") w) with Ok outs => outs | Raised _ => [] end)
            []
            (fst (handle_context_ref_setup true base_default
                    (<[COND_OR_UNCOND := PyIntList [0%Z; 1%Z]]> ∅)))
            MachineState.WRITE).
  - vm_compute; reflexivity.
  - vm_compute; reflexivity.
  - vm_compute; reflexivity.
  - apply Forall_cons_2; [reflexivity|apply Forall_nil_2].
  - vm_compute; reflexivity.
  - left; reflexivity.
  - vm_compute; reflexivity.
Defined.


(** X11, the strength call.  The same call made with a unit that has masks
    in effect, on tensors of 512 channels: both passes are made, the READ of
    the real pass pairs the entry and the strength call raises [KeyError];
    the banks are empty afterwards all the same. *)
Lemma refcn_call_with_masked_unit_raises_key_error :
  let w := world (options [u_masked] [] MachineState.OFF MachineState.OFF) in
  let r := @forward_inject_UNetModel sym shape_512 Detach Attn1 Attn1Ref var_mean AdaIN
             batch_size unet (Sym "x") w in
  fst r = Raised (KeyError "512") /\
  World.forward_calls (snd r) = [(Sym "hint5", false); (Sym "x", true)] /\
  World.reference_injections (snd r) = registry /\
  (* on tensors of 320 channels the call returns *)
  is_ok (fst (forward unet (Sym "x") w)) = true.
Proof. repeat split; vm_compute; reflexivity. Qed.

Lemma cond_and_uncond_idxs_are_the_blocks_of_their_marker_witness :
  let w := world (options [] [] MachineState.OFF MachineState.OFF) in
  exists (w' : World.t sym) (uncond cond : list Z),
    assign_cond_idxs batch_size (Sym "x") w = (Ok tt, w') /\
    World.transformer_options w' !! REF_UNCOND_IDXS = Some (PyIntList uncond) /\
    World.transformer_options w' !! REF_COND_IDXS = Some (PyIntList cond) /\
    1%Z ∈ uncond /\ 0%Z ∈ cond /\ 1%Z ∉ cond.
Proof.
  cbn zeta.
  destruct (cond_and_uncond_idxs_are_the_blocks_of_their_marker batch_size (Sym "x")
              (world (options [] [] MachineState.OFF MachineState.OFF)) [0%Z; 1%Z])
    as (w' & uncond & cond & Hcall & Hu & Hc & Hin_u & Hin_c & Hdisj);
    [vm_compute; reflexivity | discriminate |].
  exists w', uncond, cond.
  assert (H1 : 1%Z ∈ uncond).
  { apply Hin_u. exists 1%nat. split; [reflexivity|]. split; [vm_compute; lia|reflexivity]. }
  repeat split; try assumption.
  - apply Hin_c. exists 0%nat. split; [reflexivity|]. split; [vm_compute; lia|reflexivity].
  - apply Hdisj, H1.
Defined.

Lemma ref_noise_latents_is_rescaled_additive_noise_witness :
  exists out : RTensor,
    ref_noise_latents (fun t => t) [[2; 3]; [5; 7]]%R [1]%R (Some [[1; 1]; [1; 1]]%R)
    = Some out.
Proof.
  destruct (ref_noise_latents_is_rescaled_additive_noise (fun t => t) [[2; 3]; [5; 7]]%R
              [1]%R (Some [[1; 1]; [1; 1]]%R))
    as (out & Hcall & _).
  - reflexivity.
  - repeat constructor.
  - exists out. exact Hcall.
Defined.

Lemma renormalized_output_has_the_statistics_of_the_bank_entry_witness :
  exists y,
    adain_y_uc [[[1; 3]; [2; 2]]]%R [([[4; 9]]%R, [[5; 6]]%R, None)] 1 = Some y /\
    snd (var_mean_R y) = [[5; 6]]%R.
Proof.
  destruct (renormalized_output_has_the_statistics_of_the_bank_entry
              [[[1; 3]; [2; 2]]]%R [[4; 9]]%R [[5; 6]]%R)
    as (y & _ & Hcall & Hmean & _).
  - repeat constructor.
  - repeat constructor.
  - repeat (apply Forall_cons_2; [|apply Forall_nil_2]).
    apply Forall_cons_2; [discriminate|]. apply Forall_cons_2; [discriminate|apply Forall_nil_2].
  - exists y. split; assumption.
Defined.
End MoreScenarioFacts.
